(** * table_fu: the TableFu / Row / Datum model of [table_fu/__init__.py]

    A shallow embedding of the table data model and of its operations
    (construction, sort, transform, values, total, filter, facet_by,
    transpose, delete_row, Row access and export as items/dict), followed by
    the properties of the specification that they satisfy or break.

    Python values are embedded as follows.
    - A cell is a [string] (what [csv.reader] yields); string comparison is
      the byte-wise lexicographic one of Python 2 [str], i.e. [String.compare].
    - A raised exception is a value [Raise e] of the error monad [result];
      [e] carries the exception class and the message text the source formats.
    - A dict is a [gmap]; a list is a [list].
    - Methods that mutate [self] take the table and return the new table next
      to their outcome. *)

From Stdlib Require Import Floats.PrimFloat Numbers.Cyclic.Int63.Uint63.
From stdpp Require Import base option list strings gmap pretty sorting.

Set Default Proof Using "Type".

(** ** Exceptions and the error monad *)

Inductive exn : Type :=
| ValueError (msg : string)
| KeyError (msg : string)
| TypeError (msg : string)
| AttributeError (msg : string)
| IndexError (msg : string).

(** The class of an exception: what an [except] clause dispatches on. *)
Inductive exn_class : Type :=
| CValueError | CKeyError | CTypeError | CAttributeError | CIndexError.

Definition class_of (e : exn) : exn_class :=
  match e with
  | ValueError _ => CValueError
  | KeyError _ => CKeyError
  | TypeError _ => CTypeError
  | AttributeError _ => CAttributeError
  | IndexError _ => CIndexError
  end.

Inductive result (A : Type) : Type :=
| Ok (a : A)
| Raise (e : exn).
Arguments Ok {A} a.
Arguments Raise {A} e.

#[global] Instance result_ret : MRet result := @Ok.
#[global] Instance result_bind : MBind result := λ A B f m,
  match m with
  | Ok a => f a
  | Raise e => Raise e
  end.
#[global] Instance result_fmap : FMap result := λ A B f m,
  match m with
  | Ok a => Ok (f a)
  | Raise e => Raise e
  end.

(** ** Builtins *)

(** A cell holds a string. *)
Abbreviation cell := string (only parsing).

(** [u"{0} isn't a column in this table".format(name)] *)
Definition not_a_column (name : string) : string :=
  name +:+ " isn't a column in this table".

(** [x in l] and [l.index(x)] on a list of strings. [index] raises
    ValueError on an absent element ([None] here); its callers test [x in l]
    first, so the branches that raise it below are never taken. *)
Definition py_in (x : string) (l : list string) : bool := bool_decide (x ∈ l).

Fixpoint py_index (x : string) (l : list string) : option nat :=
  match l with
  | [] => None
  | y :: l' => if decide (y = x) then Some 0 else S <$> py_index x l'
  end.

(** [l[i]] for a list and a non-negative index. *)
Definition list_getitem {A} (l : list A) (i : nat) : result A :=
  match l !! i with
  | Some x => Ok x
  | None => Raise (IndexError "list index out of range")
  end.

(** [l[i] = v] *)
Definition list_setitem {A} (l : list A) (i : nat) (v : A) : result (list A) :=
  if decide (i < length l) then Ok (<[i := v]> l)
  else Raise (IndexError "list assignment index out of range").

(** [list.sort(key=..., reverse=...)], on the list already decorated with its
    keys. The sort is stable: an element goes in front of the first element
    that is not smaller than it ([<] is the only comparison used). With
    [reverse] the list is reversed, sorted and reversed again, which is how
    the builtin keeps equal keys in their original order. *)
Fixpoint sort_insert {A} (x : string * A) (l : list (string * A)) : list (string * A) :=
  match l with
  | [] => [x]
  | y :: l' => if String.ltb y.1 x.1 then y :: sort_insert x l' else x :: l
  end.

Fixpoint sort_ascending {A} (l : list (string * A)) : list (string * A) :=
  match l with
  | [] => []
  | x :: l' => sort_insert x (sort_ascending l')
  end.

Definition list_sort {A} (rev : bool) (l : list (string * A)) : list (string * A) :=
  if rev then reverse (sort_ascending (reverse l)) else sort_ascending l.

(** [dict(pairs)]: later pairs overwrite earlier ones. *)
Definition py_dict {V} (pairs : list (string * V)) : gmap string V :=
  foldl (λ m kv, <[kv.1 := kv.2]> m) ∅ pairs.

(** ** Data model *)

Record FormatSpec : Type := {
  spec_filter : option string;
  spec_args : list string;
  spec_options : list (string * string)
}.

(** The keyword arguments of the constructor, kept as [self.options]:
    the keys [columns], [formatting], [style] and [sorted_by], each present
    or not. [sorted_by] is [{column: {'reverse': r}}]; a missing ['reverse']
    reads as [False]. *)
Record Options : Type := {
  opt_columns : option (list string);
  opt_formatting : option (gmap string FormatSpec);
  opt_style : option (gmap string string);
  opt_sorted_by : option (string * bool)
}.

Definition no_options : Options :=
  {| opt_columns := None; opt_formatting := None; opt_style := None;
     opt_sorted_by := None |}.

(** [options.pop('columns', None)] *)
Definition pop_columns (o : Options) : Options :=
  {| opt_columns := None; opt_formatting := opt_formatting o;
     opt_style := opt_style o; opt_sorted_by := opt_sorted_by o |}.

Definition set_sorted_by (o : Options) (column_name : string) (reverse : bool) : Options :=
  {| opt_columns := opt_columns o; opt_formatting := opt_formatting o;
     opt_style := opt_style o; opt_sorted_by := Some (column_name, reverse) |}.

(** What a Row or a Datum reads through its back-reference to the table:
    [table.default_columns] and [table.columns]. *)
Record TableView : Type := {
  view_default_columns : list string;
  view_columns : list string
}.

Record Datum : Type := {
  value : cell;
  Datum_row_num : nat;
  column_name : string
}.

Record Row : Type := {
  cells : list cell;
  row_num : nat;
  Row_table : TableView
}.

(** A Python object that a cell-level accessor can hand out. *)
Inductive pyobj : Type :=
| PyStr (s : string)
| PyDatum (d : Datum).

(** Truth value of an object in a condition. [Datum] defines neither
    [__nonzero__] nor [__len__], so every Datum is true. *)
Definition truthy (o : pyobj) : bool :=
  match o with
  | PyStr s => negb (bool_decide (s = ""))
  | PyDatum _ => true
  end.

(** ** Row *)

(** [Row.get(column_name, default)] *)
Definition Row_get {D} (self : Row) (name : string) (default : D) : result (Datum + D) :=
  if py_in name (view_default_columns (Row_table self)) then
    match py_index name (view_default_columns (Row_table self)) with
    | Some index =>
        v ← list_getitem (cells self) index;
        Ok (inl {| value := v; Datum_row_num := row_num self; column_name := name |})
    | None => Raise (ValueError (name +:+ " is not in list"))
    end
  else Ok (inr default).

(** [Row.__getitem__(column_name)] for a column name. *)
Definition Row_getitem (self : Row) (name : string) : result Datum :=
  r ← Row_get self name ();
  match r with
  | inl datum => Ok datum
  | inr _ => Raise (KeyError (not_a_column name))
  end.

(** [Row.__getitem__(i)] for an integer [i]: no integer is equal to a column
    name, so [get] returns [None] and the KeyError is raised. *)
Definition Row_getitem_int (self : Row) (i : nat) : result cell :=
  Raise (KeyError (not_a_column (pretty i))).

(** [Row.__setitem__(i, v)] for an integer [i]. *)
Definition Row_setitem_int (self : Row) (i : nat) (v : cell) : result Row :=
  Raise (KeyError (not_a_column (pretty i))).

(** [Row.keys()] *)
Definition Row_keys (self : Row) : list string := view_columns (Row_table self).

(** [Row.data] *)
Definition Row_data (self : Row) : result (list Datum) :=
  mapM (Row_getitem self) (view_columns (Row_table self)).

(** [Row.values()] *)
Definition Row_values (self : Row) : result (list cell) :=
  Row_data self ≫= λ ds : list Datum, Ok (value <$> ds).

(** [Row.items()] *)
Definition Row_items (self : Row) : result (list (string * pyobj)) :=
  Row_values self ≫= λ vs : list cell, Ok (zip (Row_keys self) (PyStr <$> vs)).

(** ** Raw rows

    The elements of [self.table] are used through three operations: integer
    indexing [row[i]], item assignment [row[i] = v] and iteration
    [list(row)]. A table built from a 2D list or a CSV stream holds lists;
    [filter] builds one that holds Row objects. *)
Class RawRow (R : Type) : Type := {
  raw_getitem : R → nat → result cell;
  raw_setitem : R → nat → cell → result R;
  raw_iter : R → result (list cell)
}.

#[global] Instance list_RawRow : RawRow (list cell) := {
  raw_getitem := list_getitem;
  raw_setitem := list_setitem;
  raw_iter := Ok
}.

(** Iterating a Row yields [self.values()]. *)
#[global] Instance Row_RawRow : RawRow Row := {
  raw_getitem := Row_getitem_int;
  raw_setitem := Row_setitem_int;
  raw_iter := Row_values
}.

(** ** TableFu *)

Record TableFu (R : Type) : Type := {
  table : list R;
  default_columns : list string;
  _columns : list string;
  deleted_rows : list R;
  faceted_on : option string;
  formatting : gmap string FormatSpec;
  style : gmap string string;
  options : Options
}.
Arguments table {R} _.
Arguments default_columns {R} _.
Arguments _columns {R} _.
Arguments deleted_rows {R} _.
Arguments faceted_on {R} _.
Arguments formatting {R} _.
Arguments style {R} _.
Arguments options {R} _.

Definition set_table {R} (t : TableFu R) (rows : list R) : TableFu R :=
  {| table := rows; default_columns := default_columns t; _columns := _columns t;
     deleted_rows := deleted_rows t; faceted_on := faceted_on t;
     formatting := formatting t; style := style t; options := options t |}.

Definition set_options {R} (t : TableFu R) (o : Options) : TableFu R :=
  {| table := table t; default_columns := default_columns t; _columns := _columns t;
     deleted_rows := deleted_rows t; faceted_on := faceted_on t;
     formatting := formatting t; style := style t; options := o |}.

(** [TableFu._get_columns] *)
Definition columns {R} (self : TableFu R) : list string :=
  match _columns self with
  | [] => default_columns self
  | _ :: _ => _columns self
  end.

Definition view_of {R} (self : TableFu R) : TableView :=
  {| view_default_columns := default_columns self; view_columns := columns self |}.

(** [TableFu.sort(column_name, reverse)]. [None] is the omitted name. When a
    key raises, the builtin leaves the list as it was. *)
Definition sort_column {R} (self : TableFu R) (name : option string) : option string :=
  match name, opt_sorted_by (options self) with
  | (None | Some ""), Some (col, _) => Some col
  | _, _ => name
  end.

Definition TableFu_sort {R} `{RawRow R} (self : TableFu R) (name : option string)
    (reverse : bool) : result () * TableFu R :=
  match sort_column self name with
  | None => (Raise (ValueError (not_a_column "None")), self)
  | Some column_name =>
      if negb (py_in column_name (default_columns self)) then
        (Raise (ValueError (not_a_column column_name)), self)
      else
        match py_index column_name (default_columns self) with
        | None => (Raise (ValueError (column_name +:+ " is not in list")), self)
        | Some index =>
            match mapM (λ row, raw_getitem row index) (table self) with
            | Raise e => (Raise e, self)
            | Ok keys =>
                (Ok (),
                 set_options
                   (set_table self (snd <$> list_sort reverse (zip keys (table self))))
                   (set_sorted_by (options self) column_name reverse))
            end
        end
  end.

(** [TableFu.__init__] once [self.table.pop(0)] has split the header off. *)
Definition TableFu_init {R} `{RawRow R} (header : list string) (body : list R)
    (opts : Options) : result (TableFu R) :=
  let self :=
    {| table := body; default_columns := header;
       _columns := default [] (opt_columns opts);
       deleted_rows := []; faceted_on := None;
       formatting := default ∅ (opt_formatting opts);
       style := default ∅ (opt_style opts);
       options := opts |} in
  match opt_sorted_by opts with
  | Some (col, reverse) =>
      match TableFu_sort self (Some col) reverse with
      | (Ok _, self') => Ok self'
      | (Raise e, _) => Raise e
      end
  | None => Ok self
  end.

(** [TableFu(table, **options)] for an in-memory 2D list. *)
Definition TableFu_new (tbl : list (list cell)) (opts : Options)
    : result (TableFu (list cell)) :=
  match tbl with
  | [] => Raise (IndexError "pop from empty list")
  | header :: body => TableFu_init header body opts
  end.

(** [TableFu.rows]: one Row per raw row; [Row.__init__] copies the cells
    with [list(cells)]. *)
Definition Row_init {R} `{RawRow R} (raw : R) (i : nat) (tbl : TableView) : result Row :=
  raw_iter raw ≫= λ cs : list cell,
  Ok {| cells := cs; row_num := i; Row_table := tbl |}.

Definition enumerate {A} (l : list A) : list (nat * A) := zip (seq 0 (length l)) l.

Definition TableFu_rows {R} `{RawRow R} (self : TableFu R) : result (list Row) :=
  mapM (λ ir : nat * R, Row_init ir.2 ir.1 (view_of self)) (enumerate (table self)).

(** [TableFu.add_rows]: every given row is appended. *)
Definition TableFu_add_rows {R} (self : TableFu R) (rows : list R) : TableFu R :=
  set_table self (table self ++ rows).

(** Attribute lookup on a list object: its public methods (Python 2). *)
Definition list_attributes : list string :=
  ["append"; "count"; "extend"; "index"; "insert"; "pop"; "remove"; "reverse"; "sort"].

Definition list_getattr (name : string) : result string :=
  if py_in name list_attributes then Ok name
  else Raise (AttributeError ("'list' object has no attribute '" +:+ name +:+ "'")).

(** [TableFu.delete_row(row_num)]:
    [self.deleted_rows.append(self.table.rows.pop(row_num))]. The argument
    [self.table.rows.pop(row_num)] is evaluated before [append] is called;
    an attribute of a list is a builtin method, which has no [pop]. *)
Definition TableFu_delete_row {R} (self : TableFu R) (row_num : Z) : result () * TableFu R :=
  match list_getattr "rows" with
  | Raise e => (Raise e, self)
  | Ok _ =>
      (Raise (AttributeError
         "'builtin_function_or_method' object has no attribute 'pop'"), self)
  end.

(** [TableFu.transform(column_name, func)]. The rows are rewritten one after
    the other, so a row that raises leaves the earlier ones transformed.
    This is the table of values: it is what the rows hold afterwards when
    the list holds every row object once. [Store.transform] below is the
    loop on the row objects themselves, which comes to an object as often as
    the list holds it. *)
Inductive pyfunc : Type :=
| Callable (f : cell → cell)
| NotCallable (repr : string).

Fixpoint transform_rows {R} `{RawRow R} (index : nat) (f : cell → cell)
    (rows : list R) : result () * list R :=
  match rows with
  | [] => (Ok (), [])
  | row :: rest =>
      match raw_getitem row index with
      | Raise e => (Raise e, rows)
      | Ok val =>
          match raw_setitem row index (f val) with
          | Raise e => (Raise e, rows)
          | Ok row' =>
              let '(r, rest') := transform_rows index f rest in (r, row' :: rest')
          end
      end
  end.

Definition TableFu_transform {R} `{RawRow R} (self : TableFu R) (name : string)
    (func : pyfunc) : result () * TableFu R :=
  if negb (py_in name (default_columns self)) then
    (Raise (ValueError (not_a_column name)), self)
  else
    match func with
    | NotCallable repr => (Raise (TypeError (repr +:+ " isn't callable")), self)
    | Callable f =>
        match py_index name (default_columns self) with
        | None => (Raise (ValueError (name +:+ " is not in list")), self)
        | Some index =>
            let '(r, rows') := transform_rows index f (table self) in
            (r, set_table self rows')
        end
    end.

(** [TableFu.values(column_name)] with [unique=False]. *)
Definition TableFu_values {R} `{RawRow R} (self : TableFu R) (name : string)
    : result (list cell) :=
  if negb (py_in name (default_columns self)) then
    Raise (ValueError (not_a_column name))
  else
    match py_index name (default_columns self) with
    | None => Raise (ValueError (name +:+ " is not in list"))
    | Some index => mapM (λ row, raw_getitem row index) (table self)
    end.

(** [TableFu.values(column_name, unique=True)] *)
Definition TableFu_values_unique {R} `{RawRow R} (self : TableFu R) (name : string)
    : result (gset string) :=
  TableFu_values self name ≫= λ vs : list cell, Ok (list_to_set vs).

(** [TableFu.total(column_name)]. The numbers and the builtins [float] and
    [+] are parameters: [py_float s] is [inr x] when [float(s)] returns [x]
    and [inl msg] when it raises [ValueError(msg)]; [int_zero] is the [0]
    that [sum] starts from.

    The generator [(float(v) for v in self.values(column_name))] is built
    inside the [try] block, which evaluates [self.values(column_name)] only;
    the conversions run when [sum] consumes the generator, outside of it. *)
Section Total.
Context {num : Type}.
Variable int_zero : num.
Variable py_add : num → num → num.
Variable py_float : string → string + num.

Fixpoint sum_floats (acc : num) (vs : list cell) : result num :=
  match vs with
  | [] => Ok acc
  | v :: vs' =>
      match py_float v with
      | inl msg => Raise (ValueError msg)
      | inr x => sum_floats (py_add acc x) vs'
      end
  end.

Definition TableFu_total {R} `{RawRow R} (self : TableFu R) (name : string)
    : result num :=
  if negb (py_in name (default_columns self)) then
    Raise (ValueError (not_a_column name))
  else
    match TableFu_values self name with
    | Raise (ValueError _) =>
        Raise (ValueError ("Column " +:+ name +:+ " contains non-numeric values"))
    | Raise e => Raise e
    | Ok vs => sum_floats int_zero vs
    end.
End Total.

(** [TableFu.filter(func)] for a callable [func]: the builtin [filter] keeps
    the Row objects on which [func] is true, the header goes in front and the
    list is handed to the constructor with [**self.options]. *)
Definition TableFu_filter {R} `{RawRow R} (self : TableFu R) (func : Row → bool)
    : result (TableFu Row) :=
  TableFu_rows self ≫= λ rows : list Row,
  TableFu_init (default_columns self) (List.filter func rows) (options self).

(** [TableFu.facet_by(column)] *)
Definition facet_append (acc : gmap string (list (list cell))) (col : string)
    (cs : list cell) : gmap string (list (list cell)) :=
  match acc !! col with
  | Some v => <[col := v ++ [cs]]> acc
  | None => <[col := [cs]]> acc
  end.

Fixpoint facet_rows (column : string) (rows : list Row)
    (acc : gmap string (list (list cell))) : result (gmap string (list (list cell))) :=
  match rows with
  | [] => Ok acc
  | row :: rest =>
      Row_getitem row column ≫= λ d : Datum,
      if truthy (PyDatum d) then
        Row_getitem row column ≫= λ d' : Datum,
        facet_rows column rest (facet_append acc (value d') (cells row))
      else facet_rows column rest acc
  end.

Definition set_facet {R} (t : TableFu R) (k : string)
    (fmt : gmap string FormatSpec) (o : Options) : TableFu R :=
  {| table := table t; default_columns := default_columns t; _columns := _columns t;
     deleted_rows := deleted_rows t; faceted_on := Some k;
     formatting := fmt; style := style t; options := o |}.

Definition facet_table {R} (self : TableFu R) (kv : string * list (list cell))
    : result (TableFu (list cell)) :=
  TableFu_new (default_columns self :: kv.2) no_options ≫= λ t : TableFu (list cell),
  Ok (set_facet t kv.1 (formatting self) (options self)).

(** The sort key [t.faceted_on] of a facet table. *)
Definition facet_key {R} (t : TableFu R) : string := default "None" (faceted_on t).

Definition TableFu_facet_by {R} `{RawRow R} (self : TableFu R) (column : string)
    : result (list (TableFu (list cell))) :=
  TableFu_rows self ≫= λ rows : list Row,
  facet_rows column rows ∅ ≫= λ faceted_spreadsheets,
  mapM (facet_table self) (map_to_list faceted_spreadsheets) ≫=
    λ tables : list (TableFu (list cell)),
  Ok (snd <$> list_sort false ((λ t, (facet_key t, t)) <$> tables)).

(** [TableFu.transpose()]. The copy [options] without its ['columns'] key is
    computed and dropped: the constructor receives [**self.options]. *)
Definition transpose_column {R} `{RawRow R} (self : TableFu R) (i : nat)
    : result (list cell) :=
  list_getitem (default_columns self) i ≫= λ h : cell,
  mapM (λ row, raw_getitem row i) (table self) ≫= λ rest : list cell,
  Ok (h :: rest).

Definition TableFu_transpose {R} `{RawRow R} (self : TableFu R)
    : result (TableFu (list cell)) :=
  mapM (transpose_column self) (seq 0 (length (default_columns self))) ≫=
    λ result : list (list cell),
  let options' := pop_columns (options self) in
  TableFu_new result (options self).

(** [TableFu.dict()] *)
Definition TableFu_dict {R} `{RawRow R} (self : TableFu R)
    : result (list (gmap string pyobj)) :=
  TableFu_rows self ≫= λ rows : list Row,
  mapM (λ row, py_dict <$> Row_items row) rows.

(** The raw grid of a table of lists, header row included. *)
Definition grid (self : TableFu (list cell)) : list (list cell) :=
  default_columns self :: table self.

(** ** Construction from a list the caller still holds

    [TableFu.__init__] keeps the list it is given ([self.table = table]) and
    pops the header off that very list, and [sort], [transform] and
    [add_rows] update [self.table] in place. To see what the caller sees,
    lists live in a store of objects: the 2D list is an object that holds
    references to its rows, and each row is an object that holds its cells.
    A table object holds references, as the Python object does. *)
Module Store.

Inductive object : Type :=
| ListOfRows (rows : list positive)
| ListOfCells (cs : list cell).

Record TableObj : Type := {
  table_ref : positive;
  default_columns_ref : positive;
  obj_options : Options
}.

Definition get_rows (h : gmap positive object) (r : positive) : result (list positive) :=
  match h !! r with
  | Some (ListOfRows rows) => Ok rows
  | _ => Raise (TypeError "not a list of rows")
  end.

Definition get_cells (h : gmap positive object) (r : positive) : result (list cell) :=
  match h !! r with
  | Some (ListOfCells cs) => Ok cs
  | _ => Raise (TypeError "not a list of cells")
  end.

(** What a holder of the reference [r] to a 2D list reads through it. *)
Definition read_table (h : gmap positive object) (r : positive)
    : result (list (list cell)) :=
  get_rows h r ≫= λ rows : list positive, mapM (get_cells h) rows.

Definition sort_column (self : TableObj) (name : option string) : option string :=
  match name, opt_sorted_by (obj_options self) with
  | (None | Some ""), Some (col, _) => Some col
  | _, _ => name
  end.

Definition row_key (h : gmap positive object) (index : nat) (row : positive)
    : result cell :=
  get_cells h row ≫= λ cs : list cell, list_getitem cs index.

(** [TableFu.sort]: [self.table.sort(...)] reorders the list object that
    [self.table] refers to. *)
Definition sort (h : gmap positive object) (self : TableObj) (name : option string)
    (reverse : bool) : result () * gmap positive object * TableObj :=
  match sort_column self name with
  | None => (Raise (ValueError (not_a_column "None")), h, self)
  | Some column_name =>
      match get_cells h (default_columns_ref self) with
      | Raise e => (Raise e, h, self)
      | Ok cols =>
          if negb (py_in column_name cols) then
            (Raise (ValueError (not_a_column column_name)), h, self)
          else
            match py_index column_name cols with
            | None => (Raise (ValueError (column_name +:+ " is not in list")), h, self)
            | Some index =>
                match get_rows h (table_ref self) with
                | Raise e => (Raise e, h, self)
                | Ok rows =>
                    match mapM (row_key h index) rows with
                    | Raise e => (Raise e, h, self)
                    | Ok keys =>
                        (Ok (),
                         <[table_ref self :=
                             ListOfRows (snd <$> list_sort reverse (zip keys rows))]> h,
                         {| table_ref := table_ref self;
                            default_columns_ref := default_columns_ref self;
                            obj_options := set_sorted_by (obj_options self) column_name reverse |})
                    end
                end
            end
      end
  end.

(** [TableFu.__init__] on a reference to an in-memory 2D list. *)
Definition init (h : gmap positive object) (tbl : positive) (opts : Options)
    : result TableObj * gmap positive object :=
  match get_rows h tbl with
  | Raise e => (Raise e, h)
  | Ok [] => (Raise (IndexError "pop from empty list"), h)
  | Ok (header :: body) =>
      let h1 := <[tbl := ListOfRows body]> h in
      let self := {| table_ref := tbl; default_columns_ref := header; obj_options := opts |} in
      match opt_sorted_by opts with
      | Some (col, reverse) =>
          match sort h1 self (Some col) reverse with
          | (Ok _, h2, self') => (Ok self', h2)
          | (Raise e, h2, _) => (Raise e, h2)
          end
      | None => (Ok self, h1)
      end
  end.

(** [TableFu.transform]: [row[index] = val] writes into the row objects. *)
Fixpoint transform_rows (index : nat) (f : cell → cell) (rows : list positive)
    (h : gmap positive object) : result () * gmap positive object :=
  match rows with
  | [] => (Ok (), h)
  | row :: rest =>
      match get_cells h row with
      | Raise e => (Raise e, h)
      | Ok cs =>
          match list_getitem cs index with
          | Raise e => (Raise e, h)
          | Ok val =>
              match list_setitem cs index (f val) with
              | Raise e => (Raise e, h)
              | Ok cs' => transform_rows index f rest (<[row := ListOfCells cs']> h)
              end
          end
      end
  end.

Definition transform (h : gmap positive object) (self : TableObj) (name : string)
    (func : pyfunc) : result () * gmap positive object :=
  match get_cells h (default_columns_ref self) with
  | Raise e => (Raise e, h)
  | Ok cols =>
      if negb (py_in name cols) then (Raise (ValueError (not_a_column name)), h)
      else
        match func with
        | NotCallable repr => (Raise (TypeError (repr +:+ " isn't callable")), h)
        | Callable f =>
            match py_index name cols with
            | None => (Raise (ValueError (name +:+ " is not in list")), h)
            | Some index =>
                match get_rows h (table_ref self) with
                | Raise e => (Raise e, h)
                | Ok rows => transform_rows index f rows h
                end
            end
        end
  end.

(** [TableFu.add_rows]: [self.table.append(row)] for every given row. *)
Definition add_rows (h : gmap positive object) (self : TableObj) (rows : list positive)
    : result () * gmap positive object :=
  match get_rows h (table_ref self) with
  | Raise e => (Raise e, h)
  | Ok old => (Ok (), <[table_ref self := ListOfRows (old ++ rows)]> h)
  end.

(** The table of lists that a table object stands for in a store. *)
Definition abstract (h : gmap positive object) (self : TableObj)
    : result (TableFu (list cell)) :=
  get_cells h (default_columns_ref self) ≫= λ cols : list cell,
  read_table h (table_ref self) ≫= λ body : list (list cell),
  Ok {| table := body; default_columns := cols;
        _columns := default [] (opt_columns (obj_options self));
        deleted_rows := []; faceted_on := None;
        formatting := default ∅ (opt_formatting (obj_options self));
        style := default ∅ (opt_style (obj_options self));
        options := obj_options self |}.

End Store.

(** ** More of TableFu *)

(** [TableFu.__len__] *)
Definition TableFu_len {R} (self : TableFu R) : nat := length (table self).

(** [TableFu.count()]: [len(list(self))], which builds every Row. *)
Definition TableFu_count {R} `{RawRow R} (self : TableFu R) : result nat :=
  TableFu_rows self ≫= λ rows : list Row, Ok (length rows).

(** [TableFu.__getitem__(row_num)] for a non-negative [row_num]. *)
Definition TableFu_getitem {R} `{RawRow R} (self : TableFu R) (row_num : nat)
    : result Row :=
  list_getitem (table self) row_num ≫= λ raw : R, Row_init raw row_num (view_of self).

(** [TableFu._set_columns]:
    [self._columns = self.options['columns'] = list(columns)] *)
Definition TableFu_set_columns {R} (self : TableFu R) (cols : list string) : TableFu R :=
  {| table := table self; default_columns := default_columns self; _columns := cols;
     deleted_rows := deleted_rows self; faceted_on := faceted_on self;
     formatting := formatting self; style := style self;
     options :=
       {| opt_columns := Some cols; opt_formatting := opt_formatting (options self);
          opt_style := opt_style (options self);
          opt_sorted_by := opt_sorted_by (options self) |} |}.

(** A Header; its back-reference to the table serves the style lookup only. *)
Record Header : Type := {
  Header_name : string;
  col_num : nat
}.

(** [TableFu.headers] *)
Definition TableFu_headers {R} (self : TableFu R) : list Header :=
  let col_set :=
    match _columns self with
    | [] => default_columns self
    | _ :: _ => _columns self
    end in
  (λ ic : nat * string, {| Header_name := ic.2; col_num := ic.1 |}) <$> enumerate col_set.

(** [TableFu.map(func, column, ...)]. What [func] is applied to is a Row when
    no column name is given ([map(func, self.rows)]) and a cell of the column
    otherwise. With no name and with one name a list comes back ([inl]),
    else the list of the lists of the columns ([inr]). *)
Inductive map_arg : Type :=
| ArgRow (r : Row)
| ArgCell (v : cell).

Definition TableFu_map {R B} `{RawRow R} (self : TableFu R) (func : map_arg → B)
    (cols : list string) : result (list B + list (list B)) :=
  match cols with
  | [] => TableFu_rows self ≫= λ rows : list Row, Ok (inl ((func ∘ ArgRow) <$> rows))
  | _ :: _ =>
      mapM (λ column, TableFu_values self column ≫= λ v : list cell,
                      Ok ((func ∘ ArgCell) <$> v)) cols
        ≫= λ result : list (list B),
      match result with
      | [r] => Ok (inl r)
      | _ => Ok (inr result)
      end
  end.

(** ** More of Row *)

(** [Row.__len__] *)
Definition Row_len (self : Row) : nat := length (cells self).

(** [Row.__setitem__(column_name, value)] *)
Definition Row_setitem (self : Row) (name : string) (v : cell) : result Row :=
  if negb (py_in name (view_default_columns (Row_table self))) then
    Raise (KeyError (not_a_column name))
  else
    match py_index name (view_default_columns (Row_table self)) with
    | None => Raise (ValueError (name +:+ " is not in list"))
    | Some index =>
        list_setitem (cells self) index v ≫= λ cs : list cell,
        Ok {| cells := cs; row_num := row_num self; Row_table := Row_table self |}
    end.

(** [Row.update(d)]: the items of [d] are written one after the other, so an
    item that raises leaves the earlier ones written. *)
Fixpoint Row_update_items (self : Row) (items : list (string * cell)) : result () * Row :=
  match items with
  | [] => (Ok (), self)
  | kv :: rest =>
      match Row_setitem self kv.1 kv.2 with
      | Raise e => (Raise e, self)
      | Ok self' => Row_update_items self' rest
      end
  end.

Definition Row_update (self : Row) (d : gmap string cell) : result () * Row :=
  Row_update_items self (map_to_list d).

(** ** More of Datum *)

(** [Datum.__eq__(other)] and [Datum.__lt__(other)]: against another Datum
    the values are compared, against anything else the value and the
    object. *)
Definition Datum_eq (self : Datum) (other : pyobj) : bool :=
  match other with
  | PyDatum o => bool_decide (value self = value o)
  | PyStr s => bool_decide (value self = s)
  end.

Definition Datum_lt (self : Datum) (other : pyobj) : bool :=
  match other with
  | PyDatum o => String.ltb (value self) (value o)
  | PyStr s => String.ltb (value self) s
  end.

(** ** Free functions *)

(** [odd_even(num)]; [%] with a positive divisor is [Z.modulo]. *)
Definition odd_even (num : Z) : string :=
  if decide ((num `mod` 2)%Z = 0%Z) then "even" else "odd".

(** ** Keyword filters *)

(** The predicate [lambda r: r[column] == value] of the keyword mode. *)
Definition column_equals (column value : string) (r : Row) : result bool :=
  Row_getitem r column ≫= λ d : Datum, Ok (Datum_eq d (PyStr value)).

(** The builtin [filter(func, self)] with a function that may raise: the
    rows are built and tested one after the other. *)
Fixpoint filter_rows {R} `{RawRow R} (func : Row → result bool) (tbl : TableView)
    (raws : list (nat * R)) : result (list Row) :=
  match raws with
  | [] => Ok []
  | ir :: rest =>
      Row_init ir.2 ir.1 tbl ≫= λ row : Row,
      func row ≫= λ keep : bool,
      filter_rows func tbl rest ≫= λ kept : list Row,
      Ok (if keep then row :: kept else kept)
  end.

(** [TableFu.filter(func)] for a callable that may raise. *)
Definition TableFu_filter_with {R} `{RawRow R} (self : TableFu R)
    (func : Row → result bool) : result (TableFu Row) :=
  filter_rows func (view_of self) (enumerate (table self)) ≫= λ kept : list Row,
  TableFu_init (default_columns self) kept (options self).

(** The loop [for column, value in query.items(): result = result.filter(...)]
    from its second round on, where [result], here [current], holds Row
    objects. *)
Fixpoint filter_items (current : TableFu Row) (items : list (string * string))
    : result (TableFu Row) :=
  match items with
  | [] => Ok current
  | cv :: rest =>
      TableFu_filter_with current (column_equals cv.1 cv.2) ≫= λ t : TableFu Row,
      filter_items t rest
  end.

(** [TableFu.filter] called with keyword arguments only, each with a string
    as its value. The signature is [filter(self, func=None, **query)]: a
    keyword [self] clashes with the bound object and raises TypeError, a
    keyword [func] is bound to the parameter [func], where a string is not
    callable, and every other keyword lands in [query]. With an empty
    [query] the table itself comes back ([inl]), else the table of the last
    round ([inr]). *)
Definition TableFu_filter_query {R} `{RawRow R} (self : TableFu R)
    (kwargs : gmap string string) : result (TableFu R + TableFu Row) :=
  if decide (is_Some (kwargs !! "self")) then
    Raise (TypeError "filter() got multiple values for keyword argument 'self'")
  else
    match map_to_list (delete "func" kwargs) with
    | [] => Ok (inl self)
    | cv :: rest =>
        TableFu_filter_with self (column_equals cv.1 cv.2) ≫= λ t : TableFu Row,
        filter_items t rest ≫= λ t' : TableFu Row,
        Ok (inr t')
    end.

(** ** Row objects in the store

    [Row.__init__] keeps [list(cells)]: the Row owns a new list object that
    holds the cells the raw row had when the Row was made. *)
Module RowStore.

Record RowObj : Type := {
  cells_ref : positive;
  obj_row_num : nat;
  obj_table : Store.TableObj
}.

(** [Row(cells, row_num, table)] for a raw row that is a list in the store. *)
Definition init (h : gmap positive Store.object) (raw : positive) (i : nat)
    (tbl : Store.TableObj) : result RowObj * gmap positive Store.object :=
  match Store.get_cells h raw with
  | Raise e => (Raise e, h)
  | Ok cs =>
      let l := fresh (dom h) in
      (Ok {| cells_ref := l; obj_row_num := i; obj_table := tbl |},
       <[l := Store.ListOfCells cs]> h)
  end.

(** [TableFu.__getitem__(row_num)] *)
Definition table_getitem (h : gmap positive Store.object) (self : Store.TableObj)
    (row_num : nat) : result RowObj * gmap positive Store.object :=
  match Store.get_rows h (Store.table_ref self) with
  | Raise e => (Raise e, h)
  | Ok rows =>
      match list_getitem rows row_num with
      | Raise e => (Raise e, h)
      | Ok raw => init h raw row_num self
      end
  end.

(** [Row.__setitem__(column_name, value)] *)
Definition setitem (h : gmap positive Store.object) (self : RowObj) (name : string)
    (v : cell) : result () * gmap positive Store.object :=
  match Store.get_cells h (Store.default_columns_ref (obj_table self)) with
  | Raise e => (Raise e, h)
  | Ok cols =>
      if negb (py_in name cols) then (Raise (KeyError (not_a_column name)), h)
      else
        match py_index name cols with
        | None => (Raise (ValueError (name +:+ " is not in list")), h)
        | Some index =>
            match Store.get_cells h (cells_ref self) with
            | Raise e => (Raise e, h)
            | Ok cs =>
                match list_setitem cs index v with
                | Raise e => (Raise e, h)
                | Ok cs' => (Ok (), <[cells_ref self := Store.ListOfCells cs']> h)
                end
            end
        end
  end.

(** The Row that a Row object stands for in a store. *)
Definition abstract (h : gmap positive Store.object) (self : RowObj) : result Row :=
  Store.abstract h (obj_table self) ≫= λ t : TableFu (list cell),
  Store.get_cells h (cells_ref self) ≫= λ cs : list cell,
  Ok {| cells := cs; row_num := obj_row_num self; Row_table := view_of t |}.

End RowStore.

(** ** Vocabulary of the statements *)

(** The cell of a row of lists at index [i]. *)
Definition cell_at (i : nat) (r : list cell) : cell := default "" (r !! i).

(** Every raw row is as long as the header. *)
Definition rows_wide (t : TableFu (list cell)) : Prop :=
  Forall (λ r, length r = length (default_columns t)) (table t).

(** The table of lists with the given header, body and options, its other
    attributes as the constructor sets them. *)
Definition plain_table (header : list string) (body : list (list cell)) (o : Options)
    : TableFu (list cell) :=
  {| table := body; default_columns := header;
     _columns := default [] (opt_columns o); deleted_rows := []; faceted_on := None;
     formatting := default ∅ (opt_formatting o); style := default ∅ (opt_style o);
     options := o |}.

(** The Row that [TableFu.rows] builds for the raw row at position [i]. *)
Definition row_of (t : TableFu (list cell)) (i : nat) (raw : list cell) : Row :=
  {| cells := raw; row_num := i; Row_table := view_of t |}.

(** The Datum that [row[name]] builds when [name] is a column. *)
Definition datum_of (r : Row) (name : string) : Datum :=
  {| value := cell_at (default 0 (py_index name (view_default_columns (Row_table r))))
                (cells r);
     Datum_row_num := row_num r; column_name := name |}.

(** Order of two decorated elements by their keys. *)
Definition key_le {A} : relation (string * A) := λ a b, String.le a.1 b.1.

Definition sort_order {A} (rev : bool) : relation (string * A) :=
  if rev then flip key_le else key_le.

(** Two decorated elements with the same key and related payloads. *)
Definition same_key {A B} (P : A → B → Prop) : (string * A) → (string * B) → Prop :=
  λ x y, x.1 = y.1 ∧ P x.2 y.2.

(** The rows of a table next to their sort keys. *)
Definition decorate (i : nat) (rows : list (list cell)) : list (string * list cell) :=
  (λ r, (cell_at i r, r)) <$> rows.

(** The order on the keys of two rows that a sort in the given direction
    establishes. *)
Definition row_order (i : nat) (rev : bool) : relation (list cell) :=
  λ a b, if rev then String.le (cell_at i b) (cell_at i a)
         else String.le (cell_at i a) (cell_at i b).

(** The rows after [sort] on the column at index [i]. *)
Definition sorted_rows (i : nat) (rev : bool) (rows : list (list cell)) : list (list cell) :=
  (list_sort rev (decorate i rows)).*2.

(** The transposed grid: one row per column index below [m]. *)
Definition transpose_grid (m : nat) (g : list (list cell)) : list (list cell) :=
  (λ i, cell_at i <$> g) <$> seq 0 m.

(** The facet table that [facet_by] builds for a value and its rows. *)
Definition facet_of {R} (self : TableFu R) (kv : string * list (list cell))
    : TableFu (list cell) :=
  set_facet (plain_table (default_columns self) kv.2 no_options) kv.1
    (formatting self) (options self).

(** What is read off the tables that [facet_by] returns: the value each was
    faceted on and its rows. *)
Definition facets (ts : list (TableFu (list cell))) : list (option string * list (list cell)) :=
  (λ t, (faceted_on t, table t)) <$> ts.

(** ** Sample tables *)

(** The options of a table on which [sort(col, reverse)] was called. *)
Definition sorted_by (col : string) (rev : bool) : Options :=
  set_sorted_by no_options col rev.

(** The table of the docstring of [TableFu], as a 2D list and as the table
    constructed from it. *)
Definition books : list (list cell) :=
  [["Author"; "Best Book"; "Number of Pages"; "Style"];
   ["Samuel Beckett"; "Malone Muert"; "120"; "Modernism"];
   ["James Joyce"; "Ulysses"; "644"; "Modernism"];
   ["Nicholson Baker"; "Mezannine"; "150"; "Minimalism"];
   ["Vladimir Sorokin"; "The Queue"; "263"; "Satire"]].

Definition books_table : TableFu (list cell) :=
  plain_table
    ["Author"; "Best Book"; "Number of Pages"; "Style"]
    [["Samuel Beckett"; "Malone Muert"; "120"; "Modernism"];
     ["James Joyce"; "Ulysses"; "644"; "Modernism"];
     ["Nicholson Baker"; "Mezannine"; "150"; "Minimalism"];
     ["Vladimir Sorokin"; "The Queue"; "263"; "Satire"]]
    no_options.

Definition beckett_row : Row :=
  row_of books_table 0 ["Samuel Beckett"; "Malone Muert"; "120"; "Modernism"].

(** [TableFu([["A"], ["1"]])] *)
Definition one_cell_table : TableFu (list cell) := plain_table ["A"] [["1"]] no_options.

(** [TableFu([["A"], ["abc"]])] *)
Definition letters_table : TableFu (list cell) :=
  plain_table ["A"] [["abc"]] no_options.

(** [TableFu([["A"], ["x"]])] after [sort("A")]. *)
Definition sorted_table : TableFu (list cell) :=
  plain_table ["A"] [["x"]] (sorted_by "A" false).

(** [TableFu([["", "B"], ["2", "y"], ["1", "z"]])], whose first column has
    an empty name, after [sort("B")]. *)
Definition blank_header_table : TableFu (list cell) :=
  plain_table [""; "B"] [["2"; "y"]; ["1"; "z"]] (sorted_by "B" false).

(** [TableFu([["A", "Z", "B"], ["1", "2", "3"]])] after [sort("A")]. *)
Definition three_columns_table : TableFu (list cell) :=
  plain_table ["A"; "Z"; "B"] [["1"; "2"; "3"]] (sorted_by "A" false).

(** [TableFu([["A", "B"], ["1", "2"]], columns=["B"])] *)
Definition override_table : TableFu (list cell) :=
  plain_table ["A"; "B"] [["1"; "2"]]
    {| opt_columns := Some ["B"]; opt_formatting := None; opt_style := None;
       opt_sorted_by := None |}.

(** [TableFu([["A", "B"], ["1", "2"]], columns=["B", "A"])] *)
Definition reordered_table : TableFu (list cell) :=
  plain_table ["A"; "B"] [["1"; "2"]]
    {| opt_columns := Some ["B"; "A"]; opt_formatting := None; opt_style := None;
       opt_sorted_by := None |}.

(** [TableFu([["A", "B"], ["x", ""], ["y", "1"]])], with an empty cell in
    its column ["B"]. *)
Definition empty_cell_table : TableFu (list cell) :=
  plain_table ["A"; "B"] [["x"; ""]; ["y"; "1"]] no_options.

(** The predicate [lambda r: r["A"] == "1"]; a lookup that raises makes the
    predicate raise, which no row of the samples does. *)
Definition column_A_is_1 (r : Row) : bool :=
  match Row_getitem r "A" with
  | Ok d => bool_decide (value d = "1")
  | Raise _ => false
  end.

(** A store in which the caller holds, at reference 1, the 2D list
    [[["A"; "B"]; ["2"; "y"]; ["1"; "x"]]]. *)
Definition caller_store : gmap positive Store.object :=
  {[ 1%positive := Store.ListOfRows [2%positive; 3%positive; 4%positive];
     2%positive := Store.ListOfCells ["A"; "B"];
     3%positive := Store.ListOfCells ["2"; "y"];
     4%positive := Store.ListOfCells ["1"; "x"] ]}.

(** An instance of the builtins of [total] for the examples: IEEE doubles
    with their addition, and [float] on strings of decimal digits (exact
    below 2^53), which are the only numerals the samples hold. A string with
    another character, such as a letter, does not convert. *)
Fixpoint digits_value (acc : Z) (s : string) : option Z :=
  match s with
  | EmptyString => Some acc
  | String c s' =>
      match Ascii.is_nat c with
      | Some d => digits_value (10 * acc + Z.of_nat d) s'
      | None => None
      end
  end.

Definition float_of_digits (s : string) : string + float :=
  match s with
  | EmptyString => inl "could not convert string to float: "
  | _ =>
      match digits_value 0 s with
      | Some n => inr (PrimFloat.of_uint63 (Uint63.of_Z n))
      | None => inl ("could not convert string to float: " +:+ s)
      end
  end.

(** The cells of a rectangular table of lists under a column name. *)
Definition column_cells (t : TableFu (list cell)) (name : string) : list cell :=
  cell_at (default 0 (py_index name (default_columns t))) <$> table t.

(** A table with a row that is too short for its second column. *)
Definition ragged_table : TableFu (list cell) :=
  plain_table ["A"; "B"] [["1"; "x"]; ["2"]; ["3"; "z"]] no_options.

(** A row of cells meets a keyword query when, for every [column=value] of
    the query, its cell under [column] is [value]. *)
Definition query_holds (header : list string) (query : gmap string string)
    (cs : list cell) : Prop :=
  map_Forall (λ column value, cell_at (default 0 (py_index column header)) cs = value) query.

#[global] Instance query_holds_dec header query cs : Decision (query_holds header query cs).
Proof. unfold query_holds. apply _. Defined.

(** A Row as the raw row of a table of Row objects sees it. *)
Definition row_at (tbl : TableView) (ir : nat * list cell) : Row :=
  {| cells := ir.2; row_num := ir.1; Row_table := tbl |}.

(** The view of a table whose active columns are its header. *)
Definition header_view (header : list string) : TableView :=
  {| view_default_columns := header; view_columns := header |}.

(** A table of Row objects that [filter] built from a table with the given
    header and options. *)
Definition filtered_from (header : list string) (o : Options) (s : TableFu Row) : Prop :=
  default_columns s = header ∧ _columns s = [] ∧ options s = o ∧
  Forall (λ r, Row_table r = header_view header ∧ length (cells r) = length header) (table s).

(** The store and the table object after [TableFu(table)] on the caller's
    list of [caller_store]. *)
Definition table_store : gmap positive Store.object :=
  <[1%positive := Store.ListOfRows [3%positive; 4%positive]]> caller_store.

Definition table_object : Store.TableObj :=
  {| Store.table_ref := 1%positive; Store.default_columns_ref := 2%positive;
     Store.obj_options := no_options |}.

(** The table that [filter] returns for the books in the style Modernism:
    its raw rows are the Row objects of [books_table] that were kept. *)
Definition modernists : TableFu Row :=
  {| table := [row_of books_table 0 ["Samuel Beckett"; "Malone Muert"; "120"; "Modernism"];
               row_of books_table 1 ["James Joyce"; "Ulysses"; "644"; "Modernism"]];
     default_columns := ["Author"; "Best Book"; "Number of Pages"; "Style"];
     _columns := []; deleted_rows := []; faceted_on := None;
     formatting := ∅; style := ∅; options := no_options |}.

(** [TableFu([["A", "B"]])]: a header and no rows. *)
Definition header_only_table : TableFu (list cell) := plain_table ["A"; "B"] [] no_options.

(** [TableFu([["A", "B"], ["1", "x", "more"], ["2", "y"]])], whose first row
    is longer than the header. *)
Definition long_row_table : TableFu (list cell) :=
  plain_table ["A"; "B"] [["1"; "x"; "more"]; ["2"; "y"]] no_options.

(** What one pass of the loop of [transform] does to a row: the cell at the
    index is replaced by its image. *)
Definition rewrite_cell (i : nat) (f : cell → cell) (cs : list cell) : list cell :=
  <[i := f (cell_at i cs)]> cs.

(** How often the list of rows holds the object [q]. *)
Definition occurrences (q : positive) (rows : list positive) : nat :=
  length (filter (λ r, r = q) rows).

(** An object of the store after the loop of [transform] has come to it
    [k] times. *)
Definition rewritten (i : nat) (f : cell → cell) (k : nat) (o : Store.object)
    : Store.object :=
  match o with
  | Store.ListOfCells cs => Store.ListOfCells (Nat.iter k (rewrite_cell i f) cs)
  | Store.ListOfRows rows => Store.ListOfRows rows
  end.

(** A store in which the list at reference 1 holds the row object at
    reference 3 twice: [row = ["1", "x"]; [["A", "B"], row, row]] after the
    header is popped. *)
Definition shared_row_store : gmap positive Store.object :=
  {[ 1%positive := Store.ListOfRows [3%positive; 3%positive];
     2%positive := Store.ListOfCells ["A"; "B"];
     3%positive := Store.ListOfCells ["1"; "x"] ]}.

(** The store of [table_store] with one more row object, which is too short
    for column ["B"], at the end of the list. *)
Definition short_row_store : gmap positive Store.object :=
  {[ 1%positive := Store.ListOfRows [3%positive; 4%positive; 5%positive];
     2%positive := Store.ListOfCells ["A"; "B"];
     3%positive := Store.ListOfCells ["2"; "y"];
     4%positive := Store.ListOfCells ["1"; "x"];
     5%positive := Store.ListOfCells ["3"] ]}.

(** ** Facts about the error monad *)

Lemma bind_Ok {A B} (f : A → result B) (a : A) : Ok a ≫= f = f a.
Proof. reflexivity. Qed.

Lemma mapM_Ok_Forall2 {A B} (f : A → result B) (l : list A) (k : list B) :
  mapM f l = Ok k ↔ Forall2 (λ x y, f x = Ok y) l k.
Proof.
  revert k. induction l as [|x l IH]; intros k; simpl.
  - split; [intros [= <-]; constructor | by inversion 1].
  - split.
    + destruct (f x) as [y|e] eqn:Hx; simpl; [|done].
      destruct (mapM f l) as [k'|e] eqn:Hl; simpl; [|done].
      intros [= <-]. constructor; [done|]. by apply IH.
    + inversion 1 as [|? y ? k' Hx Hl]; subst. rewrite Hx. simpl.
      apply IH in Hl. by rewrite Hl.
Qed.

Lemma mapM_Ok_fmap {A B} (f : A → result B) (g : A → B) (l : list A) :
  Forall (λ x, f x = Ok (g x)) l → mapM f l = Ok (g <$> l).
Proof.
  intros H. apply mapM_Ok_Forall2. induction H; simpl; constructor; auto.
Qed.

(** ** The builtin sort *)

Lemma ltb_false_le (x y : string) : String.ltb y x = false ↔ String.le x y.
Proof.
  unfold String.le, String.ltb, String.leb. rewrite (String.compare_antisym y x).
  destruct (String.compare x y); simpl; naive_solver.
Qed.

Lemma ltb_true_le (x y : string) : String.ltb y x = true → String.le y x ∧ y ≠ x.
Proof.
  unfold String.le, String.ltb, String.leb. intros H.
  destruct (String.compare y x) eqn:Hc; try done. split; [done|].
  intros ->. pose proof (String.compare_antisym x x) as Ha.
  rewrite Hc in Ha. done.
Qed.

Section sort_facts.
Context {A : Type}.
Implicit Types (x : string * A) (l : list (string * A)).

Lemma sort_insert_Permutation x l : sort_insert x l ≡ₚ x :: l.
Proof.
  induction l as [|y l IH]; simpl; [done|].
  destruct (String.ltb y.1 x.1); [|done].
  rewrite IH. apply Permutation_swap.
Qed.

Lemma sort_ascending_Permutation l : sort_ascending l ≡ₚ l.
Proof.
  induction l as [|x l IH]; simpl; [done|].
  by rewrite sort_insert_Permutation, IH.
Qed.

Lemma list_sort_Permutation rev l : list_sort rev l ≡ₚ l.
Proof.
  destruct rev; simpl; [|apply sort_ascending_Permutation].
  by rewrite reverse_Permutation, sort_ascending_Permutation, reverse_Permutation.
Qed.

Lemma sort_insert_sorted x l :
  StronglySorted key_le l → StronglySorted key_le (sort_insert x l).
Proof.
  induction 1 as [|y l Hl IH Hy]; simpl.
  - repeat constructor.
  - destruct (String.ltb y.1 x.1) eqn:Hlt.
    + constructor; [done|].
      rewrite sort_insert_Permutation. constructor; [|done].
      by apply ltb_true_le in Hlt as [? _].
    + apply ltb_false_le in Hlt.
      constructor; [by constructor|]. constructor; [done|].
      eapply Forall_impl; [exact Hy|]. intros z Hz. unfold key_le in *.
      by etrans.
Qed.

Lemma sort_ascending_sorted l : StronglySorted key_le (sort_ascending l).
Proof.
  induction l; simpl; [constructor | by apply sort_insert_sorted].
Qed.

Lemma StronglySorted_reverse (R : relation (string * A)) l :
  StronglySorted R l → StronglySorted (flip R) (reverse l).
Proof.
  induction 1 as [|y l Hl IH Hy]; [rewrite reverse_nil; constructor|].
  rewrite reverse_cons. apply StronglySorted_app_2.
  - intros x1 x2 Hx1 ->%list_elem_of_singleton.
    rewrite elem_of_reverse in Hx1. rewrite Forall_forall in Hy. by apply Hy.
  - exact IH.
  - repeat constructor.
Qed.

(** A sorted list is left as it is. *)
Lemma sort_ascending_id l : StronglySorted key_le l → sort_ascending l = l.
Proof.
  induction 1 as [|x l Hl IH Hx]; simpl; [done|].
  rewrite IH. destruct Hx as [|y l Hy _]; simpl; [done|].
  apply ltb_false_le in Hy. by rewrite Hy.
Qed.

(** Stability: the elements of any one key keep their order. *)
Lemma sort_insert_filter (k : string) x l :
  filter (λ p, p.1 = k) (sort_insert x l) = filter (λ p, p.1 = k) (x :: l).
Proof.
  induction l as [|y l IH]; simpl; [done|].
  destruct (String.ltb y.1 x.1) eqn:Hlt; [|done].
  apply ltb_true_le in Hlt as [_ Hne].
  rewrite !filter_cons in *. rewrite IH.
  repeat case_decide; simplify_eq; done.
Qed.

Lemma sort_ascending_filter (k : string) l :
  filter (λ p, p.1 = k) (sort_ascending l) = filter (λ p, p.1 = k) l.
Proof.
  induction l as [|x l IH]; simpl; [done|].
  rewrite sort_insert_filter, !filter_cons. by rewrite IH.
Qed.

Lemma list_sort_filter (k : string) rev l :
  filter (λ p, p.1 = k) (list_sort rev l) = filter (λ p, p.1 = k) l.
Proof.
  destruct rev; simpl; [|apply sort_ascending_filter].
  by rewrite filter_reverse, sort_ascending_filter, filter_reverse, reverse_involutive.
Qed.

Lemma list_sort_sorted rev l : StronglySorted (sort_order rev) (list_sort rev l).
Proof.
  destruct rev; simpl; [|apply sort_ascending_sorted].
  apply StronglySorted_reverse, sort_ascending_sorted.
Qed.

Lemma list_sort_idemp rev l : list_sort rev (list_sort rev l) = list_sort rev l.
Proof.
  destruct rev; simpl.
  - rewrite reverse_involutive. f_equal.
    apply sort_ascending_id, sort_ascending_sorted.
  - apply sort_ascending_id, sort_ascending_sorted.
Qed.

(** With pairwise distinct keys there is one sorted arrangement. *)
Lemma sorted_unique_NoDup l1 l2 :
  NoDup l1.*1 → StronglySorted key_le l1 → StronglySorted key_le l2 →
  l1 ≡ₚ l2 → l1 = l2.
Proof.
  intros Hnd Hs1 Hs2 Hp. apply (StronglySorted_unique_strong key_le); [|done..].
  intros x1 x2 Hx1 Hx2 H12 H21. rewrite <-Hp in Hx2.
  assert (x1.1 = x2.1) as Hk by (by apply (anti_symm String.le)).
  clear -Hnd Hx1 Hx2 Hk.
  apply list_elem_of_lookup in Hx1 as [i Hi], Hx2 as [j Hj].
  assert (i = j) as ->.
  { eapply NoDup_lookup; [exact Hnd| |]; rewrite list_lookup_fmap.
    - by rewrite Hi.
    - rewrite Hj. simpl. by rewrite Hk. }
  congruence.
Qed.

Lemma sort_ascending_reverse_sorted l :
  NoDup l.*1 → StronglySorted key_le l → sort_ascending (reverse l) = l.
Proof.
  intros Hnd Hs. symmetry. apply sorted_unique_NoDup; [done..| |].
  - apply sort_ascending_sorted.
  - by rewrite sort_ascending_Permutation, reverse_Permutation.
Qed.

Lemma list_sort_toggle rev l :
  NoDup l.*1 → list_sort (negb rev) (list_sort rev l) = reverse (list_sort rev l).
Proof.
  intros Hnd. destruct rev; simpl.
  - rewrite reverse_involutive. apply sort_ascending_reverse_sorted.
    + by rewrite sort_ascending_Permutation, reverse_Permutation.
    + apply sort_ascending_sorted.
  - f_equal. apply sort_ascending_reverse_sorted.
    + by rewrite sort_ascending_Permutation.
    + apply sort_ascending_sorted.
Qed.
End sort_facts.

(** ** Column lookup *)

Lemma py_in_true x l : py_in x l = true ↔ x ∈ l.
Proof. unfold py_in. apply bool_decide_eq_true. Qed.

Lemma py_in_false x l : py_in x l = false ↔ x ∉ l.
Proof. unfold py_in. apply bool_decide_eq_false. Qed.

Lemma py_index_Some x l i : py_index x l = Some i → l !! i = Some x.
Proof.
  revert i. induction l as [|y l IH]; intros i; simpl; [done|].
  case_decide as Hy; [by intros [= <-]; subst|].
  destruct (py_index x l) as [j|]; simpl; [|done]. intros [= <-]. by apply IH.
Qed.

Lemma py_index_elem_of x l : x ∈ l → ∃ i, py_index x l = Some i.
Proof.
  induction 1 as [y l|y z l _ [i IH]]; simpl.
  - exists 0. by rewrite decide_True.
  - case_decide; [by eexists|]. rewrite IH. by eexists.
Qed.

Lemma py_index_lt x l i : py_index x l = Some i → i < length l.
Proof. intros H%py_index_Some. by eapply lookup_lt_Some. Qed.

(** ** Keys of the rows of a table of lists *)

Lemma list_getitem_cell_at (r : list cell) i :
  i < length r → list_getitem r i = Ok (cell_at i r).
Proof.
  intros Hi. unfold list_getitem, cell_at.
  destruct (lookup_lt_is_Some_2 r i Hi) as [v ->]. done.
Qed.

Lemma keys_of_rows i (rows : list (list cell)) :
  Forall (λ r, i < length r) rows →
  mapM (λ row, raw_getitem row i) rows = Ok (cell_at i <$> rows).
Proof.
  intros H. apply mapM_Ok_fmap. eapply Forall_impl; [exact H|].
  intros r Hr. by apply list_getitem_cell_at.
Qed.

Lemma zip_decorate i (rows : list (list cell)) :
  zip (cell_at i <$> rows) rows = decorate i rows.
Proof. induction rows; simpl; [done|]. by f_equal. Qed.

Lemma decorate_snd i rows : (decorate i rows).*2 = rows.
Proof. unfold decorate. rewrite <-list_fmap_compose. apply list_fmap_id. Qed.

Lemma decorate_fst i rows : (decorate i rows).*1 = cell_at i <$> rows.
Proof. unfold decorate. by rewrite <-list_fmap_compose. Qed.

Lemma decorated_Forall i rows : Forall (λ p, p.1 = cell_at i p.2) (decorate i rows).
Proof. unfold decorate. rewrite Forall_fmap. by apply Forall_true. Qed.

Lemma decorated_eq i (L : list (string * list cell)) :
  Forall (λ p, p.1 = cell_at i p.2) L → L = decorate i L.*2.
Proof.
  induction 1 as [|[k r] L Hk _ IH]; simpl; [done|]. simpl in Hk. by f_equal; [f_equal|].
Qed.

Lemma list_sort_decorate i rev rows :
  list_sort rev (decorate i rows) = decorate i (list_sort rev (decorate i rows)).*2.
Proof.
  apply decorated_eq. rewrite list_sort_Permutation. apply decorated_Forall.
Qed.

Lemma decorate_sorted i rev rows :
  StronglySorted (sort_order rev) (decorate i rows) →
  StronglySorted (row_order i rev) rows.
Proof.
  induction rows as [|r rows IH]; simpl; [constructor|].
  intros [Hr Hs]%StronglySorted_cons. constructor; [by apply IH|].
  unfold decorate in Hr. rewrite Forall_fmap in Hr. eapply Forall_impl; [exact Hr|].
  intros x. unfold row_order. by destruct rev.
Qed.

Lemma filter_decorate i k rows :
  filter (λ p, p.1 = k) (decorate i rows)
  = decorate i (filter (λ r, cell_at i r = k) rows).
Proof.
  induction rows as [|r rows IH]; simpl; [done|].
  rewrite !filter_cons. simpl. case_decide; simpl; by rewrite IH.
Qed.

(** ** TableFu.sort on a table of lists *)

Lemma sorted_rows_Permutation i rev rows : sorted_rows i rev rows ≡ₚ rows.
Proof.
  unfold sorted_rows. by rewrite list_sort_Permutation, decorate_snd.
Qed.

Lemma sorted_rows_sorted i rev rows :
  StronglySorted (row_order i rev) (sorted_rows i rev rows).
Proof.
  unfold sorted_rows. apply decorate_sorted. rewrite <-list_sort_decorate.
  apply list_sort_sorted.
Qed.

Lemma sorted_rows_stable i rev rows k :
  filter (λ r, cell_at i r = k) (sorted_rows i rev rows)
  = filter (λ r, cell_at i r = k) rows.
Proof.
  rewrite <-(decorate_snd i (filter _ (sorted_rows i rev rows))).
  rewrite <-(decorate_snd i (filter _ rows)). f_equal.
  rewrite <-!filter_decorate. unfold sorted_rows.
  rewrite <-list_sort_decorate. apply list_sort_filter.
Qed.

Lemma sorted_rows_idemp i rev rows :
  sorted_rows i rev (sorted_rows i rev rows) = sorted_rows i rev rows.
Proof.
  unfold sorted_rows. by rewrite <-list_sort_decorate, list_sort_idemp.
Qed.

Lemma sorted_rows_toggle i rev rows :
  NoDup (cell_at i <$> rows) →
  sorted_rows i (negb rev) (sorted_rows i rev rows) = reverse (sorted_rows i rev rows).
Proof.
  intros Hnd. unfold sorted_rows.
  rewrite <-list_sort_decorate, list_sort_toggle, fmap_reverse; [done|].
  by rewrite decorate_fst.
Qed.

Lemma TableFu_sort_eq (t : TableFu (list cell)) name rev col i :
  sort_column t name = Some col →
  py_index col (default_columns t) = Some i →
  rows_wide t →
  TableFu_sort t name rev
  = (Ok (), set_options (set_table t (sorted_rows i rev (table t)))
               (set_sorted_by (options t) col rev)).
Proof.
  intros Hc Hi Hw. unfold TableFu_sort. rewrite Hc.
  assert (py_in col (default_columns t) = true) as ->.
  { apply py_in_true. eapply list_elem_of_lookup_2, py_index_Some, Hi. }
  cbn [negb]. rewrite Hi, keys_of_rows.
  - by rewrite zip_decorate.
  - eapply Forall_impl; [exact Hw|]. intros r ->. by eapply py_index_lt.
Qed.

Lemma sort_column_recorded {R} (t : TableFu R) name col rev o :
  sort_column t name = Some col →
  sort_column (set_options t (set_sorted_by o col rev)) name = Some col.
Proof.
  unfold sort_column. simpl.
  destruct name as [[|a s]|]; simpl; [done| |done].
  destruct (opt_sorted_by (options t)) as [[??]|]; done.
Qed.

(** ** Construction *)

(** The header row is split off: the sample has its four rows and the
    columns of its first line. *)
Example construct_books :
  TableFu_new books no_options = Ok books_table ∧
  length (table books_table) = length books - 1 ∧
  head books = Some (columns books_table).
Proof. split_and!; reflexivity. Qed.

(** ** Sorting a table

    C5. [sort] is a stable sort of the raw rows on the string at the index
    of the column it resolves (the given name, or the recorded sort column
    when the given name is empty or omitted); the comparison is the one of
    strings. Sorting again by the same name and direction changes nothing,
    and on pairwise distinct keys sorting again in the other direction
    reverses the rows. *)
Theorem sort_stable_idempotent (t : TableFu (list cell)) (name : option string)
    (rev : bool) (col : string) :
  sort_column t name = Some col →
  col ∈ default_columns t →
  rows_wide t →
  ∃ i t1,
    py_index col (default_columns t) = Some i ∧
    TableFu_sort t name rev = (Ok (), t1) ∧
    default_columns t1 = default_columns t ∧
    opt_sorted_by (options t1) = Some (col, rev) ∧
    table t1 ≡ₚ table t ∧
    StronglySorted (row_order i rev) (table t1) ∧
    (∀ k, filter (λ r, cell_at i r = k) (table t1)
          = filter (λ r, cell_at i r = k) (table t)) ∧
    (∃ t2, TableFu_sort t1 name rev = (Ok (), t2) ∧ table t2 = table t1) ∧
    (NoDup (cell_at i <$> table t) →
     ∃ t3, TableFu_sort t1 name (negb rev) = (Ok (), t3) ∧
           table t3 = reverse (table t1)).
Proof.
  intros Hc Hin Hw. destruct (py_index_elem_of _ _ Hin) as [i Hi].
  pose proof (TableFu_sort_eq t name rev col i Hc Hi Hw) as H1.
  set (t1 := set_options _ _) in H1.
  assert (rows_wide t1) as Hw1.
  { unfold rows_wide, t1. simpl. by rewrite sorted_rows_Permutation. }
  assert (sort_column t1 name = Some col) as Hc1 by by apply sort_column_recorded.
  exists i, t1. split_and!; try done.
  - apply sorted_rows_Permutation.
  - apply sorted_rows_sorted.
  - intros k. apply sorted_rows_stable.
  - eexists. split; [by apply TableFu_sort_eq|]. simpl. apply sorted_rows_idemp.
  - intros Hnd. eexists. split; [by apply TableFu_sort_eq|]. simpl.
    by apply sorted_rows_toggle.
Qed.

Lemma sort_stable_idempotent_witness :
  ∃ i t1,
    py_index "Number of Pages" (default_columns books_table) = Some i ∧
    TableFu_sort books_table (Some "Number of Pages") true = (Ok (), t1) ∧
    default_columns t1 = default_columns books_table ∧
    opt_sorted_by (options t1) = Some ("Number of Pages", true) ∧
    table t1 ≡ₚ table books_table ∧
    StronglySorted (row_order i true) (table t1) ∧
    (∀ k, filter (λ r, cell_at i r = k) (table t1)
          = filter (λ r, cell_at i r = k) (table books_table)) ∧
    (∃ t2, TableFu_sort t1 (Some "Number of Pages") true = (Ok (), t2) ∧
           table t2 = table t1) ∧
    (NoDup (cell_at i <$> table books_table) →
     ∃ t3, TableFu_sort t1 (Some "Number of Pages") (negb true) = (Ok (), t3) ∧
           table t3 = reverse (table t1)).
Proof.
  apply (sort_stable_idempotent books_table (Some "Number of Pages") true
           "Number of Pages").
  - reflexivity.
  - repeat constructor.
  - unfold rows_wide. simpl. repeat constructor.
Defined.

(** With an empty column name and a recorded sort, the rows are keyed on
    the recorded column, not on the column whose name is empty. *)
Lemma sort_empty_name_keys_on_recorded_column :
  "" ∈ default_columns blank_header_table ∧
  py_index "" (default_columns blank_header_table) = Some 0 ∧
  rows_wide blank_header_table ∧
  TableFu_sort blank_header_table (Some "") false
    = (Ok (), blank_header_table) ∧
  ¬ StronglySorted (row_order 0 false) (table blank_header_table).
Proof.
  split_and!.
  - repeat constructor.
  - reflexivity.
  - repeat constructor.
  - reflexivity.
  - intros [Hhd _]%StronglySorted_cons. apply Forall_cons in Hhd as [Hle _].
    by vm_compute in Hle.
Qed.

(** Keys compare as strings: ["10"] and ["100"] come before ["9"]. *)
Example sort_compares_strings :
  (TableFu_sort (plain_table ["n"] [["9"]; ["10"]; ["100"]] no_options) (Some "n") false).2.(table)
  = [["10"]; ["100"]; ["9"]].
Proof. reflexivity. Qed.

Example sort_books_by_pages_descending :
  (TableFu_sort books_table (Some "Number of Pages") true).2.(table)
  = [["James Joyce"; "Ulysses"; "644"; "Modernism"];
     ["Vladimir Sorokin"; "The Queue"; "263"; "Satire"];
     ["Nicholson Baker"; "Mezannine"; "150"; "Minimalism"];
     ["Samuel Beckett"; "Malone Muert"; "120"; "Modernism"]].
Proof. reflexivity. Qed.

(** ** Totals *)

Section errors.
Context {num : Type}.
Variable int_zero : num.
Variable py_add : num → num → num.
Variable py_float : string → string + num.

Lemma sum_floats_Ok acc vs xs :
  Forall2 (λ v x, py_float v = inr x) vs xs →
  sum_floats py_add py_float acc vs = Ok (foldl py_add acc xs).
Proof.
  intros H. revert acc. induction H as [|v x vs xs Hv _ IH]; intros acc; simpl; [done|].
  by rewrite Hv, IH.
Qed.

Lemma sum_floats_Raise acc vs :
  Exists (λ v, ∃ msg, py_float v = inl msg) vs →
  ∃ v msg, v ∈ vs ∧ py_float v = inl msg ∧
           sum_floats py_add py_float acc vs = Raise (ValueError msg).
Proof.
  intros H. revert acc. induction vs as [|v vs IH]; intros acc; [by inversion H|].
  simpl. destruct (py_float v) as [msg|x] eqn:Hv.
  - exists v, msg. split_and!; [left|done..].
  - apply Exists_cons in H as [[msg Hm]|H]; [congruence|].
    destruct (IH H (py_add acc x)) as (v' & msg & ? & ? & ?).
    exists v', msg. split_and!; [by right|done..].
Qed.

Lemma sum_floats_cases acc vs :
  (∃ x, sum_floats py_add py_float acc vs = Ok x) ∨
  (∃ v msg, v ∈ vs ∧ py_float v = inl msg ∧
            sum_floats py_add py_float acc vs = Raise (ValueError msg)).
Proof.
  revert acc. induction vs as [|v vs IH]; intros acc; simpl; [left; by eexists|].
  destruct (py_float v) as [msg|x] eqn:Hv.
  - right. exists v, msg. split_and!; [left|done..].
  - destruct (IH (py_add acc x)) as [?|(v' & msg & ? & ? & ?)]; [by left|].
    right. exists v', msg. split_and!; [by right|done..].
Qed.

Lemma TableFu_values_eq (t : TableFu (list cell)) name i :
  py_index name (default_columns t) = Some i → rows_wide t →
  TableFu_values t name = Ok (cell_at i <$> table t).
Proof.
  intros Hi Hw. unfold TableFu_values.
  assert (py_in name (default_columns t) = true) as ->.
  { apply py_in_true. eapply list_elem_of_lookup_2, py_index_Some, Hi. }
  cbn [negb]. rewrite Hi. apply keys_of_rows.
  eapply Forall_impl; [exact Hw|]. intros r ->. by eapply py_index_lt.
Qed.

Lemma TableFu_total_eq (t : TableFu (list cell)) name i :
  py_index name (default_columns t) = Some i → rows_wide t →
  TableFu_total int_zero py_add py_float t name
  = sum_floats py_add py_float int_zero (cell_at i <$> table t).
Proof.
  intros Hi Hw. unfold TableFu_total. rewrite (TableFu_values_eq t name i Hi Hw).
  assert (py_in name (default_columns t) = true) as ->; [|done].
  apply py_in_true. eapply list_elem_of_lookup_2, py_index_Some, Hi.
Qed.

Lemma TableFu_total_unknown {R} `{RawRow R} (t : TableFu R) name :
  name ∉ default_columns t →
  TableFu_total int_zero py_add py_float t name
  = Raise (ValueError (not_a_column name)).
Proof. intros Hn%py_in_false. unfold TableFu_total. by rewrite Hn. Qed.

(** C3. On a column of the table, [total] is the sum from left to right of
    the values converted by [float], starting from 0; a value that does not
    convert makes it raise ValueError, which is also the class of the error
    it raises for an unknown column. *)
Theorem total_errors_share_class (t : TableFu (list cell)) (name : string) :
  name ∈ default_columns t →
  rows_wide t →
  ∃ i,
    py_index name (default_columns t) = Some i ∧
    (∀ xs, Forall2 (λ v x, py_float v = inr x) (cell_at i <$> table t) xs →
       TableFu_total int_zero py_add py_float t name = Ok (foldl py_add int_zero xs)) ∧
    (Exists (λ v, ∃ msg, py_float v = inl msg) (cell_at i <$> table t) →
       ∃ msg, TableFu_total int_zero py_add py_float t name = Raise (ValueError msg)) ∧
    (∀ other, other ∉ default_columns t →
       TableFu_total int_zero py_add py_float t other
       = Raise (ValueError (not_a_column other))).
Proof.
  intros Hin Hw. destruct (py_index_elem_of _ _ Hin) as [i Hi]. exists i.
  split_and!; [done|..].
  - intros xs Hxs. rewrite (TableFu_total_eq t name i Hi Hw). by apply sum_floats_Ok.
  - intros Hex. rewrite (TableFu_total_eq t name i Hi Hw).
    destruct (sum_floats_Raise int_zero _ Hex) as (v & msg & _ & _ & ->). by eexists.
  - intros other. apply TableFu_total_unknown.
Qed.
End errors.

Lemma total_errors_share_class_witness :
  ∃ i,
    py_index "Number of Pages" (default_columns books_table) = Some i ∧
    (∀ xs, Forall2 (λ v x, float_of_digits v = inr x) (cell_at i <$> table books_table) xs →
       TableFu_total PrimFloat.zero PrimFloat.add float_of_digits books_table "Number of Pages"
       = Ok (foldl PrimFloat.add PrimFloat.zero xs)) ∧
    (Exists (λ v, ∃ msg, float_of_digits v = inl msg) (cell_at i <$> table books_table) →
       ∃ msg, TableFu_total PrimFloat.zero PrimFloat.add float_of_digits books_table
                "Number of Pages" = Raise (ValueError msg)) ∧
    (∀ other, other ∉ default_columns books_table →
       TableFu_total PrimFloat.zero PrimFloat.add float_of_digits books_table other
       = Raise (ValueError (not_a_column other))).
Proof.
  apply (total_errors_share_class PrimFloat.zero PrimFloat.add float_of_digits
           books_table "Number of Pages").
  - repeat constructor.
  - unfold rows_wide. simpl. repeat constructor.
Defined.

(** Bad data and an unknown column raise exceptions of one class. *)
Lemma total_bad_data_raises_the_schema_error_class :
  "A" ∈ default_columns letters_table ∧
  ("Nope" ∉ default_columns letters_table) ∧
  float_of_digits "abc" = inl "could not convert string to float: abc" ∧
  ∃ e1 e2,
    TableFu_total PrimFloat.zero PrimFloat.add float_of_digits letters_table "A" = Raise e1 ∧
    TableFu_total PrimFloat.zero PrimFloat.add float_of_digits letters_table "Nope" = Raise e2 ∧
    class_of e1 = class_of e2.
Proof.
  split_and!.
  - repeat constructor.
  - intros Hx. by apply list_elem_of_singleton in Hx.
  - reflexivity.
  - do 2 eexists. split_and!; reflexivity.
Qed.

(** The total of the pages of the sample table is 1177.0. *)
Example total_number_of_pages :
  TableFu_total PrimFloat.zero PrimFloat.add float_of_digits books_table "Number of Pages"
  = Ok 1177%float.
Proof. reflexivity. Qed.

(** ** Row access *)

Lemma Row_get_unknown {D} (r : Row) name (d : D) :
  name ∉ view_default_columns (Row_table r) → Row_get r name d = Ok (inr d).
Proof. intros Hn%py_in_false. unfold Row_get. by rewrite Hn. Qed.

Lemma Row_getitem_unknown (r : Row) name :
  name ∉ view_default_columns (Row_table r) →
  Row_getitem r name = Raise (KeyError (not_a_column name)).
Proof. intros Hn. unfold Row_getitem. by rewrite Row_get_unknown. Qed.

Lemma Row_get_known {D} (r : Row) name (d : D) i :
  py_index name (view_default_columns (Row_table r)) = Some i →
  i < length (cells r) →
  Row_get r name d
  = Ok (inl {| value := cell_at i (cells r); Datum_row_num := row_num r;
               column_name := name |}).
Proof.
  intros Hi Hlt. unfold Row_get.
  assert (py_in name (view_default_columns (Row_table r)) = true) as ->.
  { apply py_in_true. eapply list_elem_of_lookup_2, py_index_Some, Hi. }
  rewrite Hi. by rewrite list_getitem_cell_at.
Qed.

Lemma Row_getitem_known (r : Row) name i :
  py_index name (view_default_columns (Row_table r)) = Some i →
  i < length (cells r) →
  Row_getitem r name
  = Ok {| value := cell_at i (cells r); Datum_row_num := row_num r;
          column_name := name |}.
Proof. intros Hi Hlt. unfold Row_getitem. by rewrite (Row_get_known r name () i). Qed.

(** ** Column checks of the table operations *)

Lemma sort_column_given {R} (t : TableFu R) name :
  name ≠ "" ∨ opt_sorted_by (options t) = None →
  sort_column t (Some name) = Some name.
Proof.
  unfold sort_column. intros [Hn| ->].
  - destruct name; [done|]. by destruct (opt_sorted_by (options t)) as [[??]|].
  - by destruct name.
Qed.

Lemma TableFu_sort_unknown {R} `{RawRow R} (t : TableFu R) name rev :
  name ∉ default_columns t →
  name ≠ "" ∨ opt_sorted_by (options t) = None →
  TableFu_sort t (Some name) rev = (Raise (ValueError (not_a_column name)), t).
Proof.
  intros Hn%py_in_false Hg. unfold TableFu_sort.
  by rewrite (sort_column_given t name Hg), Hn.
Qed.

Lemma TableFu_transform_unknown {R} `{RawRow R} (t : TableFu R) name func :
  name ∉ default_columns t →
  TableFu_transform t name func = (Raise (ValueError (not_a_column name)), t).
Proof. intros Hn%py_in_false. unfold TableFu_transform. by rewrite Hn. Qed.

Lemma TableFu_values_unknown {R} `{RawRow R} (t : TableFu R) name :
  name ∉ default_columns t →
  TableFu_values t name = Raise (ValueError (not_a_column name)).
Proof. intros Hn%py_in_false. unfold TableFu_values. by rewrite Hn. Qed.

Lemma transform_rows_Ok i f (rows : list (list cell)) :
  Forall (λ r, i < length r) rows →
  transform_rows i f rows = (Ok (), (λ r, <[i := f (cell_at i r)]> r) <$> rows).
Proof.
  induction 1 as [|r rows Hr _ IH]; simpl; [done|].
  rewrite list_getitem_cell_at by done. unfold list_setitem.
  rewrite decide_True by done. by rewrite IH.
Qed.

Lemma TableFu_transform_eq (t : TableFu (list cell)) name f i :
  py_index name (default_columns t) = Some i → rows_wide t →
  TableFu_transform t name (Callable f)
  = (Ok (), set_table t ((λ r, <[i := f (cell_at i r)]> r) <$> table t)).
Proof.
  intros Hi Hw. unfold TableFu_transform.
  assert (py_in name (default_columns t) = true) as ->.
  { apply py_in_true. eapply list_elem_of_lookup_2, py_index_Some, Hi. }
  cbn [negb]. rewrite Hi, transform_rows_Ok; [done|].
  eapply Forall_impl; [exact Hw|]. intros r ->. by eapply py_index_lt.
Qed.

Section unknown_column.
Context {num : Type}.
Variable int_zero : num.
Variable py_add : num → num → num.
Variable py_float : string → string + num.

(** C8. For a name that is not in [default_columns]: [row[name]] raises
    KeyError, [transform], [values] and [total] raise ValueError, [sort]
    raises ValueError when the name is not empty or no sort is recorded, all
    with the message of the unknown column, and [row.get(name, default)]
    returns the default. For a name in [default_columns] of a rectangular
    table: [row[name]] and [get] return the Datum, [sort], [transform] and
    [values] return, and [total] returns or raises the ValueError of a value
    that [float] rejects. *)
Theorem unknown_column_errors (t : TableFu (list cell)) (r : Row) (name : string) :
  Row_table r = view_of t →
  (name ∉ default_columns t →
     Row_getitem r name = Raise (KeyError (not_a_column name)) ∧
     (∀ D (d : D), Row_get r name d = Ok (inr d)) ∧
     (∀ rev, name ≠ "" ∨ opt_sorted_by (options t) = None →
        TableFu_sort t (Some name) rev = (Raise (ValueError (not_a_column name)), t)) ∧
     (∀ func,
        TableFu_transform t name func = (Raise (ValueError (not_a_column name)), t)) ∧
     TableFu_values t name = Raise (ValueError (not_a_column name)) ∧
     TableFu_total int_zero py_add py_float t name
     = Raise (ValueError (not_a_column name))) ∧
  (name ∈ default_columns t →
   rows_wide t →
   length (cells r) = length (default_columns t) →
     (∃ d, Row_getitem r name = Ok d) ∧
     (∀ D (d : D), ∃ datum, Row_get r name d = Ok (inl datum)) ∧
     (∀ rev, name ≠ "" ∨ opt_sorted_by (options t) = None →
        (TableFu_sort t (Some name) rev).1 = Ok ()) ∧
     (∀ f, (TableFu_transform t name (Callable f)).1 = Ok ()) ∧
     (∃ vs, TableFu_values t name = Ok vs ∧
        ((∃ x, TableFu_total int_zero py_add py_float t name = Ok x) ∨
         (∃ v msg, v ∈ vs ∧ py_float v = inl msg ∧
            TableFu_total int_zero py_add py_float t name = Raise (ValueError msg))))).
Proof.
  intros Hv. split.
  - intros Hn. split_and!.
    + apply Row_getitem_unknown. by rewrite Hv.
    + intros D d. apply Row_get_unknown. by rewrite Hv.
    + intros rev. by apply TableFu_sort_unknown.
    + intros func. by apply TableFu_transform_unknown.
    + by apply TableFu_values_unknown.
    + by apply TableFu_total_unknown.
  - intros Hin Hw Hlen. destruct (py_index_elem_of _ _ Hin) as [i Hi].
    assert (i < length (cells r)) as Hlt by (rewrite Hlen; by eapply py_index_lt).
    split_and!.
    + eexists. apply (Row_getitem_known r name i); [by rewrite Hv|done].
    + intros D d. eexists. apply (Row_get_known r name d i); [by rewrite Hv|done].
    + intros rev Hg.
      by rewrite (TableFu_sort_eq t (Some name) rev name i (sort_column_given t name Hg) Hi Hw).
    + intros f. by rewrite (TableFu_transform_eq t name f i Hi Hw).
    + eexists. split; [by apply (TableFu_values_eq t name i)|].
      rewrite (TableFu_total_eq int_zero py_add py_float t name i Hi Hw).
      apply sum_floats_cases.
Qed.
End unknown_column.

Lemma unknown_column_errors_witness :
  Row_getitem beckett_row "Nope" = Raise (KeyError (not_a_column "Nope")) ∧
  ∃ d, Row_getitem beckett_row "Author" = Ok d.
Proof.
  split.
  - apply (unknown_column_errors PrimFloat.zero PrimFloat.add float_of_digits
             books_table beckett_row "Nope" eq_refl).
    intros Hin. simpl in Hin.
    repeat (apply elem_of_cons in Hin as [Hin|Hin]; [discriminate|]).
    by apply elem_of_nil in Hin.
  - apply (unknown_column_errors PrimFloat.zero PrimFloat.add float_of_digits
             books_table beckett_row "Author" eq_refl).
    + repeat constructor.
    + unfold rows_wide. simpl. repeat constructor.
    + reflexivity.
Defined.

(** [sort("")] on a table with a recorded sort does not raise, although the
    empty name is not a column. *)
Lemma sort_empty_name_does_not_raise :
  ("" ∉ default_columns sorted_table) ∧
  TableFu_sort sorted_table (Some "") false = (Ok (), sorted_table).
Proof.
  split; [|reflexivity].
  intros Hin. apply list_elem_of_singleton in Hin. discriminate.
Qed.

(** ** Deleting a row

    C10. [delete_row] raises AttributeError on every table and index, and
    leaves the table as it was: no row is removed and [deleted_rows] does not
    grow. *)
Theorem delete_row_raises {R} (t : TableFu R) (row_num : Z) :
  ∃ msg,
    TableFu_delete_row t row_num = (Raise (AttributeError msg), t) ∧
    table (TableFu_delete_row t row_num).2 = table t ∧
    deleted_rows (TableFu_delete_row t row_num).2 = deleted_rows t.
Proof. eexists. split_and!; reflexivity. Qed.

(** ** Items of a row *)

Lemma py_dict_fold_lookup {V} (g : string → V) (cols : list string) (c : string)
    (m : gmap string V) :
  foldl (λ m kv, <[kv.1 := kv.2]> m) m ((λ c, (c, g c)) <$> cols) !! c
  = if decide (c ∈ cols) then Some (g c) else m !! c.
Proof.
  revert m. induction cols as [|c' cols IH]; intros m.
  - rewrite decide_False; [done|]. apply not_elem_of_nil.
  - cbn [fmap list_fmap foldl]. rewrite IH. cbn [fst snd].
    destruct (decide (c ∈ cols)) as [Hin|Hout].
    + rewrite decide_True; [done|]. by right.
    + destruct (decide (c = c')) as [->|Hne].
      * rewrite decide_True by left. by rewrite lookup_insert_eq.
      * rewrite decide_False; [by rewrite lookup_insert_ne|].
        by intros [?|?]%elem_of_cons.
Qed.

Lemma py_dict_lookup {V} (g : string → V) (cols : list string) (c : string) :
  c ∈ cols → py_dict ((λ c, (c, g c)) <$> cols) !! c = Some (g c).
Proof.
  intros Hin. unfold py_dict. rewrite py_dict_fold_lookup. by rewrite decide_True.
Qed.

Lemma Row_getitem_datum_of (r : Row) name :
  name ∈ view_default_columns (Row_table r) →
  length (cells r) = length (view_default_columns (Row_table r)) →
  Row_getitem r name = Ok (datum_of r name).
Proof.
  intros Hin Hlen. destruct (py_index_elem_of _ _ Hin) as [i Hi].
  unfold datum_of. rewrite Hi. apply Row_getitem_known; [done|].
  rewrite Hlen. by eapply py_index_lt.
Qed.

Lemma Row_data_eq (r : Row) :
  view_columns (Row_table r) ⊆ view_default_columns (Row_table r) →
  length (cells r) = length (view_default_columns (Row_table r)) →
  Row_data r = Ok (datum_of r <$> view_columns (Row_table r)).
Proof.
  intros Hsub Hlen. unfold Row_data. apply mapM_Ok_fmap.
  apply Forall_forall. intros c Hc. apply Row_getitem_datum_of; [by apply Hsub|done].
Qed.

Lemma zip_fmap_self {A B} (f : A → B) (l : list A) :
  zip l (f <$> l) = (λ x, (x, f x)) <$> l.
Proof. induction l; simpl; [done|]. by f_equal. Qed.

Lemma Row_items_eq (r : Row) :
  view_columns (Row_table r) ⊆ view_default_columns (Row_table r) →
  length (cells r) = length (view_default_columns (Row_table r)) →
  Row_items r
  = Ok ((λ c, (c, PyStr (value (datum_of r c)))) <$> view_columns (Row_table r)).
Proof.
  intros Hsub Hlen. unfold Row_items, Row_values, Row_keys.
  rewrite (Row_data_eq r Hsub Hlen). simpl. f_equal.
  rewrite <-!list_fmap_compose. apply zip_fmap_self.
Qed.

Lemma TableFu_rows_eq (t : TableFu (list cell)) :
  TableFu_rows t = Ok ((λ ir, row_of t ir.1 ir.2) <$> enumerate (table t)).
Proof. unfold TableFu_rows. by apply mapM_Ok_fmap, Forall_true. Qed.

(** C2. For every row of a rectangular table whose active columns are
    columns of the table, [items()] pairs each active column name, in order,
    with the raw string of the cell, which is the [value] of the Datum that
    [row[name]] returns; [dict()] maps each active column name to that
    string. *)
Theorem items_hold_raw_values (t : TableFu (list cell)) :
  columns t ⊆ default_columns t →
  rows_wide t →
  ∃ rows dicts,
    TableFu_rows t = Ok rows ∧
    TableFu_dict t = Ok dicts ∧
    cells <$> rows = table t ∧
    Forall2 (λ row dict,
      ∃ items,
        Row_items row = Ok items ∧
        dict = py_dict items ∧
        items.*1 = columns t ∧
        Forall2 (λ c v, ∃ d, Row_getitem row c = Ok d ∧ v = PyStr (value d))
          (columns t) items.*2 ∧
        ∀ c, c ∈ columns t →
          ∃ d, Row_getitem row c = Ok d ∧ dict !! c = Some (PyStr (value d)))
      rows dicts.
Proof.
  intros Hsub Hw.
  set (rows := (λ ir, row_of t ir.1 ir.2) <$> enumerate (table t)).
  set (items_of := λ row : Row, (λ c, (c, PyStr (value (datum_of row c)))) <$> columns t).
  assert (Forall (λ row, Row_table row = view_of t ∧
                         length (cells row) = length (default_columns t)) rows) as Hrows.
  { unfold rows. rewrite Forall_fmap. apply Forall_forall. intros [i raw] Hin. simpl.
    split; [done|]. unfold rows_wide in Hw. rewrite Forall_forall in Hw. apply Hw.
    unfold enumerate in Hin. by apply elem_of_zip_r in Hin. }
  assert (Forall (λ row, Row_items row = Ok (items_of row)) rows) as Hitems.
  { eapply Forall_impl; [exact Hrows|]. intros row [Hv Hlen]. unfold items_of.
    rewrite Row_items_eq; rewrite Hv; done. }
  exists rows, (py_dict ∘ items_of <$> rows). split_and!.
  - apply TableFu_rows_eq.
  - unfold TableFu_dict. rewrite TableFu_rows_eq. simpl. fold rows.
    apply mapM_Ok_fmap. eapply Forall_impl; [exact Hitems|].
    intros row Hr. by rewrite Hr.
  - unfold rows, enumerate. rewrite <-list_fmap_compose.
    trans ((zip (seq 0 (length (table t))) (table t)).*2).
    + by apply list_fmap_ext.
    + apply snd_zip. by rewrite length_seq.
  - apply Forall2_fmap_r, Forall_Forall2_diag.
    rewrite Forall_forall in Hrows, Hitems. apply Forall_forall. intros row Hin.
    destruct (Hrows row Hin) as [Hv Hlen]. exists (items_of row). split_and!.
    + by apply Hitems.
    + done.
    + unfold items_of. rewrite <-list_fmap_compose. apply list_fmap_id.
    + unfold items_of. rewrite <-list_fmap_compose. apply Forall2_fmap_r, Forall_Forall2_diag.
      apply Forall_forall. intros c Hc. exists (datum_of row c). split; [|done].
      apply Row_getitem_datum_of; rewrite Hv; [by apply Hsub|done].
    + intros c Hc. exists (datum_of row c). split.
      * apply Row_getitem_datum_of; rewrite Hv; [by apply Hsub|done].
      * simpl. unfold items_of.
        by rewrite (py_dict_lookup (λ c, PyStr (value (datum_of row c)))).
Qed.

Lemma items_hold_raw_values_witness :
  ∃ rows dicts,
    TableFu_rows one_cell_table = Ok rows ∧
    TableFu_dict one_cell_table = Ok dicts ∧
    cells <$> rows = table one_cell_table ∧
    Forall2 (λ row dict,
      ∃ items,
        Row_items row = Ok items ∧
        dict = py_dict items ∧
        items.*1 = columns one_cell_table ∧
        Forall2 (λ c v, ∃ d, Row_getitem row c = Ok d ∧ v = PyStr (value d))
          (columns one_cell_table) items.*2 ∧
        ∀ c, c ∈ columns one_cell_table →
          ∃ d, Row_getitem row c = Ok d ∧ dict !! c = Some (PyStr (value d)))
      rows dicts.
Proof.
  apply (items_hold_raw_values one_cell_table).
  - intros c Hc. exact Hc.
  - unfold rows_wide. simpl. repeat constructor.
Defined.

(** The items of a row hold strings, not Datum objects. *)
Lemma items_hold_strings_not_datums :
  let r := row_of one_cell_table 0 ["1"] in
  let d := {| value := "1"; Datum_row_num := 0; column_name := "A" |} in
  Row_getitem r "A" = Ok d ∧
  Row_data r = Ok [d] ∧
  Row_items r = Ok [("A", PyStr "1")] ∧
  Row_items r ≠ Ok (zip (Row_keys r) (PyDatum <$> [d])).
Proof. split_and!; [reflexivity..|]. simpl. discriminate. Qed.

(** ** Transposition *)

Lemma row_as_cells (r : list cell) : (λ i, cell_at i r) <$> seq 0 (length r) = r.
Proof.
  apply list_eq. intros i. rewrite list_lookup_fmap.
  destruct (decide (i < length r)) as [Hi|Hi].
  - rewrite lookup_seq_lt by done. simpl. unfold cell_at.
    by destruct (lookup_lt_is_Some_2 r i Hi) as [v ->].
  - rewrite lookup_seq_ge by lia. simpl. symmetry. apply lookup_ge_None. lia.
Qed.

Lemma length_transpose_grid m g : length (transpose_grid m g) = m.
Proof. unfold transpose_grid. by rewrite length_fmap, length_seq. Qed.

Lemma transpose_grid_rows m g :
  Forall (λ r, length r = length g) (transpose_grid m g).
Proof.
  unfold transpose_grid. rewrite Forall_fmap. apply Forall_true.
  intros i. simpl. by rewrite length_fmap.
Qed.

Lemma cell_at_column i j (g : list (list cell)) r :
  g !! j = Some r → cell_at j (cell_at i <$> g) = cell_at i r.
Proof. intros Hj. unfold cell_at at 1. by rewrite list_lookup_fmap, Hj. Qed.

Lemma transpose_grid_involutive m (g : list (list cell)) :
  Forall (λ r, length r = m) g →
  transpose_grid (length g) (transpose_grid m g) = g.
Proof.
  intros Hg. apply list_eq. intros j. unfold transpose_grid at 1.
  rewrite list_lookup_fmap.
  destruct (g !! j) as [r|] eqn:Hj.
  - rewrite lookup_seq_lt by by eapply lookup_lt_Some. simpl. f_equal.
    unfold transpose_grid. rewrite <-list_fmap_compose.
    assert (length r = m) as <-.
    { rewrite Forall_forall in Hg. eapply Hg, list_elem_of_lookup_2, Hj. }
    rewrite <-(row_as_cells r) at 2. apply list_fmap_ext. intros _ i _. simpl.
    by apply cell_at_column.
  - rewrite lookup_seq_ge; [done|]. by apply lookup_ge_None.
Qed.

Lemma transpose_column_eq (t : TableFu (list cell)) i :
  rows_wide t → i < length (default_columns t) →
  transpose_column t i = Ok (cell_at i <$> grid t).
Proof.
  intros Hw Hi. unfold transpose_column.
  rewrite list_getitem_cell_at, bind_Ok by done.
  rewrite keys_of_rows; [done|].
  eapply Forall_impl; [exact Hw|]. by intros r ->.
Qed.

Lemma transpose_columns_eq (t : TableFu (list cell)) :
  rows_wide t →
  mapM (transpose_column t) (seq 0 (length (default_columns t)))
  = Ok (transpose_grid (length (default_columns t)) (grid t)).
Proof.
  intros Hw. apply mapM_Ok_fmap, Forall_forall. intros i Hi%elem_of_seq.
  apply transpose_column_eq; [done|lia].
Qed.

Lemma grid_rows (t : TableFu (list cell)) :
  rows_wide t → Forall (λ r, length r = length (default_columns t)) (grid t).
Proof. intros Hw. by constructor. Qed.

Lemma TableFu_new_unsorted (g : list (list cell)) (o : Options) header body :
  g = header :: body → opt_sorted_by o = None →
  TableFu_new g o = Ok (plain_table header body o).
Proof. intros -> Ho. unfold TableFu_new, TableFu_init. by rewrite Ho. Qed.

Lemma TableFu_transpose_unsorted (t : TableFu (list cell)) :
  rows_wide t → default_columns t ≠ [] → opt_sorted_by (options t) = None →
  ∃ t1, TableFu_transpose t = Ok t1 ∧
        grid t1 = transpose_grid (length (default_columns t)) (grid t) ∧
        options t1 = options t.
Proof.
  intros Hw Hne Ho. unfold TableFu_transpose. rewrite transpose_columns_eq by done.
  simpl.
  destruct (transpose_grid (length (default_columns t)) (grid t)) as [|h b] eqn:Hg.
  { apply (f_equal length) in Hg. rewrite length_transpose_grid in Hg.
    by destruct (default_columns t). }
  rewrite (TableFu_new_unsorted _ _ h b eq_refl Ho). by eexists.
Qed.

Lemma rows_wide_grid (t : TableFu (list cell)) n :
  Forall (λ r, length r = n) (grid t) → rows_wide t ∧ length (default_columns t) = n.
Proof.
  intros [Hh Hb]%Forall_cons. split; [|done].
  eapply Forall_impl; [exact Hb|]. intros r. by rewrite Hh.
Qed.

(** C6. Transposing twice gives the original grid back, header row included,
    for a rectangular table with at least one column on which no sort is
    recorded. *)
Theorem transpose_involution (t : TableFu (list cell)) :
  rows_wide t →
  default_columns t ≠ [] →
  opt_sorted_by (options t) = None →
  ∃ t1 t2,
    TableFu_transpose t = Ok t1 ∧
    TableFu_transpose t1 = Ok t2 ∧
    grid t2 = grid t.
Proof.
  intros Hw Hne Ho.
  destruct (TableFu_transpose_unsorted t Hw Hne Ho) as (t1 & Ht1 & Hg1 & Ho1).
  pose proof (transpose_grid_rows (length (default_columns t)) (grid t)) as Hrows.
  rewrite <-Hg1 in Hrows. apply rows_wide_grid in Hrows as [Hw1 Hlen1].
  destruct (TableFu_transpose_unsorted t1) as (t2 & Ht2 & Hg2 & _).
  - done.
  - intros Hnil. rewrite Hnil in Hlen1. done.
  - by rewrite Ho1.
  - exists t1, t2. split_and!; [done..|].
    rewrite Hg2, Hg1, Hlen1. apply transpose_grid_involutive. by apply grid_rows.
Qed.

Lemma transpose_involution_witness :
  ∃ t1 t2,
    TableFu_transpose books_table = Ok t1 ∧
    TableFu_transpose t1 = Ok t2 ∧
    grid t2 = grid books_table.
Proof.
  apply (transpose_involution books_table).
  - unfold rows_wide. simpl. repeat constructor.
  - discriminate.
  - reflexivity.
Defined.

(** On a table with a recorded sort, transposing twice gives another grid. *)
Lemma transpose_twice_reorders_sorted_table :
  rows_wide three_columns_table ∧
  ∃ t1 t2,
    TableFu_transpose three_columns_table = Ok t1 ∧
    TableFu_transpose t1 = Ok t2 ∧
    grid t2 = [["A"; "B"; "Z"]; ["1"; "3"; "2"]] ∧
    grid t2 ≠ grid three_columns_table.
Proof.
  split; [repeat constructor|].
  do 2 eexists. split_and!; [reflexivity..|discriminate].
Qed.

Example transpose_raises_after_sort_on_another_column :
  TableFu_transpose (plain_table ["A"; "B"] [["1"; "2"]] (sorted_by "B" false))
  = Raise (ValueError (not_a_column "B")).
Proof. reflexivity. Qed.

Example transpose_raises_without_columns :
  TableFu_transpose (plain_table [] [] no_options)
  = Raise (IndexError "pop from empty list").
Proof. reflexivity. Qed.

(** The options that reach the constructor are [self.options]: whatever
    the table, its columns override is handed over. *)
Lemma TableFu_sort_columns {R} `{RawRow R} (t : TableFu R) name rev :
  opt_columns (options (TableFu_sort t name rev).2) = opt_columns (options t) ∧
  _columns (TableFu_sort t name rev).2 = _columns t.
Proof.
  unfold TableFu_sort. destruct (sort_column t name) as [col|]; [|done].
  destruct (negb _); [done|]. destruct (py_index _ _); [|done].
  by destruct (mapM _ _).
Qed.

Lemma transpose_columns_override {R} `{RawRow R} (t : TableFu R) t1 :
  TableFu_transpose t = Ok t1 →
  opt_columns (options t1) = opt_columns (options t) ∧
  _columns t1 = default [] (opt_columns (options t)).
Proof.
  unfold TableFu_transpose. destruct (mapM _ _) as [g|]; simpl; [|done].
  unfold TableFu_new. destruct g as [|h b]; [done|]. unfold TableFu_init.
  destruct (opt_sorted_by (options t)) as [[col rev]|]; [|by intros [= <-]].
  match goal with |- context [TableFu_sort ?s ?n ?r] =>
    pose proof (TableFu_sort_columns s n r) as [Ho Hc];
    destruct (TableFu_sort s n r) as [[[]|e] s'] end; [|done].
  intros [= <-]. simpl in *. by rewrite Ho, Hc.
Qed.

(** C7. [transpose] on a table constructed with a columns override returns
    a table that still carries the override, in its options and as its
    active columns. *)
Theorem transpose_keeps_columns_override :
  ∃ t1,
    TableFu_transpose override_table = Ok t1 ∧
    opt_columns (options override_table) = Some ["B"] ∧
    opt_columns (options t1) = Some ["B"] ∧
    _columns t1 = ["B"] ∧
    columns t1 = ["B"] ∧
    default_columns t1 = ["A"; "1"].
Proof. eexists. split_and!; reflexivity. Qed.

(** ** Filtering *)

Lemma TableFu_init_unsorted {R} `{RawRow R} header (body : list R) (o : Options) :
  opt_sorted_by o = None →
  ∃ t, TableFu_init header body o = Ok t ∧
       table t = body ∧ default_columns t = header ∧ options t = o.
Proof. intros Ho. unfold TableFu_init. rewrite Ho. by eexists. Qed.

(** On a table with no recorded sort, [filter] keeps the Row objects on
    which the predicate is true, in their order. *)
Lemma TableFu_filter_unsorted (t : TableFu (list cell)) (func : Row → bool) :
  opt_sorted_by (options t) = None →
  ∃ t', TableFu_filter t func = Ok t' ∧
        table t' = List.filter func ((λ ir, row_of t ir.1 ir.2) <$> enumerate (table t)) ∧
        Forall (λ row, func row = true) (table t') ∧
        default_columns t' = default_columns t ∧
        options t' = options t.
Proof.
  intros Ho. unfold TableFu_filter. rewrite TableFu_rows_eq, bind_Ok.
  destruct (TableFu_init_unsorted (default_columns t)
              (List.filter func ((λ ir, row_of t ir.1 ir.2) <$> enumerate (table t)))
              (options t) Ho) as (t' & -> & Ht & Hd & Hopt).
  exists t'. split_and!; [done..| |done|done].
  rewrite Ht. apply Forall_forall. intros row Hin%list_elem_of_In.
  by apply List.filter_In in Hin as [_ ?].
Qed.

(** The key function [row[index]] of [sort] raises on a Row object. *)
Lemma TableFu_sort_Row_raises (t : TableFu Row) name rev col i r rest :
  sort_column t name = Some col →
  py_index col (default_columns t) = Some i →
  table t = r :: rest →
  TableFu_sort t name rev = (Raise (KeyError (not_a_column (pretty i))), t).
Proof.
  intros Hc Hi Ht. unfold TableFu_sort. rewrite Hc.
  assert (py_in col (default_columns t) = true) as ->.
  { apply py_in_true. eapply list_elem_of_lookup_2, py_index_Some, Hi. }
  cbn [negb]. by rewrite Hi, Ht.
Qed.

(** The constructor sorts when a sort is recorded, so [filter] raises as
    soon as it keeps a row of a sorted table. *)
Lemma TableFu_filter_sorted (t : TableFu (list cell)) (func : Row → bool) col rev i j row :
  opt_sorted_by (options t) = Some (col, rev) →
  py_index col (default_columns t) = Some i →
  table t !! j = Some row →
  func (row_of t j row) = true →
  TableFu_filter t func = Raise (KeyError (not_a_column (pretty i))).
Proof.
  intros Ho Hi Hj Hf. unfold TableFu_filter. rewrite TableFu_rows_eq, bind_Ok.
  assert (In (row_of t j row)
            (List.filter func ((λ ir, row_of t ir.1 ir.2) <$> enumerate (table t))))
    as Hkept.
  { apply List.filter_In. split; [|done]. apply list_elem_of_In.
    apply (list_elem_of_fmap_2 (λ ir, row_of t ir.1 ir.2) _ (j, row)).
    unfold enumerate. apply list_elem_of_lookup. exists j.
    rewrite lookup_zip_with, lookup_seq_lt by by eapply lookup_lt_Some. by rewrite Hj. }
  destruct (List.filter func _) as [|r kept]; [done|].
  unfold TableFu_init. rewrite Ho.
  erewrite TableFu_sort_Row_raises; [done| |exact Hi|done].
  unfold sort_column. simpl. rewrite Ho. by destruct col.
Qed.

(** C4. On a table that has been sorted, [filter] with a predicate that
    keeps a row raises KeyError instead of returning a table. *)
Theorem filter_raises_on_sorted_table :
  opt_sorted_by (options sorted_table) = Some ("A", false) ∧
  table sorted_table = [["x"]] ∧
  TableFu_filter sorted_table (λ _, true) = Raise (KeyError "0 isn't a column in this table").
Proof. split_and!; reflexivity. Qed.

Example filter_books_by_style :
  (λ t, cells <$> table t) <$>
    TableFu_filter books_table
      (λ r, match Row_getitem r "Style" with
            | Ok d => bool_decide (value d = "Modernism")
            | Raise _ => false
            end)
  = Ok [["Samuel Beckett"; "Malone Muert"; "120"; "Modernism"];
        ["James Joyce"; "Ulysses"; "644"; "Modernism"]].
Proof. reflexivity. Qed.

(** With reordered active columns the kept Row objects iterate in the order
    of the active columns, so the rows of the new table hold the cells under
    the wrong names. *)
Example filter_with_reordered_columns :
  column_A_is_1 (row_of reordered_table 0 ["1"; "2"]) = true ∧
  (TableFu_filter reordered_table column_A_is_1 ≫= λ t' : TableFu Row,
   TableFu_rows t' ≫= λ rows : list Row,
   Ok ((λ r, (cells r, column_A_is_1 r)) <$> rows))
  = Ok [(["2"; "1"], false)].
Proof. split; reflexivity. Qed.

(** ** Faceting *)

Lemma facet_append_lookup (acc : gmap string (list (list cell))) col cs k :
  facet_append acc col cs !! k
  = if decide (col = k) then Some (default [] (acc !! k) ++ [cs]) else acc !! k.
Proof.
  unfold facet_append. destruct (decide (col = k)) as [->|Hne].
  - destruct (acc !! k) as [v|] eqn:Hk; by rewrite lookup_insert_eq.
  - destruct (acc !! col); by rewrite lookup_insert_ne.
Qed.

(** After the loop over the rows, the dict maps every value of the column to
    the rows that hold it, in their order. *)
Lemma facet_fold_lookup i (raws : list (list cell)) (acc : gmap string (list (list cell))) k :
  foldl (λ a raw, facet_append a (cell_at i raw) raw) acc raws !! k
  = match filter (λ r, cell_at i r = k) raws with
    | [] => acc !! k
    | l => Some (default [] (acc !! k) ++ l)
    end.
Proof.
  revert acc. induction raws as [|r rs IH]; intros acc; [done|].
  cbn [foldl]. rewrite IH, facet_append_lookup, filter_cons.
  destruct (decide (cell_at i r = k)) as [Hk|Hk].
  - destruct (filter _ rs) as [|r' l]; simpl; [done|]. by rewrite <-(assoc_L (++)).
  - done.
Qed.

Lemma facet_rows_eq column i (rows : list Row) acc :
  Forall (λ row, ∃ d, Row_getitem row column = Ok d ∧ value d = cell_at i (cells row)) rows →
  facet_rows column rows acc
  = Ok (foldl (λ a raw, facet_append a (cell_at i raw) raw) acc (cells <$> rows)).
Proof.
  intros H. revert acc. induction H as [|row rows (d & Hd & Hv) _ IH]; intros acc; [done|].
  cbn [facet_rows]. rewrite Hd. cbn [mbind result_bind truthy]. rewrite Hv.
  apply IH.
Qed.

Lemma decorated_fst {A} (f : A → string) (L : list (string * A)) :
  Forall (λ p, p.1 = f p.2) L → L.*1 = f <$> L.*2.
Proof. induction 1 as [|[k a] L Hk _ IH]; simpl; [done|]. simpl in Hk. by f_equal. Qed.

(** What [facet_by] computes on a rectangular table: one table per value of
    the column, the empty string included; each holds the rows with that
    value in their order; the tables come in ascending order of their
    values. *)
Lemma TableFu_facet_by_partition (t : TableFu (list cell)) column i :
  py_index column (default_columns t) = Some i →
  rows_wide t →
  ∃ ts,
    TableFu_facet_by t column = Ok ts ∧
    StronglySorted String.le (facet_key <$> ts) ∧
    NoDup (facet_key <$> ts) ∧
    (∀ k, k ∈ facet_key <$> ts ↔ k ∈ cell_at i <$> table t) ∧
    Forall (λ ft,
      faceted_on ft = Some (facet_key ft) ∧
      default_columns ft = default_columns t ∧
      table ft = filter (λ r, cell_at i r = facet_key ft) (table t)) ts.
Proof.
  intros Hi Hw.
  set (m := foldl (λ a raw, facet_append a (cell_at i raw) raw) ∅ (table t)).
  assert (∀ k, m !! k = match filter (λ r, cell_at i r = k) (table t) with
                        | [] => None
                        | l => Some l
                        end) as Hm.
  { intros k. unfold m. rewrite facet_fold_lookup, lookup_empty. by destruct (filter _ _). }
  set (tables := facet_of t <$> map_to_list m).
  set (D := (λ ft, (facet_key ft, ft)) <$> tables).
  assert (Forall (λ p, p.1 = facet_key p.2) (list_sort false D)) as Hdec.
  { rewrite list_sort_Permutation. unfold D. rewrite Forall_fmap. by apply Forall_true. }
  assert (facet_key <$> tables = (map_to_list m).*1) as Hkeys.
  { unfold tables. rewrite <-list_fmap_compose. by apply list_fmap_ext. }
  assert ((list_sort false D).*2 ≡ₚ tables) as Hperm.
  { rewrite list_sort_Permutation. unfold D. rewrite <-list_fmap_compose.
    by rewrite list_fmap_id. }
  exists (list_sort false D).*2. split_and!.
  - unfold TableFu_facet_by. rewrite TableFu_rows_eq, bind_Ok.
    rewrite (facet_rows_eq column i).
    + rewrite bind_Ok. rewrite <-list_fmap_compose.
      assert ((cells ∘ (λ ir, row_of t ir.1 ir.2)) <$> enumerate (table t) = table t) as ->.
      { unfold enumerate. trans ((zip (seq 0 (length (table t))) (table t)).*2).
        - by apply list_fmap_ext.
        - apply snd_zip. by rewrite length_seq. }
      fold m. rewrite (mapM_Ok_fmap _ (facet_of t)) by by apply Forall_true.
      by rewrite bind_Ok.
    + rewrite Forall_fmap. apply Forall_forall. intros [j raw] Hin. simpl.
      assert (i < length raw) as Hlt.
      { unfold rows_wide in Hw. rewrite Forall_forall in Hw.
        rewrite (Hw raw); [by eapply py_index_lt|].
        unfold enumerate in Hin. by apply elem_of_zip_r in Hin. }
      eexists. split.
      * by apply (Row_getitem_known (row_of t j raw) column i).
      * reflexivity.
  - rewrite <-decorated_fst by done.
    eapply StronglySorted_fmap; [|apply (list_sort_sorted false D)].
    by intros x y.
  - rewrite Hperm, Hkeys. apply NoDup_fst_map_to_list.
  - intros k. rewrite Hperm, Hkeys. rewrite list_elem_of_fmap.
    split.
    + intros ([k' l] & -> & Hin%elem_of_map_to_list). simpl.
      rewrite Hm in Hin. destruct (filter _ (table t)) as [|r l'] eqn:Hf; [done|].
      assert (r ∈ filter (λ r, cell_at i r = k') (table t)) as Hr by (rewrite Hf; left).
      apply list_elem_of_filter in Hr as [<- Hr]. by apply list_elem_of_fmap_2.
    + intros (r & -> & Hr)%list_elem_of_fmap.
      assert (r ∈ filter (λ r', cell_at i r' = cell_at i r) (table t)) as Hf
        by by apply list_elem_of_filter.
      destruct (filter _ (table t)) as [|r0 l] eqn:Hfl; [by apply elem_of_nil in Hf|].
      exists (cell_at i r, r0 :: l). split; [done|].
      apply elem_of_map_to_list. by rewrite Hm, Hfl.
  - rewrite Hperm. unfold tables. rewrite Forall_fmap. apply Forall_forall.
    intros [k l] Hin%elem_of_map_to_list. simpl. split_and!; [done..|].
    change (facet_key _) with k. rewrite Hm in Hin.
    destruct (filter _ (table t)); by simplify_eq.
Qed.

(** C1. A row whose facet column is empty is not left out: it lands in a
    facet table whose [faceted_on] is the empty string. *)
Theorem facet_by_keeps_empty_values :
  facets <$> TableFu_facet_by empty_cell_table "B"
  = Ok [(Some "", [["x"; ""]]); (Some "1", [["y"; "1"]])].
Proof. vm_compute. reflexivity. Qed.

Example facet_books_by_style :
  facets <$> TableFu_facet_by books_table "Style"
  = Ok [(Some "Minimalism", [["Nicholson Baker"; "Mezannine"; "150"; "Minimalism"]]);
        (Some "Modernism", [["Samuel Beckett"; "Malone Muert"; "120"; "Modernism"];
                            ["James Joyce"; "Ulysses"; "644"; "Modernism"]]);
        (Some "Satire", [["Vladimir Sorokin"; "The Queue"; "263"; "Satire"]])].
Proof. vm_compute. reflexivity. Qed.

(** ** The caller's list and the table share one object *)

Lemma mapM_bind_Ok {A B C} (f : A → result B) (g : B → result C) (l : list A) (k : list B) :
  mapM f l = Ok k → mapM (λ x, f x ≫= g) l = mapM g k.
Proof.
  intros H%mapM_Ok_Forall2. induction H as [|x y l k Hx _ IH]; simpl; [done|].
  by rewrite Hx, bind_Ok, IH.
Qed.

(** The sort looks at the keys only: two lists with the same keys are
    rearranged alike. *)
Section sort_related.
Context {A B : Type} (P : A → B → Prop).

Lemma sort_insert_related x y l k :
  same_key P x y → Forall2 (same_key P) l k →
  Forall2 (same_key P) (sort_insert x l) (sort_insert y k).
Proof.
  intros Hxy H. induction H as [|x' y' l k Hxy' Hlk IH]; simpl.
  - constructor; [done|constructor].
  - pose proof Hxy as [Hk _]. pose proof Hxy' as [Hk' _]. rewrite Hk, Hk'.
    destruct (String.ltb y'.1 y.1).
    + constructor; [done|]. exact IH.
    + constructor; [done|]. by constructor.
Qed.

Lemma sort_ascending_related l k :
  Forall2 (same_key P) l k → Forall2 (same_key P) (sort_ascending l) (sort_ascending k).
Proof. induction 1; simpl; [constructor | by apply sort_insert_related]. Qed.

Lemma list_sort_related rev l k :
  Forall2 (same_key P) l k → Forall2 (same_key P) (list_sort rev l) (list_sort rev k).
Proof.
  intros H. destruct rev; simpl; [|by apply sort_ascending_related].
  by apply Forall2_reverse, sort_ascending_related, Forall2_reverse.
Qed.

Lemma zip_related keys l k :
  Forall2 P l k → length keys = length l →
  Forall2 (same_key P) (zip keys l) (zip keys k).
Proof.
  intros H. revert keys. induction H as [|x y l k Hxy _ IH]; intros [|key keys] Hlen;
    simplify_eq/=; constructor; [done|]. by apply IH.
Qed.

Lemma related_snd l k : Forall2 (same_key P) l k → Forall2 P l.*2 k.*2.
Proof. induction 1 as [|x y l k [_ ?] _ IH]; simpl; constructor; done. Qed.
End sort_related.

Lemma get_cells_insert_rows h p rows r cs :
  Store.get_cells h r = Ok cs →
  (∀ cs', h !! p ≠ Some (Store.ListOfCells cs')) →
  Store.get_cells (<[p := Store.ListOfRows rows]> h) r = Ok cs.
Proof.
  unfold Store.get_cells. intros Hr Hp. destruct (decide (p = r)) as [->|Hne].
  - destruct (h !! r) as [[|cs']|] eqn:Hh; try done. by destruct (Hp cs').
  - by rewrite lookup_insert_ne.
Qed.

Lemma read_table_insert_rows h p rows body :
  mapM (Store.get_cells h) rows = Ok body →
  (∀ cs', h !! p ≠ Some (Store.ListOfCells cs')) →
  Store.read_table (<[p := Store.ListOfRows rows]> h) p = Ok body.
Proof.
  intros Hb Hp. unfold Store.read_table, Store.get_rows.
  rewrite lookup_insert_eq, bind_Ok. apply mapM_Ok_Forall2.
  apply mapM_Ok_Forall2 in Hb. eapply Forall2_impl; [exact Hb|].
  intros r cs Hr. by apply get_cells_insert_rows.
Qed.

Lemma get_rows_not_cells h p rows :
  Store.get_rows h p = Ok rows → ∀ cs', h !! p ≠ Some (Store.ListOfCells cs').
Proof. unfold Store.get_rows. intros H cs' Hp. by rewrite Hp in H. Qed.

Lemma abstract_inv h self t :
  Store.abstract h self = Ok t →
  ∃ rows,
    Store.get_cells h (Store.default_columns_ref self) = Ok (default_columns t) ∧
    Store.get_rows h (Store.table_ref self) = Ok rows ∧
    mapM (Store.get_cells h) rows = Ok (table t) ∧
    options t = Store.obj_options self ∧
    t = plain_table (default_columns t) (table t) (Store.obj_options self).
Proof.
  unfold Store.abstract, Store.read_table.
  destruct (Store.get_cells h _) as [cols|] eqn:Hcols; [|done]. rewrite bind_Ok.
  destruct (Store.get_rows h _) as [rows|] eqn:Hrows; [|done]. rewrite bind_Ok.
  destruct (mapM _ rows) as [body|] eqn:Hbody; [|done]. rewrite bind_Ok.
  intros [= <-]. by exists rows.
Qed.

(** [sort] on the table object does to the shared list what [TableFu.sort]
    does to the rows of the table. *)
Lemma Store_sort_refines h self t name rev t' :
  Store.abstract h self = Ok t →
  TableFu_sort t name rev = (Ok (), t') →
  ∃ h' self',
    Store.sort h self name rev = (Ok (), h', self') ∧
    Store.table_ref self' = Store.table_ref self ∧
    Store.default_columns_ref self' = Store.default_columns_ref self ∧
    (∀ rows, Store.get_rows h (Store.table_ref self) = Ok rows →
       ∃ rows', Store.get_rows h' (Store.table_ref self) = Ok rows' ∧ rows' ≡ₚ rows) ∧
    Store.read_table h' (Store.table_ref self) = Ok (table t') ∧
    Store.abstract h' self' = Ok t'.
Proof.
  intros Ha Hs. pose proof Ha as (rows & Hcols & Hrows & Hbody & Hopt & Ht)%abstract_inv.
  unfold TableFu_sort in Hs. unfold Store.sort.
  assert (Store.sort_column self name = sort_column t name) as ->.
  { unfold Store.sort_column, sort_column. by rewrite Hopt. }
  destruct (sort_column t name) as [col|]; [|done]. rewrite Hcols.
  destruct (negb (py_in col (default_columns t))); [done|].
  destruct (py_index col (default_columns t)) as [index|]; [|done]. rewrite Hrows.
  unfold Store.row_key. rewrite (mapM_bind_Ok _ _ _ _ Hbody).
  change (mapM (λ cs : list string, list_getitem cs index) (table t))
    with (mapM (λ row : list string, raw_getitem row index) (table t)).
  destruct (mapM (λ row, raw_getitem row index) (table t)) as [keys|] eqn:Hkeys; [|done].
  injection Hs as <-.
  assert (mapM (Store.get_cells h) (list_sort rev (zip keys rows)).*2
          = Ok (list_sort rev (zip keys (table t))).*2) as Hsorted.
  { apply mapM_Ok_Forall2, related_snd, list_sort_related, zip_related.
    - by apply mapM_Ok_Forall2.
    - apply mapM_Ok_Forall2, Forall2_length in Hkeys, Hbody. lia. }
  pose proof (get_rows_not_cells _ _ _ Hrows) as Hp.
  do 2 eexists. split_and!; [done..| | |].
  - intros rows0 [= <-]. eexists. split; [unfold Store.get_rows; by rewrite lookup_insert_eq|].
    rewrite list_sort_Permutation. rewrite snd_zip; [done|].
    apply mapM_Ok_Forall2, Forall2_length in Hkeys, Hbody. lia.
  - by apply read_table_insert_rows.
  - unfold Store.abstract. simpl.
    rewrite (get_cells_insert_rows _ _ _ _ _ Hcols Hp), bind_Ok.
    rewrite (read_table_insert_rows _ _ _ _ Hsorted Hp), bind_Ok.
    f_equal. clear -Ht Hopt. unfold set_options, set_table, plain_table in *.
    destruct t. by simplify_eq/=.
Qed.

Lemma get_cells_frame h h' rows (body : list (list cell)) :
  Forall2 (λ r cs, Store.get_cells h r = Ok cs) rows body →
  (∀ q, q ∈ rows → h' !! q = h !! q) →
  Forall2 (λ r cs, Store.get_cells h' r = Ok cs) rows body.
Proof.
  induction 1 as [|r cs rows body Hr _ IH]; intros Hframe; constructor.
  - unfold Store.get_cells in *. rewrite Hframe; [done|left].
  - apply IH. intros q Hq. apply Hframe. by right.
Qed.

(** [transform] on the table object rewrites the row objects of the shared
    list as [TableFu.transform] rewrites the rows, when the rows are distinct
    objects. *)
Lemma Store_transform_rows_refines index f rows (body body' : list (list cell)) h :
  Forall2 (λ r cs, Store.get_cells h r = Ok cs) rows body →
  NoDup rows →
  transform_rows index f body = (Ok (), body') →
  ∃ h',
    Store.transform_rows index f rows h = (Ok (), h') ∧
    Forall2 (λ r cs, Store.get_cells h' r = Ok cs) rows body' ∧
    (∀ q, q ∉ rows → h' !! q = h !! q).
Proof.
  revert body body' h.
  induction rows as [|r rows IH]; intros body body' h H Hnd Ht.
  - inv H. simpl in Ht. injection Ht as <-. exists h. by split_and!.
  - inv H as [|? cs ? body0 Hr Hrest]. apply NoDup_cons in Hnd as [Hr_notin Hnd].
    simpl in Ht. simpl. rewrite Hr.
    destruct (list_getitem cs index) as [val|]; [|done].
    destruct (list_setitem cs index (f val)) as [cs'|]; [|done].
    destruct (transform_rows index f body0) as [res body0'] eqn:Hres.
    injection Ht as -> <-.
    destruct (IH body0 body0' (<[r := Store.ListOfCells cs']> h))
      as (h' & Hh' & Hall & Hframe).
    + apply (get_cells_frame h); [done|]. intros q Hq.
      apply lookup_insert_ne. by intros ->.
    + done.
    + done.
    + exists h'. split_and!; [done| |].
      * constructor; [|done]. unfold Store.get_cells.
        by rewrite (Hframe r Hr_notin), lookup_insert_eq.
      * intros q Hq. apply not_elem_of_cons in Hq as [Hne Hq].
        by rewrite (Hframe q Hq), lookup_insert_ne.
Qed.

Lemma Store_transform_refines h self t name f t' :
  Store.abstract h self = Ok t →
  (∀ rows, Store.get_rows h (Store.table_ref self) = Ok rows → NoDup rows) →
  TableFu_transform t name (Callable f) = (Ok (), t') →
  ∃ h',
    Store.transform h self name (Callable f) = (Ok (), h') ∧
    Store.read_table h' (Store.table_ref self) = Ok (table t').
Proof.
  intros Ha Hnd Ht. pose proof Ha as (rows & Hcols & Hrows & Hbody & Hopt & _)%abstract_inv.
  unfold TableFu_transform in Ht. unfold Store.transform. rewrite Hcols.
  destruct (negb (py_in name (default_columns t))); [done|].
  destruct (py_index name (default_columns t)) as [index|]; [|done]. rewrite Hrows.
  destruct (transform_rows index f (table t)) as [res body'] eqn:Hres.
  injection Ht as -> <-.
  apply mapM_Ok_Forall2 in Hbody.
  destruct (Store_transform_rows_refines index f rows (table t) body' h Hbody
              (Hnd rows Hrows) Hres) as (h' & Hh' & Hall & Hframe).
  exists h'. split; [done|]. simpl. unfold Store.read_table.
  assert (Store.get_rows h' (Store.table_ref self) = Ok rows) as ->.
  { unfold Store.get_rows in *. rewrite Hframe; [done|].
    intros Hin. apply list_elem_of_lookup in Hin as [i Hi].
    destruct (Forall2_lookup_l _ _ _ _ _ Hbody Hi) as (cs & _ & Hcs).
    unfold Store.get_cells in Hcs.
    by destruct (h !! Store.table_ref self) as [[]|]. }
  rewrite bind_Ok. by apply mapM_Ok_Forall2.
Qed.

(** [add_rows] on the table object appends to the shared list. *)
Lemma Store_add_rows_refines h self t new (newbody : list (list cell)) :
  Store.abstract h self = Ok t →
  mapM (Store.get_cells h) new = Ok newbody →
  ∃ h',
    Store.add_rows h self new = (Ok (), h') ∧
    Store.read_table h' (Store.table_ref self) = Ok (table (TableFu_add_rows t newbody)) ∧
    Store.abstract h' self = Ok (TableFu_add_rows t newbody).
Proof.
  intros Ha Hnew. pose proof Ha as (rows & Hcols & Hrows & Hbody & Hopt & Ht)%abstract_inv.
  unfold Store.add_rows. rewrite Hrows. eexists. split; [done|].
  pose proof (get_rows_not_cells _ _ _ Hrows) as Hp.
  assert (mapM (Store.get_cells h) (rows ++ new) = Ok (table t ++ newbody)) as Hall.
  { apply mapM_Ok_Forall2, Forall2_app; by apply mapM_Ok_Forall2. }
  split; [by apply read_table_insert_rows|].
  unfold Store.abstract.
  rewrite (get_cells_insert_rows _ _ _ _ _ Hcols Hp), bind_Ok.
  rewrite (read_table_insert_rows _ _ _ _ Hall Hp), bind_Ok.
  f_equal. clear -Ht Hopt. unfold TableFu_add_rows, set_table, plain_table in *.
  destruct t. by simplify_eq/=.
Qed.

(** The constructor: the header is popped off the caller's list. *)
Lemma Store_init_refines h p header body opts t :
  Store.read_table h p = Ok (header :: body) →
  TableFu_new (header :: body) opts = Ok t →
  ∃ self h1 hd rows,
    Store.get_rows h p = Ok (hd :: rows) ∧
    Store.init h p opts = (Ok self, h1) ∧
    Store.table_ref self = p ∧
    Store.default_columns_ref self = hd ∧
    (∃ rows1, Store.get_rows h1 p = Ok rows1 ∧ rows1 ≡ₚ rows) ∧
    (opt_sorted_by opts = None → Store.get_rows h1 p = Ok rows) ∧
    Store.abstract h1 self = Ok t.
Proof.
  unfold Store.read_table. intros Hread Hnew.
  destruct (Store.get_rows h p) as [refs|] eqn:Hrefs; [|done]. rewrite bind_Ok in Hread.
  apply mapM_Ok_Forall2 in Hread. inv Hread as [|hd ? rows ? Hhd Hrows].
  pose proof (get_rows_not_cells _ _ _ Hrefs) as Hp.
  set (h1 := <[p := Store.ListOfRows rows]> h).
  set (self := {| Store.table_ref := p; Store.default_columns_ref := hd;
                  Store.obj_options := opts |}).
  assert (Store.abstract h1 self = Ok (plain_table header body opts)) as Ha.
  { unfold Store.abstract, h1. simpl.
    rewrite (get_cells_insert_rows _ _ _ _ _ Hhd Hp), bind_Ok.
    rewrite (read_table_insert_rows h p rows body), bind_Ok; [done| |done].
    by apply mapM_Ok_Forall2. }
  assert (Store.get_rows h1 p = Ok rows) as Hrows1.
  { unfold Store.get_rows, h1. by rewrite lookup_insert_eq. }
  unfold Store.init. rewrite Hrefs. fold h1 self.
  unfold TableFu_new, TableFu_init in Hnew. fold (plain_table header body opts) in Hnew.
  destruct (opt_sorted_by opts) as [[col rev]|] eqn:Hsb.
  - destruct (TableFu_sort (plain_table header body opts) (Some col) rev)
      as [[[]|e] t1] eqn:Hsort; [|done]. injection Hnew as ->.
    destruct (Store_sort_refines h1 self _ _ _ _ Ha Hsort)
      as (h2 & self2 & Hs & Href & Hdef & Hperm & Hread2 & Ha2).
    rewrite Hs. exists self2, h2, hd, rows. split_and!; try done.
    by apply Hperm.
  - injection Hnew as <-. exists self, h1, hd, rows. split_and!; try done.
    by exists rows.
Qed.

(** *** The loop of [transform] on the row objects *)

(** Membership and distinctness in a list that is written out. *)
Ltac not_among :=
  let H := fresh "Hin" in
  intros H; simpl in H;
  repeat (apply elem_of_cons in H as [H|H]; [discriminate|]);
  by apply elem_of_nil in H.

Ltac distinct_refs :=
  repeat (apply NoDup_cons; split; [not_among|]); apply NoDup_nil_2.

Lemma occurrences_cons q r rows :
  occurrences q (r :: rows) = (if decide (r = q) then 1 else 0) + occurrences q rows.
Proof. unfold occurrences. rewrite filter_cons. by destruct (decide (r = q)). Qed.

Lemma occurrences_app q l k : occurrences q (l ++ k) = occurrences q l + occurrences q k.
Proof. unfold occurrences. by rewrite filter_app, length_app. Qed.

Lemma occurrences_not_in q rows : q ∉ rows → occurrences q rows = 0.
Proof.
  induction rows as [|r rows IH]; [done|]. intros [Hne Hq]%not_elem_of_cons.
  rewrite occurrences_cons, decide_False, IH; done.
Qed.

Lemma occurrences_NoDup q rows : NoDup rows → q ∈ rows → occurrences q rows = 1.
Proof.
  induction 1 as [|r rows Hr _ IH]; [by intros ?%elem_of_nil|].
  rewrite occurrences_cons. intros [->|Hq]%elem_of_cons.
  - by rewrite decide_True, occurrences_not_in.
  - rewrite decide_False, IH; [done..|]. by intros ->.
Qed.

Lemma length_rewrite_cell i f cs : length (rewrite_cell i f cs) = length cs.
Proof. apply length_insert. Qed.

Lemma length_rewrite_iter i f k cs : length (Nat.iter k (rewrite_cell i f) cs) = length cs.
Proof. induction k as [|k IH]; [done|]. simpl. by rewrite length_rewrite_cell. Qed.

Lemma iter_rewrite_succ i f k cs :
  Nat.iter k (rewrite_cell i f) (rewrite_cell i f cs) = Nat.iter (S k) (rewrite_cell i f) cs.
Proof. induction k as [|k IH]; [done|]. simpl in *. by rewrite IH. Qed.

Lemma get_cells_lookup h r cs :
  Store.get_cells h r = Ok cs ↔ h !! r = Some (Store.ListOfCells cs).
Proof.
  unfold Store.get_cells. destruct (h !! r) as [[rows|cs']|]; split; try done.
  - by intros [= ->].
  - by intros [= ->].
Qed.

Lemma get_rows_lookup h r rows :
  Store.get_rows h r = Ok rows ↔ h !! r = Some (Store.ListOfRows rows).
Proof.
  unfold Store.get_rows. destruct (h !! r) as [[rows'|cs]|]; split; try done.
  - by intros [= ->].
  - by intros [= ->].
Qed.

(** The loop comes to an object once for every place the list holds it
    at. *)
Lemma Store_transform_rows_visits index f rows h :
  Forall (λ r, ∃ cs, Store.get_cells h r = Ok cs ∧ index < length cs) rows →
  ∃ h',
    Store.transform_rows index f rows h = (Ok (), h') ∧
    ∀ q, h' !! q = rewritten index f (occurrences q rows) <$> h !! q.
Proof.
  revert h. induction rows as [|r rows IH]; intros h Hall.
  - exists h. split; [done|]. intros q. by destruct (h !! q) as [[]|].
  - apply Forall_cons in Hall as [(cs & Hr & Hlen) Hrest].
    cbn [Store.transform_rows]. rewrite Hr, list_getitem_cell_at by done.
    unfold list_setitem. rewrite decide_True by done.
    fold (rewrite_cell index f cs).
    destruct (IH (<[r := Store.ListOfCells (rewrite_cell index f cs)]> h))
      as (h' & Hh' & Hlook).
    { eapply Forall_impl; [exact Hrest|]. intros r' (cs' & Hr' & Hlen').
      destruct (decide (r = r')) as [<-|Hne].
      - exists (rewrite_cell index f cs). split.
        + apply get_cells_lookup, lookup_insert_eq.
        + rewrite length_rewrite_cell. congruence.
      - exists cs'. split; [|done]. apply get_cells_lookup.
        rewrite lookup_insert_ne by done. by apply get_cells_lookup. }
    exists h'. split; [done|]. intros q. rewrite Hlook, occurrences_cons.
    destruct (decide (r = q)) as [<-|Hne].
    + apply get_cells_lookup in Hr. rewrite lookup_insert_eq, Hr. simpl.
      by rewrite iter_rewrite_succ.
    + by rewrite lookup_insert_ne.
Qed.

Lemma Store_transform_rows_app index f pre rest h :
  Store.transform_rows index f (pre ++ rest) h
  = match Store.transform_rows index f pre h with
    | (Ok _, h1) => Store.transform_rows index f rest h1
    | (Raise e, h1) => (Raise e, h1)
    end.
Proof.
  revert h. induction pre as [|r pre IH]; intros h; [done|].
  cbn [app Store.transform_rows]. destruct (Store.get_cells h r) as [cs|]; [|done].
  destruct (list_getitem cs index) as [val|]; [|done].
  destruct (list_setitem cs index (f val)) as [cs'|]; [|done]. apply IH.
Qed.

(** A row object that is too short stops the loop after the row objects in
    front of it. *)
Lemma Store_transform_rows_short index f pre bad post h cs :
  Forall (λ r, ∃ cs, Store.get_cells h r = Ok cs ∧ index < length cs) pre →
  Store.get_cells h bad = Ok cs →
  length cs ≤ index →
  ∃ h',
    Store.transform_rows index f (pre ++ bad :: post) h
    = (Raise (IndexError "list index out of range"), h') ∧
    ∀ q, h' !! q = rewritten index f (occurrences q pre) <$> h !! q.
Proof.
  intros Hpre Hbad Hlen.
  destruct (Store_transform_rows_visits index f pre h Hpre) as (h1 & Hh1 & Hlook).
  exists h1. split; [|done]. rewrite Store_transform_rows_app, Hh1.
  cbn [Store.transform_rows].
  assert (Store.get_cells h1 bad
          = Ok (Nat.iter (occurrences bad pre) (rewrite_cell index f) cs)) as ->.
  { apply get_cells_lookup. apply get_cells_lookup in Hbad. by rewrite Hlook, Hbad. }
  unfold list_getitem. rewrite lookup_ge_None_2; [done|]. rewrite length_rewrite_iter. lia.
Qed.

Lemma get_cells_rewritten h h' i f rows r cs :
  (∀ q, h' !! q = rewritten i f (occurrences q rows) <$> h !! q) →
  Store.get_cells h r = Ok cs →
  Store.get_cells h' r = Ok (Nat.iter (occurrences r rows) (rewrite_cell i f) cs).
Proof.
  intros Hlook Hr. apply get_cells_lookup. apply get_cells_lookup in Hr.
  by rewrite Hlook, Hr.
Qed.

Lemma get_rows_rewritten h h' i f rows p l :
  (∀ q, h' !! q = rewritten i f (occurrences q rows) <$> h !! q) →
  Store.get_rows h p = Ok l →
  Store.get_rows h' p = Ok l.
Proof.
  intros Hlook Hp. apply get_rows_lookup. apply get_rows_lookup in Hp.
  by rewrite Hlook, Hp.
Qed.

Lemma read_rewritten h h' (G : positive → list cell → list cell) l (body : list (list cell)) :
  (∀ r cs, Store.get_cells h r = Ok cs → Store.get_cells h' r = Ok (G r cs)) →
  Forall2 (λ r cs, Store.get_cells h r = Ok cs) l body →
  mapM (Store.get_cells h') l = Ok (zip_with G l body).
Proof.
  intros HG H. apply mapM_Ok_Forall2.
  induction H as [|r cs l body Hr _ IH]; simpl; constructor; auto.
Qed.

Lemma zip_with_const_fst {A B C} (G : A → B → C) (g : B → C) (l : list A) (k : list B) :
  length l = length k → (∀ x, x ∈ l → G x = g) → zip_with G l k = g <$> k.
Proof.
  revert k. induction l as [|x l IH]; intros [|y k] Hlen HG; simpl in *; try done.
  rewrite (HG x) by left. f_equal. apply IH; [lia|]. intros z Hz. apply HG. by right.
Qed.

(** [transform] on the table object: every row object of the list has the
    cell of the column rewritten as often as the list holds it. *)
Lemma Store_transform_effect h self t rows name f i :
  Store.abstract h self = Ok t →
  Store.get_rows h (Store.table_ref self) = Ok rows →
  py_index name (default_columns t) = Some i →
  Forall (λ r, i < length r) (table t) →
  ∃ h',
    Store.transform h self name (Callable f) = (Ok (), h') ∧
    (∀ q, h' !! q = rewritten i f (occurrences q rows) <$> h !! q) ∧
    Store.get_rows h' (Store.table_ref self) = Ok rows ∧
    Store.read_table h' (Store.table_ref self)
    = Ok (zip_with (λ r cs, Nat.iter (occurrences r rows) (rewrite_cell i f) cs)
            rows (table t)) ∧
    (NoDup rows →
       Store.read_table h' (Store.table_ref self) = Ok (rewrite_cell i f <$> table t)).
Proof.
  intros Ha Hrows Hi Hlong.
  pose proof Ha as (rows' & Hcols & Hrows' & Hbody & _ & _)%abstract_inv.
  rewrite Hrows in Hrows'. injection Hrows' as <-.
  apply mapM_Ok_Forall2 in Hbody.
  destruct (Store_transform_rows_visits i f rows h) as (h' & Hh' & Hlook).
  { apply Forall_forall. intros r [n Hn]%list_elem_of_lookup.
    destruct (Forall2_lookup_l _ _ _ _ _ Hbody Hn) as (cs & Hcs & Hr).
    exists cs. split; [done|]. rewrite Forall_forall in Hlong.
    eapply Hlong, list_elem_of_lookup_2, Hcs. }
  assert (Store.read_table h' (Store.table_ref self)
          = Ok (zip_with (λ r cs, Nat.iter (occurrences r rows) (rewrite_cell i f) cs)
                  rows (table t))) as Hread.
  { unfold Store.read_table.
    rewrite (get_rows_rewritten h h' i f rows _ rows Hlook Hrows), bind_Ok.
    apply (read_rewritten h); [|done].
    intros r cs. apply (get_cells_rewritten h h' i f rows r cs Hlook). }
  exists h'. split_and!; [|done|by eapply get_rows_rewritten|done|].
  - unfold Store.transform. rewrite Hcols.
    assert (py_in name (default_columns t) = true) as ->.
    { apply py_in_true. eapply list_elem_of_lookup_2, py_index_Some, Hi. }
    cbn [negb]. by rewrite Hi, Hrows.
  - intros Hnd. rewrite Hread. f_equal. apply zip_with_const_fst.
    + by eapply Forall2_length.
    + intros r Hr. by rewrite occurrences_NoDup.
Qed.

Lemma TableFu_sort_long (t : TableFu (list cell)) name rev col i :
  sort_column t name = Some col →
  py_index col (default_columns t) = Some i →
  Forall (λ r, i < length r) (table t) →
  TableFu_sort t name rev
  = (Ok (), set_options (set_table t (sorted_rows i rev (table t)))
               (set_sorted_by (options t) col rev)).
Proof.
  intros Hc Hi Hlong. unfold TableFu_sort. rewrite Hc.
  assert (py_in col (default_columns t) = true) as ->.
  { apply py_in_true. eapply list_elem_of_lookup_2, py_index_Some, Hi. }
  cbn [negb]. rewrite Hi, keys_of_rows by done. by rewrite zip_decorate.
Qed.

(** C9. The constructor keeps the caller's list and pops the header off it:
    afterwards the caller's list holds the row objects it held behind the
    first one, as they were when no sort is recorded, and it reads as the
    rows of the table. What the table then does is what the caller reads
    through its own reference. After [sort] on a column the caller's list
    is a rearrangement of the rows that is in the order of the column and
    keeps rows with equal values in their order. After [transform] on a
    column every row the caller reads has the cell of the column rewritten,
    once when the list holds every row object once, and in general as often
    as the list holds the row object. After [add_rows] the caller's list
    has the new row objects at its end. *)
Theorem caller_list_is_the_table (h : gmap positive Store.object) (p : positive)
    (header : list string) (body : list (list cell)) (opts : Options)
    (t : TableFu (list cell)) :
  Store.read_table h p = Ok (header :: body) →
  TableFu_new (header :: body) opts = Ok t →
  ∃ self h1 hd rows rows1,
    Store.get_rows h p = Ok (hd :: rows) ∧
    Store.init h p opts = (Ok self, h1) ∧
    Store.table_ref self = p ∧
    Store.get_rows h1 p = Ok rows1 ∧
    rows1 ≡ₚ rows ∧
    (opt_sorted_by opts = None → rows1 = rows ∧ Store.read_table h1 p = Ok body) ∧
    Store.read_table h1 p = Ok (table t) ∧
    (∀ name rev col i,
       sort_column t name = Some col →
       py_index col (default_columns t) = Some i →
       Forall (λ r, i < length r) (table t) →
       ∃ h2 self2 body2,
         Store.sort h1 self name rev = (Ok (), h2, self2) ∧
         Store.table_ref self2 = p ∧
         Store.read_table h2 p = Ok body2 ∧
         body2 ≡ₚ table t ∧
         StronglySorted (row_order i rev) body2 ∧
         (∀ k, filter (λ r, cell_at i r = k) body2
               = filter (λ r, cell_at i r = k) (table t))) ∧
    (∀ name f i,
       py_index name (default_columns t) = Some i →
       Forall (λ r, i < length r) (table t) →
       ∃ h2,
         Store.transform h1 self name (Callable f) = (Ok (), h2) ∧
         Store.get_rows h2 p = Ok rows1 ∧
         Store.read_table h2 p
         = Ok (zip_with (λ r cs, Nat.iter (occurrences r rows1) (rewrite_cell i f) cs)
                 rows1 (table t)) ∧
         (NoDup rows → Store.read_table h2 p = Ok (rewrite_cell i f <$> table t))) ∧
    (∀ new newbody,
       mapM (Store.get_cells h1) new = Ok newbody →
       ∃ h2,
         Store.add_rows h1 self new = (Ok (), h2) ∧
         Store.get_rows h2 p = Ok (rows1 ++ new) ∧
         Store.read_table h2 p = Ok (table t ++ newbody)).
Proof.
  intros Hread Hnew.
  destruct (Store_init_refines h p header body opts t Hread Hnew)
    as (self & h1 & hd & rows & Hrows & Hinit & Hp & _ & (rows1 & Hrows1 & Hperm) & Hns & Ha).
  pose proof Ha as (rows1' & _ & Hrows1' & Hbody1 & _ & _)%abstract_inv.
  rewrite Hp in Hrows1'. rewrite Hrows1 in Hrows1'. injection Hrows1' as <-.
  assert (Store.read_table h1 p = Ok (table t)) as Hread1.
  { unfold Store.read_table. by rewrite Hrows1, bind_Ok. }
  exists self, h1, hd, rows, rows1. split_and!; try done.
  - intros Ho. specialize (Hns Ho). rewrite Hrows1 in Hns. injection Hns as ->.
    split; [done|]. rewrite Hread1. f_equal.
    unfold TableFu_new, TableFu_init in Hnew. rewrite Ho in Hnew. by injection Hnew as <-.
  - intros name rev col i Hc Hi Hlong.
    pose proof (TableFu_sort_long t name rev col i Hc Hi Hlong) as Hs.
    destruct (Store_sort_refines h1 self t name rev _ Ha Hs)
      as (h2 & self2 & Hs2 & Href & _ & _ & Hread2 & _).
    exists h2, self2, (sorted_rows i rev (table t)). rewrite Hp in *.
    split_and!; [done..| | |].
    + apply sorted_rows_Permutation.
    + apply sorted_rows_sorted.
    + intros k. apply sorted_rows_stable.
  - intros name f i Hi Hlong.
    assert (Store.get_rows h1 (Store.table_ref self) = Ok rows1) as Hr1 by by rewrite Hp.
    destruct (Store_transform_effect h1 self t rows1 name f i Ha Hr1 Hi Hlong)
      as (h2 & Ht2 & _ & Hrows2 & Hread2 & Hnd2).
    exists h2. rewrite Hp in *. split_and!; [done..|].
    intros Hnd. apply Hnd2. by rewrite Hperm.
  - intros new newbody Hnewb.
    destruct (Store_add_rows_refines h1 self t new newbody Ha Hnewb)
      as (h2 & Ha2 & Hread2 & _).
    exists h2. rewrite Hp in *. split_and!; [done| |done].
    unfold Store.add_rows in Ha2. rewrite Hp, Hrows1 in Ha2. injection Ha2 as <-.
    unfold Store.get_rows. by rewrite lookup_insert_eq.
Qed.

Lemma caller_list_is_the_table_witness :
  ∃ self h1 hd rows rows1,
    Store.get_rows caller_store 1 = Ok (hd :: rows) ∧
    Store.init caller_store 1 no_options = (Ok self, h1) ∧
    Store.table_ref self = 1%positive ∧
    Store.get_rows h1 1 = Ok rows1 ∧
    rows1 ≡ₚ rows ∧
    (opt_sorted_by no_options = None →
       rows1 = rows ∧ Store.read_table h1 1 = Ok [["2"; "y"]; ["1"; "x"]]) ∧
    Store.read_table h1 1 = Ok [["2"; "y"]; ["1"; "x"]] ∧
    (∀ name rev col i,
       sort_column (plain_table ["A"; "B"] [["2"; "y"]; ["1"; "x"]] no_options) name
       = Some col →
       py_index col ["A"; "B"] = Some i →
       Forall (λ r, i < length r) [["2"; "y"]; ["1"; "x"]] →
       ∃ h2 self2 body2,
         Store.sort h1 self name rev = (Ok (), h2, self2) ∧
         Store.table_ref self2 = 1%positive ∧
         Store.read_table h2 1 = Ok body2 ∧
         body2 ≡ₚ [["2"; "y"]; ["1"; "x"]] ∧
         StronglySorted (row_order i rev) body2 ∧
         (∀ k, filter (λ r, cell_at i r = k) body2
               = filter (λ r, cell_at i r = k) [["2"; "y"]; ["1"; "x"]])) ∧
    (∀ name f i,
       py_index name ["A"; "B"] = Some i →
       Forall (λ r, i < length r) [["2"; "y"]; ["1"; "x"]] →
       ∃ h2,
         Store.transform h1 self name (Callable f) = (Ok (), h2) ∧
         Store.get_rows h2 1 = Ok rows1 ∧
         Store.read_table h2 1
         = Ok (zip_with (λ r cs, Nat.iter (occurrences r rows1) (rewrite_cell i f) cs)
                 rows1 [["2"; "y"]; ["1"; "x"]]) ∧
         (NoDup rows →
            Store.read_table h2 1 = Ok (rewrite_cell i f <$> [["2"; "y"]; ["1"; "x"]]))) ∧
    (∀ new newbody,
       mapM (Store.get_cells h1) new = Ok newbody →
       ∃ h2,
         Store.add_rows h1 self new = (Ok (), h2) ∧
         Store.get_rows h2 1 = Ok (rows1 ++ new) ∧
         Store.read_table h2 1 = Ok ([["2"; "y"]; ["1"; "x"]] ++ newbody)).
Proof.
  apply (caller_list_is_the_table caller_store 1 ["A"; "B"] [["2"; "y"]; ["1"; "x"]]
           no_options (plain_table ["A"; "B"] [["2"; "y"]; ["1"; "x"]] no_options)).
  - vm_compute. reflexivity.
  - reflexivity.
Defined.

(** A row object that the list holds twice is rewritten twice, and the
    caller reads the result at both places. *)
Example transform_shared_row_object :
  ∃ self h1 h2,
    Store.init (<[1%positive := Store.ListOfRows [2%positive; 3%positive; 3%positive]]>
                  shared_row_store) 1 no_options = (Ok self, h1) ∧
    Store.read_table h1 1 = Ok [["1"; "x"]; ["1"; "x"]] ∧
    Store.transform h1 self "B" (Callable (λ v, v +:+ "!")) = (Ok (), h2) ∧
    Store.read_table h2 1 = Ok [["1"; "x!!"]; ["1"; "x!!"]].
Proof. do 3 eexists. split_and!; vm_compute; reflexivity. Qed.

(** The same on the sample store, step by step: the caller's list after
    construction, then after [sort("A")], then after [transform] of column
    ["B"], then after [add_rows] of the row object at reference 2. *)
Example caller_view_step_by_step :
  ∃ self h1 h2 self2 h3 h4,
    Store.init caller_store 1 no_options = (Ok self, h1) ∧
    Store.read_table h1 1 = Ok [["2"; "y"]; ["1"; "x"]] ∧
    Store.sort h1 self (Some "A") false = (Ok (), h2, self2) ∧
    Store.read_table h2 1 = Ok [["1"; "x"]; ["2"; "y"]] ∧
    Store.transform h2 self2 "B" (Callable (λ v, v +:+ "!")) = (Ok (), h3) ∧
    Store.read_table h3 1 = Ok [["1"; "x!"]; ["2"; "y!"]] ∧
    Store.add_rows h3 self2 [2%positive] = (Ok (), h4) ∧
    Store.read_table h4 1 = Ok [["1"; "x!"]; ["2"; "y!"]; ["A"; "B"]].
Proof.
  do 6 eexists. split_and!; vm_compute; reflexivity.
Qed.

(** ** Construction, length and indexing *)

Lemma py_index_None_iff x l : py_index x l = None ↔ x ∉ l.
Proof.
  split.
  - intros Hn Hx. apply py_index_elem_of in Hx as [i Hi]. congruence.
  - intros Hx. destruct (py_index x l) as [i|] eqn:Hi; [|done].
    destruct Hx. eapply list_elem_of_lookup_2, py_index_Some, Hi.
Qed.

Lemma list_getitem_short {A} (l : list A) i :
  ¬ i < length l → list_getitem l i = Raise (IndexError "list index out of range").
Proof.
  intros Hi. unfold list_getitem. rewrite lookup_ge_None_2; [done|lia].
Qed.

(** One row that is too short makes the keys of the rows raise. *)
Lemma keys_of_rows_short i (rows : list (list cell)) :
  ¬ Forall (λ r, i < length r) rows →
  mapM (λ row, raw_getitem row i) rows = Raise (IndexError "list index out of range").
Proof.
  induction rows as [|r rows IH]; intros Hn; [by destruct Hn|].
  cbn [mapM]. change (raw_getitem r i) with (list_getitem r i).
  destruct (decide (i < length r)) as [Hr|Hr].
  - rewrite list_getitem_cell_at, bind_Ok by done.
    rewrite IH; [done|]. intros Hall. apply Hn. by constructor.
  - by rewrite list_getitem_short.
Qed.

Lemma set_sorted_by_same o col rev :
  opt_sorted_by o = Some (col, rev) → set_sorted_by o col rev = o.
Proof. destruct o. simpl. by intros ->. Qed.

Lemma TableFu_new_eq (header : list string) (body : list (list cell)) (opts : Options) :
  TableFu_new [] opts = Raise (IndexError "pop from empty list") ∧
  TableFu_new (header :: body) opts
  = match opt_sorted_by opts with
    | None => Ok (plain_table header body opts)
    | Some (col, rev) =>
        match py_index col header with
        | None => Raise (ValueError (not_a_column col))
        | Some i =>
            if decide (Forall (λ r, i < length r) body)
            then Ok (plain_table header (sorted_rows i rev body) opts)
            else Raise (IndexError "list index out of range")
        end
    end.
Proof.
  split; [done|]. unfold TableFu_new, TableFu_init.
  destruct (opt_sorted_by opts) as [[col rev]|] eqn:Hsb; [|done].
  fold (plain_table header body opts). unfold TableFu_sort.
  assert (sort_column (plain_table header body opts) (Some col) = Some col) as ->.
  { unfold sort_column. simpl. rewrite Hsb. by destruct col. }
  cbn [default_columns plain_table table].
  destruct (py_index col header) as [i|] eqn:Hi.
  - assert (py_in col header = true) as ->.
    { apply py_in_true. eapply list_elem_of_lookup_2, py_index_Some, Hi. }
    cbn [negb]. case_decide as Hw.
    + rewrite keys_of_rows by done. rewrite zip_decorate.
      unfold set_options, set_table, plain_table, sorted_rows. simpl.
      by rewrite set_sorted_by_same.
    + by rewrite keys_of_rows_short.
  - apply py_index_None_iff, py_in_false in Hi. by rewrite Hi.
Qed.

(** X1. The constructor on a 2D list: an empty list raises IndexError; else
    the first row becomes the header and the other rows the body. When the
    options record no sort the body is as given. When they record a sort,
    the body is a rearrangement of the given rows that is in the order of
    the recorded column, ascending or descending as recorded, and in which
    rows with the same value in that column keep the order they were given
    in; a recorded name that is not in the header raises ValueError, and a
    recorded column that some row is too short for raises IndexError. *)
Theorem construct_result (header : list string) (body : list (list cell)) (opts : Options) :
  TableFu_new [] opts = Raise (IndexError "pop from empty list") ∧
  (opt_sorted_by opts = None →
     TableFu_new (header :: body) opts = Ok (plain_table header body opts)) ∧
  (∀ col rev, opt_sorted_by opts = Some (col, rev) →
     (col ∉ header →
        TableFu_new (header :: body) opts = Raise (ValueError (not_a_column col))) ∧
     (∀ i, py_index col header = Some i →
        (¬ Forall (λ r, i < length r) body →
           TableFu_new (header :: body) opts
           = Raise (IndexError "list index out of range")) ∧
        (Forall (λ r, i < length r) body →
           ∃ body',
             TableFu_new (header :: body) opts = Ok (plain_table header body' opts) ∧
             body' ≡ₚ body ∧
             StronglySorted (row_order i rev) body' ∧
             ∀ k, filter (λ r, cell_at i r = k) body'
                  = filter (λ r, cell_at i r = k) body))).
Proof.
  destruct (TableFu_new_eq header body opts) as [Hnil Hnew]. split_and!; [done| |].
  - intros Ho. by rewrite Hnew, Ho.
  - intros col rev Ho. rewrite Hnew, Ho. split.
    + intros Hn%py_index_None_iff. by rewrite Hn.
    + intros i ->. split.
      * intros Hshort. by rewrite decide_False.
      * intros Hlong. rewrite decide_True by done.
        exists (sorted_rows i rev body). split_and!; [done| | |].
        -- apply sorted_rows_Permutation.
        -- apply sorted_rows_sorted.
        -- intros k. apply sorted_rows_stable.
Qed.

Example construct_sorted_descending :
  table <$> TableFu_new [["A"; "B"]; ["1"; "x"]; ["2"; "y"]; ["1"; "z"]] (sorted_by "A" true)
  = Ok [["2"; "y"]; ["1"; "x"]; ["1"; "z"]].
Proof. reflexivity. Qed.

(** X2. On a table of lists [count()] is [len], and [table[i]] is the Row
    that iterating the table gives at position [i]: it holds the cells of
    the raw row [i] and [i] as its number; an index from [len] on raises
    IndexError. *)
Theorem count_len_getitem (t : TableFu (list cell)) :
  ∃ rows,
    TableFu_rows t = Ok rows ∧
    length rows = TableFu_len t ∧
    TableFu_count t = Ok (TableFu_len t) ∧
    (∀ i, TableFu_getitem t i
          = match rows !! i with
            | Some r => Ok r
            | None => Raise (IndexError "list index out of range")
            end) ∧
    (∀ i r, rows !! i = Some r → row_num r = i ∧ table t !! i = Some (cells r)).
Proof.
  exists ((λ ir, row_of t ir.1 ir.2) <$> enumerate (table t)).
  assert (∀ i, enumerate (table t) !! i = (λ raw, (i, raw)) <$> table t !! i) as Hen.
  { intros i. unfold enumerate. rewrite lookup_zip_with.
    destruct (table t !! i) as [raw|] eqn:Hi.
    - rewrite lookup_seq_lt by by eapply lookup_lt_Some. done.
    - by destruct (seq 0 (length (table t)) !! i). }
  assert (length ((λ ir, row_of t ir.1 ir.2) <$> enumerate (table t)) = TableFu_len t)
    as Hlen.
  { unfold TableFu_len, enumerate. rewrite length_fmap, length_zip_with, length_seq. lia. }
  split_and!.
  - apply TableFu_rows_eq.
  - done.
  - unfold TableFu_count. by rewrite TableFu_rows_eq, bind_Ok, Hlen.
  - intros i. unfold TableFu_getitem, list_getitem.
    rewrite list_lookup_fmap, Hen. by destruct (table t !! i).
  - intros i r. rewrite list_lookup_fmap, Hen.
    destruct (table t !! i) as [raw|]; [|done]. by intros [= <-].
Qed.

Lemma mapM_app {A B} (f : A → result B) (l k : list A) (l' k' : list B) :
  mapM f l = Ok l' → mapM f k = Ok k' → mapM f (l ++ k) = Ok (l' ++ k').
Proof.
  intros Hl%mapM_Ok_Forall2 Hk%mapM_Ok_Forall2.
  by apply mapM_Ok_Forall2, Forall2_app.
Qed.

(** X3. [add_rows] appends without looking at the rows: the length grows by
    their number, the rows that were there keep their positions, and the
    new rows follow in the order given. On a rectangular table the values of
    a column get the cells of the new rows at their end when these are as
    long as the header, and [values] raises IndexError when one of them is
    too short for the column. *)
Theorem add_rows_appends (t : TableFu (list cell)) (new : list (list cell)) :
  rows_wide t →
  TableFu_len (TableFu_add_rows t new) = TableFu_len t + length new ∧
  (∀ i raw, table t !! i = Some raw →
     TableFu_getitem (TableFu_add_rows t new) i = Ok (row_of t i raw)) ∧
  (∀ j raw, new !! j = Some raw →
     TableFu_getitem (TableFu_add_rows t new) (TableFu_len t + j)
     = Ok (row_of t (TableFu_len t + j) raw)) ∧
  (∀ name i, py_index name (default_columns t) = Some i →
     TableFu_values (TableFu_add_rows t new) name
     = if decide (Forall (λ r, i < length r) new)
       then Ok ((cell_at i <$> table t) ++ (cell_at i <$> new))
       else Raise (IndexError "list index out of range")).
Proof.
  intros Hw. split_and!.
  - unfold TableFu_len, TableFu_add_rows. simpl. by rewrite length_app.
  - intros i raw Hi. unfold TableFu_getitem, TableFu_add_rows, list_getitem. simpl.
    by rewrite lookup_app_l_Some with (x := raw).
  - intros j raw Hj. unfold TableFu_getitem, TableFu_add_rows, list_getitem, TableFu_len.
    simpl. by rewrite lookup_app_r, Nat.add_comm, Nat.add_sub, Hj by lia.
  - intros name i Hi. unfold TableFu_values. cbn [TableFu_add_rows set_table default_columns table].
    assert (py_in name (default_columns t) = true) as ->.
    { apply py_in_true. eapply list_elem_of_lookup_2, py_index_Some, Hi. }
    cbn [negb]. rewrite Hi.
    assert (Forall (λ r, i < length r) (table t)) as Hold.
    { eapply Forall_impl; [exact Hw|]. intros r ->. by eapply py_index_lt. }
    case_decide as Hnew.
    + rewrite <-fmap_app. apply keys_of_rows. by apply Forall_app.
    + apply keys_of_rows_short. by intros [_ ?]%Forall_app.
Qed.

Lemma add_rows_appends_witness :
  TableFu_len (TableFu_add_rows one_cell_table [["2"]]) = TableFu_len one_cell_table + 1 ∧
  TableFu_values (TableFu_add_rows one_cell_table [["2"]; []]) "A"
  = Raise (IndexError "list index out of range").
Proof.
  assert (rows_wide one_cell_table) as Hw by (repeat constructor).
  split.
  - apply (add_rows_appends one_cell_table [["2"]] Hw).
  - destruct (add_rows_appends one_cell_table [["2"]; []] Hw) as (_ & _ & _ & Hv).
    rewrite (Hv "A" 0 eq_refl). apply decide_False.
    intros Hall. apply Forall_cons in Hall as [_ Hall]. apply Forall_cons in Hall as [Hlt _].
    simpl in Hlt. lia.
Defined.

(** ** Values of a column: transform, map and rows that are too short *)

Lemma cell_at_insert_eq i (r : list cell) v : i < length r → cell_at i (<[i := v]> r) = v.
Proof. intros Hi. unfold cell_at. by rewrite list_lookup_insert_eq. Qed.

Lemma cell_at_insert_ne i j (r : list cell) v : i ≠ j → cell_at j (<[i := v]> r) = cell_at j r.
Proof. intros Hne. unfold cell_at. by rewrite list_lookup_insert_ne. Qed.

Lemma py_index_inj l x y i : py_index x l = Some i → py_index y l = Some i → x = y.
Proof. intros Hx%py_index_Some Hy%py_index_Some. congruence. Qed.

Lemma TableFu_values_column (t : TableFu (list cell)) name :
  name ∈ default_columns t → rows_wide t →
  TableFu_values t name = Ok (column_cells t name).
Proof.
  intros [i Hi]%py_index_elem_of Hw. unfold column_cells. rewrite Hi.
  by apply TableFu_values_eq.
Qed.

(** X4. [transform] on a column of a rectangular table whose list holds
    every row object once, the header object not among them: the call
    returns, and afterwards the table holds the same row objects, each with
    the cell of the column replaced by its image, so [values] of the column
    are the images of the former values while the values of every other
    column, the header, the options and the number of rows are as before.
    In general the loop rewrites a row object as often as the list holds
    it. With something that is not callable it raises TypeError and changes
    nothing. *)
Theorem transform_rewrites_one_column (h : gmap positive Store.object)
    (self : Store.TableObj) (t : TableFu (list cell)) (rows : list positive)
    (name : string) (f : cell → cell) :
  Store.abstract h self = Ok t →
  Store.get_rows h (Store.table_ref self) = Ok rows →
  name ∈ default_columns t →
  rows_wide t →
  ∃ h' i,
    py_index name (default_columns t) = Some i ∧
    Store.transform h self name (Callable f) = (Ok (), h') ∧
    Store.get_rows h' (Store.table_ref self) = Ok rows ∧
    Store.read_table h' (Store.table_ref self)
    = Ok (zip_with (λ r cs, Nat.iter (occurrences r rows) (rewrite_cell i f) cs)
            rows (table t)) ∧
    (NoDup rows → Store.default_columns_ref self ∉ rows →
       ∃ t',
         Store.abstract h' self = Ok t' ∧
         table t' = rewrite_cell i f <$> table t ∧
         default_columns t' = default_columns t ∧
         options t' = options t ∧
         TableFu_len t' = TableFu_len t ∧
         rows_wide t' ∧
         TableFu_values t' name = Ok (f <$> column_cells t name) ∧
         (∀ other, other ∈ default_columns t → other ≠ name →
            TableFu_values t' other = TableFu_values t other)) ∧
    (∀ repr, Store.transform h self name (NotCallable repr)
             = (Raise (TypeError (repr +:+ " isn't callable")), h)).
Proof.
  intros Ha Hrows Hin Hw. destruct (py_index_elem_of _ _ Hin) as [i Hi].
  assert (Forall (λ r, i < length r) (table t)) as Hlt.
  { eapply Forall_impl; [exact Hw|]. intros r ->. by eapply py_index_lt. }
  destruct (Store_transform_effect h self t rows name f i Ha Hrows Hi Hlt)
    as (h' & Ht & Hlook & Hrows' & Hread & Hnd).
  pose proof Ha as (rows0 & Hcols & _ & _ & Hopt & Heq)%abstract_inv.
  exists h', i. split_and!; [done..| |].
  - intros Hnodup Hhd.
    set (t' := plain_table (default_columns t) (rewrite_cell i f <$> table t)
                 (Store.obj_options self)).
    assert (rows_wide t') as Hw'.
    { unfold rows_wide, t'. simpl. rewrite Forall_fmap.
      eapply Forall_impl; [exact Hw|]. intros r Hr. simpl.
      by rewrite length_rewrite_cell. }
    exists t'. split_and!; [|done|done|by rewrite Hopt| |done| |].
    + unfold Store.abstract.
      rewrite (get_cells_rewritten h h' i f rows _ _ Hlook Hcols).
      rewrite occurrences_not_in by done. simpl.
      by rewrite (Hnd Hnodup), bind_Ok.
    + unfold TableFu_len, t'. simpl. by rewrite length_fmap.
    + rewrite (TableFu_values_eq t' name i Hi Hw'). f_equal. unfold column_cells, t'.
      rewrite Hi. simpl. rewrite <-!list_fmap_compose. apply list_fmap_ext.
      intros k r Hr. simpl. apply cell_at_insert_eq.
      rewrite Forall_forall in Hlt. eapply Hlt, list_elem_of_lookup_2, Hr.
    + intros other Ho Hne. destruct (py_index_elem_of _ _ Ho) as [j Hj].
      rewrite (TableFu_values_eq t' other j Hj Hw'), (TableFu_values_eq t other j Hj Hw).
      f_equal. unfold t'. simpl. rewrite <-list_fmap_compose. apply list_fmap_ext.
      intros k r _. simpl. apply cell_at_insert_ne. intros ->.
      apply Hne. by eapply py_index_inj.
  - intros repr. unfold Store.transform. rewrite Hcols.
    apply py_in_true in Hin. by rewrite Hin.
Qed.

Lemma transform_rewrites_one_column_witness :
  ∃ h' t',
    Store.transform table_store table_object "B" (Callable (λ v, v +:+ "!")) = (Ok (), h') ∧
    Store.abstract h' table_object = Ok t' ∧
    table t' = [["2"; "y!"]; ["1"; "x!"]] ∧
    TableFu_values t' "A" = Ok ["2"; "1"].
Proof.
  destruct (transform_rewrites_one_column table_store table_object
              (plain_table ["A"; "B"] [["2"; "y"]; ["1"; "x"]] no_options)
              [3%positive; 4%positive] "B" (λ v, v +:+ "!"))
    as (h' & i & Hi & Ht & _ & _ & Hnd & _).
  - vm_compute. reflexivity.
  - reflexivity.
  - repeat constructor.
  - unfold rows_wide. simpl. repeat constructor.
  - destruct Hnd as (t' & Ha & Htab & _ & _ & _ & _ & _ & Ho).
    + distinct_refs.
    + not_among.
    + exists h', t'. split_and!; [done|done| |].
      * rewrite Htab. injection Hi as <-. reflexivity.
      * rewrite Ho; [reflexivity|repeat constructor|discriminate].
Defined.

(** X5. A row that is too short for a column makes [sort], [values] and
    [total] on that column raise IndexError and change nothing, while
    [transform] raises IndexError after its loop has rewritten the row
    objects in front of the first such row: when the list holds every row
    object once, the rows in front have the cell of the column replaced by
    its image and the short row and the rows behind it are as before. *)
Theorem short_row_errors {num : Type} (int_zero : num) (py_add : num → num → num)
    (py_float : string → string + num) (h : gmap positive Store.object)
    (self : Store.TableObj) (t : TableFu (list cell)) (name : string) (i : nat)
    (pre_refs post_refs : list positive) (bad_ref : positive)
    (pre post : list (list cell)) (bad : list cell) :
  Store.abstract h self = Ok t →
  Store.get_rows h (Store.table_ref self) = Ok (pre_refs ++ bad_ref :: post_refs) →
  table t = pre ++ bad :: post →
  length pre_refs = length pre →
  py_index name (default_columns t) = Some i →
  Forall (λ r, i < length r) pre →
  length bad ≤ i →
  (∀ rev, name ≠ "" ∨ opt_sorted_by (options t) = None →
     Store.sort h self (Some name) rev
     = (Raise (IndexError "list index out of range"), h, self) ∧
     TableFu_sort t (Some name) rev = (Raise (IndexError "list index out of range"), t)) ∧
  TableFu_values t name = Raise (IndexError "list index out of range") ∧
  TableFu_total int_zero py_add py_float t name
  = Raise (IndexError "list index out of range") ∧
  (∀ f, ∃ h',
     Store.transform h self name (Callable f)
     = (Raise (IndexError "list index out of range"), h') ∧
     (∀ q, h' !! q = rewritten i f (occurrences q pre_refs) <$> h !! q) ∧
     (NoDup (pre_refs ++ bad_ref :: post_refs) →
        Store.read_table h' (Store.table_ref self)
        = Ok ((rewrite_cell i f <$> pre) ++ bad :: post))).
Proof.
  intros Ha Hrows Ht Hlen Hi Hpre Hbad.
  pose proof Ha as (rows0 & Hcols & Hrows0 & Hbody & Hopt & _)%abstract_inv.
  rewrite Hrows in Hrows0. injection Hrows0 as <-.
  assert (py_in name (default_columns t) = true) as Hin.
  { apply py_in_true. eapply list_elem_of_lookup_2, py_index_Some, Hi. }
  assert (mapM (λ row : list cell, raw_getitem row i) (table t)
          = Raise (IndexError "list index out of range")) as Hkeys.
  { apply keys_of_rows_short. rewrite Ht. intros [_ Hall]%Forall_app.
    apply Forall_cons in Hall as [Hlt _]. lia. }
  assert (TableFu_values t name = Raise (IndexError "list index out of range")) as Hv.
  { unfold TableFu_values. by rewrite Hin, Hi. }
  pose proof Hbody as Hall%mapM_Ok_Forall2. rewrite Ht in Hall.
  apply Forall2_app_inv in Hall as [Hpre2 Hrest2]; [|done].
  inv Hrest2 as [|? ? ? ? Hbad2 Hpost2].
  split_and!.
  - intros rev Hg. split.
    + unfold Store.sort.
      assert (Store.sort_column self (Some name) = Some name) as ->.
      { pose proof (sort_column_given t name Hg) as Hsc.
        unfold sort_column in Hsc. rewrite Hopt in Hsc. exact Hsc. }
      rewrite Hcols, Hin. cbn [negb]. rewrite Hi, Hrows.
      unfold Store.row_key. rewrite (mapM_bind_Ok _ _ _ _ Hbody).
      change (mapM (λ cs : list string, list_getitem cs i) (table t))
        with (mapM (λ row : list string, raw_getitem row i) (table t)).
      by rewrite Hkeys.
    + unfold TableFu_sort. by rewrite (sort_column_given t name Hg), Hin, Hi, Hkeys.
  - done.
  - unfold TableFu_total. by rewrite Hin, Hv.
  - intros f.
    destruct (Store_transform_rows_short i f pre_refs bad_ref post_refs h bad)
      as (h' & Hh' & Hlook); [|done|done|].
    { apply Forall_forall. intros r [n Hn]%list_elem_of_lookup.
      destruct (Forall2_lookup_l _ _ _ _ _ Hpre2 Hn) as (cs & Hcs & Hr).
      exists cs. split; [done|]. rewrite Forall_forall in Hpre.
      eapply Hpre, list_elem_of_lookup_2, Hcs. }
    exists h'. split_and!; [|done|].
    + unfold Store.transform. rewrite Hcols, Hin. cbn [negb]. by rewrite Hi, Hrows.
    + intros Hnd. apply NoDup_app in Hnd as (Hnd1 & Hdisj & Hnd2).
      unfold Store.read_table.
      rewrite (get_rows_rewritten h h' i f pre_refs _ _ Hlook Hrows), bind_Ok.
      rewrite (read_rewritten h h'
                 (λ r cs, Nat.iter (occurrences r pre_refs) (rewrite_cell i f) cs)
                 (pre_refs ++ bad_ref :: post_refs) (pre ++ bad :: post)).
      * f_equal. rewrite zip_with_app by done. f_equal.
        -- apply zip_with_const_fst; [done|]. intros r Hr.
           by rewrite occurrences_NoDup.
        -- rewrite <-(list_fmap_id (bad :: post)) at 2.
           apply (zip_with_const_fst _ id).
           ++ apply Forall2_length in Hpost2. simpl. lia.
           ++ intros r Hr. rewrite occurrences_not_in; [done|].
              intros Hr'. by apply (Hdisj r).
      * intros r cs. apply (get_cells_rewritten h h' i f pre_refs r cs Hlook).
      * apply Forall2_app; [done|]. by constructor.
Qed.

Lemma short_row_errors_witness :
  TableFu_values (plain_table ["A"; "B"] [["2"; "y"]; ["1"; "x"]; ["3"]] no_options) "B"
  = Raise (IndexError "list index out of range") ∧
  ∃ h',
    Store.transform short_row_store table_object "B" (Callable (λ v, v +:+ "!"))
    = (Raise (IndexError "list index out of range"), h') ∧
    Store.read_table h' 1 = Ok [["2"; "y!"]; ["1"; "x!"]; ["3"]].
Proof.
  destruct (short_row_errors PrimFloat.zero PrimFloat.add float_of_digits
              short_row_store table_object
              (plain_table ["A"; "B"] [["2"; "y"]; ["1"; "x"]; ["3"]] no_options)
              "B" 1 [3%positive; 4%positive] [] 5%positive
              [["2"; "y"]; ["1"; "x"]] [] ["3"]) as (_ & Hv & _ & Ht).
  - vm_compute. reflexivity.
  - reflexivity.
  - reflexivity.
  - reflexivity.
  - reflexivity.
  - repeat constructor.
  - simpl. lia.
  - split; [exact Hv|]. destruct (Ht (λ v, v +:+ "!")) as (h' & Hh' & _ & Hread).
    exists h'. split; [exact Hh'|]. apply Hread. distinct_refs.
Defined.

Lemma mapM_values_columns {B} (t : TableFu (list cell)) (func : cell → B) (cols : list string) :
  rows_wide t → cols ⊆ default_columns t →
  mapM (λ column, TableFu_values t column ≫= λ v : list cell, Ok (func <$> v)) cols
  = Ok ((λ c, func <$> column_cells t c) <$> cols).
Proof.
  intros Hw Hsub. apply mapM_Ok_fmap, Forall_forall. intros c Hc.
  by rewrite (TableFu_values_column t c (Hsub c Hc) Hw), bind_Ok.
Qed.

Lemma mapM_app_Raise {A B} (f : A → result B) (l k : list A) (x : A) (l' : list B) e :
  mapM f l = Ok l' → f x = Raise e → mapM f (l ++ x :: k) = Raise e.
Proof.
  intros Hl%mapM_Ok_Forall2 Hx. induction Hl as [|a b l l' Ha _ IH]; simpl.
  - by rewrite Hx.
  - by rewrite Ha, bind_Ok, IH.
Qed.

(** X6. [map] on a rectangular table. Without column names the function
    goes over the Rows, one result per row. With names of columns it goes
    over the values of each named column, in the order of the names: one
    name gives the one list, two or more names give the list of the lists.
    A name that is not a column, after names that are, raises ValueError. *)
Theorem map_over_columns {B} (t : TableFu (list cell)) (func : map_arg → B)
    (known : list string) :
  rows_wide t →
  known ⊆ default_columns t →
  (∃ rows,
     TableFu_rows t = Ok rows ∧
     length rows = TableFu_len t ∧
     TableFu_map t func [] = Ok (inl ((func ∘ ArgRow) <$> rows))) ∧
  (∀ c, known = [c] →
     TableFu_map t func known = Ok (inl ((func ∘ ArgCell) <$> column_cells t c))) ∧
  (2 ≤ length known →
     TableFu_map t func known
     = Ok (inr ((λ c, (func ∘ ArgCell) <$> column_cells t c) <$> known))) ∧
  (∀ bad rest, bad ∉ default_columns t →
     TableFu_map t func (known ++ bad :: rest)
     = Raise (ValueError (not_a_column bad))).
Proof.
  intros Hw Hsub. split_and!.
  - eexists. split_and!.
    + apply TableFu_rows_eq.
    + unfold TableFu_len, enumerate.
      rewrite !length_fmap, length_zip_with, length_seq. lia.
    + unfold TableFu_map. by rewrite TableFu_rows_eq, bind_Ok.
  - intros c ->. unfold TableFu_map.
    by rewrite (mapM_values_columns t (func ∘ ArgCell) [c] Hw Hsub), bind_Ok.
  - intros Hlen. unfold TableFu_map.
    destruct known as [|c [|c' known]]; [simpl in Hlen; lia..|].
    by rewrite (mapM_values_columns t (func ∘ ArgCell) _ Hw Hsub), bind_Ok.
  - intros bad rest Hbad. unfold TableFu_map.
    assert (mapM (λ column, TableFu_values t column ≫= λ v : list cell,
                            Ok ((func ∘ ArgCell) <$> v)) (known ++ bad :: rest)
            = Raise (ValueError (not_a_column bad))) as Hm.
    { erewrite mapM_app_Raise; [done|by apply mapM_values_columns|].
      by rewrite (TableFu_values_unknown t bad Hbad). }
    destruct (known ++ bad :: rest) as [|c cols] eqn:Hl; [by destruct known|].
    by rewrite Hm.
Qed.

Lemma map_over_columns_witness :
  TableFu_map books_table (λ a, match a with ArgCell v => String.length v | ArgRow r => 0 end)
    ["Style"]
  = Ok (inl [9; 9; 10; 6]) ∧
  TableFu_map books_table (λ a, match a with ArgCell v => String.length v | ArgRow r => 0 end)
    ["Style"; "Nope"]
  = Raise (ValueError (not_a_column "Nope")).
Proof.
  assert (rows_wide books_table) as Hw by (unfold rows_wide; simpl; repeat constructor).
  assert (["Style"] ⊆ default_columns books_table) as Hsub.
  { intros c ->%list_elem_of_singleton. repeat constructor. }
  destruct (map_over_columns books_table
              (λ a, match a with ArgCell v => String.length v | ArgRow r => 0 end)
              ["Style"] Hw Hsub)
    as (_ & H1 & _ & Hbad).
  split.
  - exact (H1 "Style" eq_refl).
  - apply (Hbad "Nope" []). intros Hin. simpl in Hin.
    repeat (apply elem_of_cons in Hin as [Hin|Hin]; [discriminate|]).
    by apply elem_of_nil in Hin.
Defined.

(** Without names the function is applied to the Rows, not to cells. *)
Example map_without_names :
  TableFu_map one_cell_table
    (λ a, match a with ArgRow r => "row " +:+ pretty (row_num r) | ArgCell v => v end) []
  = Ok (inl ["row 0"]).
Proof. reflexivity. Qed.

(** ** Writing to a Row *)

Lemma Row_setitem_known (r : Row) name v i :
  py_index name (view_default_columns (Row_table r)) = Some i →
  i < length (cells r) →
  Row_setitem r name v
  = Ok {| cells := <[i := v]> (cells r); row_num := row_num r; Row_table := Row_table r |}.
Proof.
  intros Hi Hlt. unfold Row_setitem.
  assert (py_in name (view_default_columns (Row_table r)) = true) as ->.
  { apply py_in_true. eapply list_elem_of_lookup_2, py_index_Some, Hi. }
  cbn [negb]. rewrite Hi. unfold list_setitem. by rewrite decide_True.
Qed.

Lemma Row_setitem_unknown (r : Row) name v :
  name ∉ view_default_columns (Row_table r) →
  Row_setitem r name v = Raise (KeyError (not_a_column name)).
Proof. intros Hn%py_in_false. unfold Row_setitem. by rewrite Hn. Qed.

(** Reading a column of a row depends on the table view, the row number and
    the cell under the column only. *)
Lemma Row_getitem_agree (r r' : Row) name :
  Row_table r' = Row_table r → row_num r' = row_num r →
  (∀ i, py_index name (view_default_columns (Row_table r)) = Some i →
        cells r' !! i = cells r !! i) →
  Row_getitem r' name = Row_getitem r name.
Proof.
  intros Ht Hn Hc. unfold Row_getitem, Row_get. rewrite Ht, Hn.
  destruct (py_in _ _); [|done].
  destruct (py_index _ _) as [i|]; [|done].
  unfold list_getitem. by rewrite (Hc i eq_refl).
Qed.

Lemma Row_setitem_effect (r : Row) (name : string) (v : cell) :
  length (cells r) = length (view_default_columns (Row_table r)) →
  name ∈ view_default_columns (Row_table r) →
  ∃ r',
    Row_setitem r name v = Ok r' ∧
    Row_table r' = Row_table r ∧
    row_num r' = row_num r ∧
    length (cells r') = length (cells r) ∧
    Row_getitem r' name
    = Ok {| value := v; Datum_row_num := row_num r; column_name := name |} ∧
    (∀ other, other ≠ name → Row_getitem r' other = Row_getitem r other).
Proof.
  intros Hlen [i Hi]%py_index_elem_of.
  assert (i < length (cells r)) as Hlt by (rewrite Hlen; by eapply py_index_lt).
  eexists. split; [by apply Row_setitem_known|]. split_and!; try done.
  - simpl. by rewrite length_insert.
  - rewrite (Row_getitem_known _ name i); simpl; [|done|by rewrite length_insert].
    by rewrite cell_at_insert_eq.
  - intros other Hne. apply Row_getitem_agree; [done..|].
    simpl. intros j Hj. apply list_lookup_insert_ne. intros ->.
    apply Hne. by eapply py_index_inj.
Qed.

(** X7. [row[name] = v] on a row as long as the header: for a column of the
    table it returns, and afterwards [row[name]] holds [v] while every other
    column, the length and the number of the row are as before; for any
    other name it raises KeyError. *)
Theorem row_setitem_getitem (r : Row) (name : string) (v : cell) :
  length (cells r) = length (view_default_columns (Row_table r)) →
  (name ∉ view_default_columns (Row_table r) →
     Row_setitem r name v = Raise (KeyError (not_a_column name))) ∧
  (name ∈ view_default_columns (Row_table r) →
     ∃ r',
       Row_setitem r name v = Ok r' ∧
       Row_table r' = Row_table r ∧
       row_num r' = row_num r ∧
       Row_len r' = Row_len r ∧
       Row_getitem r' name
       = Ok {| value := v; Datum_row_num := row_num r; column_name := name |} ∧
       (∀ other, other ≠ name → Row_getitem r' other = Row_getitem r other)).
Proof.
  intros Hlen. split; [apply Row_setitem_unknown|]. intros Hin.
  destruct (Row_setitem_effect r name v Hlen Hin) as (r' & ? & ? & ? & ? & ? & ?).
  exists r'. by split_and!.
Qed.

Lemma row_setitem_getitem_witness :
  ∃ r',
    Row_setitem beckett_row "Style" "Absurdism" = Ok r' ∧
    Row_getitem r' "Style"
    = Ok {| value := "Absurdism"; Datum_row_num := 0; column_name := "Style" |} ∧
    Row_getitem r' "Author" = Row_getitem beckett_row "Author".
Proof.
  destruct (row_setitem_getitem beckett_row "Style" "Absurdism" eq_refl) as [_ H].
  destruct H as (r' & Hs & _ & _ & _ & Hg & Ho); [repeat constructor|].
  exists r'. split_and!; [done..|]. by apply Ho.
Defined.

Lemma Row_update_items_known (r : Row) (items : list (string * cell)) :
  length (cells r) = length (view_default_columns (Row_table r)) →
  Forall (λ kv, kv.1 ∈ view_default_columns (Row_table r)) items →
  NoDup items.*1 →
  ∃ r',
    Row_update_items r items = (Ok (), r') ∧
    Row_table r' = Row_table r ∧
    row_num r' = row_num r ∧
    length (cells r') = length (cells r) ∧
    (∀ k v, (k, v) ∈ items →
       Row_getitem r' k
       = Ok {| value := v; Datum_row_num := row_num r; column_name := k |}) ∧
    (∀ other, other ∉ items.*1 → Row_getitem r' other = Row_getitem r other).
Proof.
  intros Hlen Hall. revert r Hlen Hall.
  induction items as [|[k v] items IH]; intros r Hlen Hall Hnd.
  - exists r. split_and!; try done. intros k v Hin. by apply elem_of_nil in Hin.
  - apply Forall_cons in Hall as [Hk Hall]. simpl in Hk.
    apply NoDup_cons in Hnd as [Hk_notin Hnd].
    destruct (Row_setitem_effect r k v Hlen Hk) as (r1 & Hs & Ht1 & Hn1 & Hl1 & Hg1 & Ho1).
    destruct (IH r1) as (r' & Hu & Ht & Hn & Hl & Hg & Ho).
    + by rewrite Hl1, Ht1.
    + by rewrite Ht1.
    + done.
    + exists r'. cbn [Row_update_items fst snd]. rewrite Hs. split_and!.
      * done.
      * by rewrite Ht.
      * by rewrite Hn.
      * by rewrite Hl.
      * intros k' v' [[= -> ->]|Hin]%elem_of_cons.
        -- rewrite (Ho k Hk_notin). done.
        -- rewrite (Hg k' v' Hin). by rewrite Hn1.
      * intros other Hother. cbn [fmap list_fmap fst] in Hother.
        apply not_elem_of_cons in Hother as [Hne Hother].
        rewrite (Ho other Hother). by apply Ho1.
Qed.

Lemma Row_update_items_unknown (r : Row) (items : list (string * cell)) :
  length (cells r) = length (view_default_columns (Row_table r)) →
  Exists (λ kv, kv.1 ∉ view_default_columns (Row_table r)) items →
  ∃ k r',
    k ∈ items.*1 ∧ (k ∉ view_default_columns (Row_table r)) ∧
    Row_update_items r items = (Raise (KeyError (not_a_column k)), r').
Proof.
  revert r. induction items as [|[k v] items IH]; intros r Hlen Hex; [by inv Hex|].
  cbn [Row_update_items fst snd].
  destruct (decide (k ∈ view_default_columns (Row_table r))) as [Hk|Hk].
  - destruct (Row_setitem_effect r k v Hlen Hk) as (r1 & -> & Ht1 & _ & Hl1 & _ & _).
    apply Exists_cons in Hex as [?|Hex]; [done|].
    destruct (IH r1) as (k' & r' & Hin & Hout & Hu).
    + by rewrite Hl1, Ht1.
    + by rewrite Ht1.
    + exists k', r'. rewrite Ht1 in Hout. split_and!; [by right|done..].
  - exists k, r. rewrite Row_setitem_unknown by done. split_and!; [left|done..].
Qed.

(** X8. [row.update(d)] on a row as long as the header: when every key of
    [d] is a column it returns, each key then reads the value [d] gives it
    and every other column reads as before; when some key is not a column it
    raises KeyError for a key of [d] that is not a column. *)
Theorem row_update_writes_items (r : Row) (d : gmap string cell) :
  length (cells r) = length (view_default_columns (Row_table r)) →
  ((∀ k, is_Some (d !! k) → k ∈ view_default_columns (Row_table r)) →
     ∃ r',
       Row_update r d = (Ok (), r') ∧
       Row_len r' = Row_len r ∧
       (∀ k v, d !! k = Some v →
          Row_getitem r' k
          = Ok {| value := v; Datum_row_num := row_num r; column_name := k |}) ∧
       (∀ other, d !! other = None → Row_getitem r' other = Row_getitem r other)) ∧
  (∀ bad, is_Some (d !! bad) → bad ∉ view_default_columns (Row_table r) →
     ∃ k r',
       is_Some (d !! k) ∧ (k ∉ view_default_columns (Row_table r)) ∧
       Row_update r d = (Raise (KeyError (not_a_column k)), r')).
Proof.
  intros Hlen. split.
  - intros Hkeys.
    destruct (Row_update_items_known r (map_to_list d)) as (r' & Hu & _ & _ & Hl & Hg & Ho).
    + done.
    + apply Forall_forall. intros [k v] Hin%elem_of_map_to_list. simpl. by apply Hkeys.
    + apply NoDup_fst_map_to_list.
    + exists r'. split_and!; [done|done| |].
      * intros k v Hk. by apply Hg, elem_of_map_to_list.
      * intros other Hother. apply Ho. intros ([k v] & -> & Hin)%list_elem_of_fmap.
        apply elem_of_map_to_list in Hin. simpl in Hother. congruence.
  - intros bad [v Hbad] Hout.
    destruct (Row_update_items_unknown r (map_to_list d) Hlen) as (k & r' & Hin & Hk & Hu).
    + apply Exists_exists. exists (bad, v). split; [by apply elem_of_map_to_list|done].
    + exists k, r'. split_and!; [|done..].
      apply list_elem_of_fmap in Hin as ([k' v'] & -> & Hin).
      apply elem_of_map_to_list in Hin. by eexists.
Qed.

Lemma row_update_writes_items_witness :
  ∃ r',
    Row_update beckett_row {[ "Style" := "Absurdism" ]} = (Ok (), r') ∧
    Row_getitem r' "Style"
    = Ok {| value := "Absurdism"; Datum_row_num := 0; column_name := "Style" |} ∧
    Row_getitem r' "Author" = Row_getitem beckett_row "Author".
Proof.
  destruct (row_update_writes_items beckett_row {[ "Style" := "Absurdism" ]} eq_refl)
    as [H _].
  destruct H as (r' & Hu & _ & Hg & Ho).
  - intros k [v Hk]. apply lookup_singleton_Some in Hk as [<- _]. repeat constructor.
  - exists r'. split_and!; [done| |].
    + apply Hg. by rewrite lookup_singleton_eq.
    + apply Ho. by rewrite lookup_singleton_ne.
Defined.

(** ** Iterating a Row *)

Lemma py_index_lookup_NoDup l j x : NoDup l → l !! j = Some x → py_index x l = Some j.
Proof.
  intros Hnd. revert j. induction Hnd as [|y l Hy Hnd IH]; intros j Hj; [done|].
  simpl. destruct j as [|j]; simpl in Hj.
  - injection Hj as ->. by rewrite decide_True.
  - rewrite decide_False.
    + by rewrite (IH j Hj).
    + intros ->. apply Hy. by eapply list_elem_of_lookup_2.
Qed.

Lemma Row_values_cells (r : Row) :
  view_columns (Row_table r) = view_default_columns (Row_table r) →
  NoDup (view_default_columns (Row_table r)) →
  length (cells r) = length (view_default_columns (Row_table r)) →
  Row_values r = Ok (cells r).
Proof.
  intros Hcols Hnd Hlen.
  unfold Row_values. rewrite Row_data_eq; [|by rewrite Hcols|done].
  rewrite bind_Ok. f_equal. rewrite Hcols, <-list_fmap_compose.
  apply list_eq. intros j. rewrite list_lookup_fmap.
  destruct (view_default_columns (Row_table r) !! j) as [c|] eqn:Hj; simpl.
  - rewrite (py_index_lookup_NoDup _ j c Hnd Hj). simpl. unfold cell_at.
    destruct (lookup_lt_is_Some_2 (cells r) j) as [v ->]; [|done].
    rewrite Hlen. by eapply lookup_lt_Some.
  - symmetry. apply lookup_ge_None. rewrite Hlen. by apply lookup_ge_None.
Qed.

(** X9. Iterating a Row, as [list(row)] and [row.values()] do, gives its cells
    back when the active columns are the header, the names of the header
    are pairwise distinct and the row is as long as the header. *)
Theorem row_values_are_cells (r : Row) :
  view_columns (Row_table r) = view_default_columns (Row_table r) →
  NoDup (view_default_columns (Row_table r)) →
  length (cells r) = length (view_default_columns (Row_table r)) →
  Row_values r = Ok (cells r) ∧ raw_iter r = Ok (cells r).
Proof. intros Hcols Hnd Hlen. split; by apply Row_values_cells. Qed.

Lemma row_values_are_cells_witness :
  Row_values beckett_row = Ok (cells beckett_row) ∧
  raw_iter beckett_row = Ok (cells beckett_row).
Proof.
  apply (row_values_are_cells beckett_row).
  - reflexivity.
  - simpl. repeat (apply NoDup_cons; split;
      [intros Hin; repeat (apply elem_of_cons in Hin as [Hin|Hin]; [discriminate|]);
       by apply elem_of_nil in Hin|]). apply NoDup_nil_2.
  - reflexivity.
Defined.

(** With a name that occurs twice in the header the cell under its first
    occurrence comes twice. *)
Example row_values_repeated_name :
  Row_values (row_of (plain_table ["A"; "A"] [["1"; "2"]] no_options) 0 ["1"; "2"])
  = Ok ["1"; "1"].
Proof. reflexivity. Qed.

(** ** Comparing Datum objects *)

Lemma ltb_compare (a b : string) : String.ltb a b = true ↔ String.compare a b = Lt.
Proof. unfold String.ltb. by destruct (String.compare a b). Qed.

Lemma compare_refl (a : string) : String.compare a a = Eq.
Proof.
  pose proof (String.compare_antisym a a) as H.
  by destruct (String.compare a a).
Qed.

Lemma compare_Gt_Lt (a b : string) : String.compare a b = Gt ↔ String.compare b a = Lt.
Proof.
  rewrite (String.compare_antisym b a). by destruct (String.compare a b).
Qed.

Lemma ltb_trans (a b c : string) :
  String.ltb a b = true → String.ltb b c = true → String.ltb a c = true.
Proof.
  intros [Hab Hne1]%ltb_true_le [Hbc Hne2]%ltb_true_le.
  destruct (String.ltb a c) eqn:Hac; [done|].
  apply ltb_false_le in Hac. destruct Hne1.
  apply (anti_symm String.le); [done|]. by etrans.
Qed.

(** The string that a comparison reads off its right operand. *)
Lemma Datum_eq_lt_operand (d : Datum) (o : pyobj) :
  ∃ s, (∀ d', Datum_eq d' o = bool_decide (value d' = s)) ∧
       (∀ d', Datum_lt d' o = String.ltb (value d') s).
Proof. destruct o as [s|d0]; by eexists. Qed.

(** X10. [==] and [<] of Datum objects look at the values only, whatever the
    rows and columns, and a raw string compares like a Datum that holds it.
    [==] holds exactly when the values are equal, and [<] is the strict
    order of strings: of [a < b], [a == b] and [b < a] exactly one holds,
    and [<] is transitive. *)
Theorem datum_comparisons (a b c : Datum) :
  (Datum_eq a (PyDatum b) = true ↔ value a = value b) ∧
  Datum_eq a (PyStr (value b)) = Datum_eq a (PyDatum b) ∧
  Datum_lt a (PyStr (value b)) = Datum_lt a (PyDatum b) ∧
  (Datum_lt a (PyDatum b) = true →
     Datum_eq a (PyDatum b) = false ∧ Datum_lt b (PyDatum a) = false) ∧
  (Datum_eq a (PyDatum b) = true →
     Datum_lt a (PyDatum b) = false ∧ Datum_lt b (PyDatum a) = false) ∧
  (Datum_lt a (PyDatum b) = true ∨ Datum_eq a (PyDatum b) = true ∨
   Datum_lt b (PyDatum a) = true) ∧
  (Datum_lt a (PyDatum b) = true → Datum_lt b (PyDatum c) = true →
     Datum_lt a (PyDatum c) = true).
Proof.
  unfold Datum_eq, Datum_lt. split_and!; try done.
  - apply bool_decide_eq_true.
  - intros Hlt. pose proof Hlt as [_ Hne]%ltb_true_le. split.
    + by apply bool_decide_eq_false.
    + apply ltb_compare in Hlt. unfold String.ltb.
      rewrite (String.compare_antisym (value b) (value a)), Hlt. done.
  - intros ->%bool_decide_eq_true. unfold String.ltb. by rewrite compare_refl.
  - destruct (String.compare (value a) (value b)) eqn:Hc.
    + right; left. apply bool_decide_eq_true. by apply String.compare_eq_iff.
    + left. by apply ltb_compare.
    + right; right. by apply ltb_compare, compare_Gt_Lt.
  - apply ltb_trans.
Qed.

(** ** Row classes *)

(** X11. [odd_even] alternates over the integers, negative ones included:
    it is ["even"] at 0, differs between a number and the next, and is the
    same at a number and the next but one; it is ["even"] exactly on the
    even numbers. *)
Theorem odd_even_alternates (n : Z) :
  odd_even 0 = "even" ∧
  odd_even (n + 1) ≠ odd_even n ∧
  odd_even (n + 2) = odd_even n ∧
  (odd_even n = "even" ↔ Z.even n = true) ∧
  (odd_even n = "odd" ↔ Z.odd n = true).
Proof.
  unfold odd_even. split_and!.
  - done.
  - repeat case_decide; try done; Z.div_mod_to_equations; lia.
  - repeat case_decide; try done; Z.div_mod_to_equations; lia.
  - rewrite Z.even_spec. case_decide as H; split; try done.
    + intros _. exists (n `div` 2)%Z. Z.div_mod_to_equations. lia.
    + intros [k ->]. destruct H. Z.div_mod_to_equations. lia.
  - rewrite Z.odd_spec. case_decide as H; split; try done.
    + intros [k ->]. Z.div_mod_to_equations. lia.
    + intros _. exists (n `div` 2)%Z. Z.div_mod_to_equations. lia.
Qed.

(** ** Active columns and headers *)

Lemma headers_of_columns {R} (t : TableFu R) :
  Header_name <$> TableFu_headers t = columns t ∧
  col_num <$> TableFu_headers t = seq 0 (length (columns t)).
Proof.
  unfold TableFu_headers, columns.
  set (cs := match _columns t with [] => default_columns t | _ :: _ => _columns t end).
  unfold enumerate. rewrite <-!list_fmap_compose. split.
  - trans ((zip (seq 0 (length cs)) cs).*2); [by apply list_fmap_ext|].
    apply snd_zip. by rewrite length_seq.
  - trans ((zip (seq 0 (length cs)) cs).*1); [by apply list_fmap_ext|].
    apply fst_zip. by rewrite length_seq.
Qed.

(** X12. After [table.columns = cols] the active columns are [cols], unless
    [cols] is empty, in which case they are the header again; the options
    hold [cols] under ['columns'], and the header and the rows are as
    before. The headers carry the active columns in order, numbered from 0
    by their place among the active columns. A table that [filter] derives
    afterwards has the same active columns. *)
Theorem set_columns_then_read {R} `{RawRow R} (t : TableFu R) (cols : list string) :
  columns (TableFu_set_columns t cols)
  = match cols with [] => default_columns t | _ :: _ => cols end ∧
  opt_columns (options (TableFu_set_columns t cols)) = Some cols ∧
  default_columns (TableFu_set_columns t cols) = default_columns t ∧
  table (TableFu_set_columns t cols) = table t ∧
  Header_name <$> TableFu_headers (TableFu_set_columns t cols)
  = columns (TableFu_set_columns t cols) ∧
  col_num <$> TableFu_headers (TableFu_set_columns t cols)
  = seq 0 (length (columns (TableFu_set_columns t cols))) ∧
  (∀ func t', opt_sorted_by (options t) = None →
     TableFu_filter (TableFu_set_columns t cols) func = Ok t' →
     columns t' = columns (TableFu_set_columns t cols)).
Proof.
  split_and!; try done.
  - apply headers_of_columns.
  - apply headers_of_columns.
  - intros func t' Ho. unfold TableFu_filter.
    destruct (TableFu_rows _) as [rows|]; [|done]. rewrite bind_Ok.
    unfold TableFu_init. simpl. rewrite Ho. by intros [= <-].
Qed.

(** ** Tables derived from a table *)

Lemma transpose_grid_lookup m (g : list (list cell)) i :
  i < m → transpose_grid m g !! i = Some (cell_at i <$> g).
Proof. intros Hi. unfold transpose_grid. by rewrite list_lookup_fmap, lookup_seq_lt. Qed.

Lemma transpose_grid_head m (g : list (list cell)) h b :
  transpose_grid m g = h :: b → h = cell_at 0 <$> g ∧ length b + 1 = m.
Proof.
  intros Hg. split.
  - destruct m as [|m]; [done|]. by injection Hg as <- _.
  - apply (f_equal length) in Hg. rewrite length_transpose_grid in Hg. simpl in Hg. lia.
Qed.

(** X13. [transpose] of a rectangular table with at least one column and no
    recorded sort: the new header is the first column of the grid, the
    former first header name in front; there is one row per further column,
    each as long as the former grid is high; and the cell in row [i],
    column [j] of the new grid is the cell in row [j], column [i] of the
    former one. *)
Theorem transpose_shape (t : TableFu (list cell)) :
  rows_wide t →
  default_columns t ≠ [] →
  opt_sorted_by (options t) = None →
  ∃ t1,
    TableFu_transpose t = Ok t1 ∧
    default_columns t1 = cell_at 0 <$> grid t ∧
    length (default_columns t1) = TableFu_len t + 1 ∧
    TableFu_len t1 + 1 = length (default_columns t) ∧
    rows_wide t1 ∧
    options t1 = options t ∧
    ∀ i j r, i < length (default_columns t) → grid t !! j = Some r →
      ∃ r1, grid t1 !! i = Some r1 ∧ r1 !! j = r !! i ∧ is_Some (r !! i).
Proof.
  intros Hw Hne Ho.
  destruct (TableFu_transpose_unsorted t Hw Hne Ho) as (t1 & Ht1 & Hg1 & Ho1).
  pose proof (transpose_grid_rows (length (default_columns t)) (grid t)) as Hrows.
  rewrite <-Hg1 in Hrows. apply rows_wide_grid in Hrows as [Hw1 Hlen1].
  symmetry in Hg1. apply transpose_grid_head in Hg1 as Hh. destruct Hh as [Hh Hb].
  exists t1. split_and!; [done|done| |done|done|done|].
  - rewrite Hh, length_fmap. unfold TableFu_len, grid. simpl. lia.
  - intros i j r Hi Hj. exists (cell_at i <$> grid t). split_and!.
    + unfold grid at 1. fold (grid t1). rewrite <-Hg1. by apply transpose_grid_lookup.
    + rewrite list_lookup_fmap, Hj. simpl. unfold cell_at.
      assert (length r = length (default_columns t)) as Hr.
      { pose proof (grid_rows t Hw) as Hall. rewrite Forall_forall in Hall.
        eapply Hall, list_elem_of_lookup_2, Hj. }
      destruct (lookup_lt_is_Some_2 r i) as [v ->]; [lia|done].
    + apply lookup_lt_is_Some_2.
      pose proof (grid_rows t Hw) as Hall. rewrite Forall_forall in Hall.
      rewrite (Hall r); [done|]. eapply list_elem_of_lookup_2, Hj.
Qed.

Lemma transpose_shape_witness :
  ∃ t1,
    TableFu_transpose books_table = Ok t1 ∧
    default_columns t1
    = ["Author"; "Samuel Beckett"; "James Joyce"; "Nicholson Baker"; "Vladimir Sorokin"] ∧
    TableFu_len t1 = 3.
Proof.
  destruct (transpose_shape books_table) as (t1 & Ht & Hh & _ & Hl & _).
  - unfold rows_wide. simpl. repeat constructor.
  - discriminate.
  - reflexivity.
  - exists t1. split_and!; [done|by rewrite Hh|]. simpl in Hl. lia.
Defined.

(** *** Facets *)

Lemma filter_by_key_other {A} (key : A → string) (r : A) (rs : list A) (ks : list string) :
  key r ∉ ks →
  (λ k, filter (λ x, key x = k) (r :: rs)) <$> ks = (λ k, filter (λ x, key x = k) rs) <$> ks.
Proof.
  intros Hr. induction ks as [|k ks IH]; [done|].
  apply not_elem_of_cons in Hr as [Hne Hr]. cbn [fmap list_fmap].
  rewrite filter_cons, decide_False by done. f_equal. by apply IH.
Qed.

Lemma concat_filter_by_key_cons {A} (key : A → string) (r : A) (rs : list A)
    (keys : list string) :
  NoDup keys → key r ∈ keys →
  concat ((λ k, filter (λ x, key x = k) (r :: rs)) <$> keys)
  ≡ₚ r :: concat ((λ k, filter (λ x, key x = k) rs) <$> keys).
Proof.
  induction 1 as [|k ks Hk Hnd IH]; intros Hr; [by apply elem_of_nil in Hr|].
  cbn [fmap list_fmap concat]. rewrite filter_cons.
  destruct (decide (key r = k)) as [Heq|Hne].
  - rewrite filter_by_key_other; [done|]. by rewrite Heq.
  - apply elem_of_cons in Hr as [?|Hr]; [done|].
    rewrite (IH Hr). by rewrite Permutation_middle.
Qed.

(** Grouping the elements of a list by a key, one group per key, keeps every
    element once. *)
Lemma concat_filter_by_key {A} (key : A → string) (rows : list A) (keys : list string) :
  NoDup keys → (∀ r, r ∈ rows → key r ∈ keys) →
  concat ((λ k, filter (λ x, key x = k) rows) <$> keys) ≡ₚ rows.
Proof.
  intros Hnd. induction rows as [|r rs IH]; intros Hin.
  - clear. induction keys as [|k ks IH]; [done|]. by simpl.
  - rewrite concat_filter_by_key_cons; [|done|apply Hin; left].
    f_equiv. apply IH. intros x Hx. apply Hin. by right.
Qed.

(** X14. [facet_by] on a column of a rectangular table returns one table per
    distinct value of the column, which are the values that
    [values(column, unique=True)] gives; the tables come in ascending order
    of their values, each has the header of the table and holds the rows
    with its value, at least one, in the order they have in the table; so
    every row of the table is in exactly one of them. *)
Theorem facet_by_groups_rows (t : TableFu (list cell)) (column : string) :
  column ∈ default_columns t →
  rows_wide t →
  ∃ ts i,
    TableFu_facet_by t column = Ok ts ∧
    py_index column (default_columns t) = Some i ∧
    StronglySorted String.le (facet_key <$> ts) ∧
    NoDup (facet_key <$> ts) ∧
    TableFu_values_unique t column = Ok (list_to_set (facet_key <$> ts)) ∧
    Forall (λ ft,
      faceted_on ft = Some (facet_key ft) ∧
      default_columns ft = default_columns t ∧
      table ft ≠ [] ∧
      table ft = filter (λ r, cell_at i r = facet_key ft) (table t)) ts ∧
    concat (table <$> ts) ≡ₚ table t.
Proof.
  intros Hin Hw. destruct (py_index_elem_of _ _ Hin) as [i Hi].
  destruct (TableFu_facet_by_partition t column i Hi Hw)
    as (ts & Hf & Hs & Hnd & Hk & Hall).
  exists ts, i. split_and!; [done..| | |].
  - unfold TableFu_values_unique. rewrite TableFu_values_column by done.
    rewrite bind_Ok. f_equal. unfold column_cells. rewrite Hi. simpl.
    apply set_eq. intros k. rewrite !elem_of_list_to_set. symmetry. apply Hk.
  - rewrite Forall_forall in Hall. apply Forall_forall. intros ft Hft.
    destruct (Hall ft Hft) as (Hon & Hd & Htab). split_and!; [done..| |done].
    assert (facet_key ft ∈ cell_at i <$> table t) as Hv.
    { apply Hk. by apply list_elem_of_fmap_2. }
    apply list_elem_of_fmap in Hv as (r & Hr & Hrin).
    intros Hnil. rewrite Htab in Hnil.
    assert (r ∈ filter (λ r, cell_at i r = facet_key ft) (table t)) as Hrf
      by by apply list_elem_of_filter.
    rewrite Hnil in Hrf. by apply elem_of_nil in Hrf.
  - assert (table <$> ts
            = (λ k, filter (λ r, cell_at i r = k) (table t)) <$> (facet_key <$> ts)) as ->.
    { rewrite <-list_fmap_compose. apply Forall_fmap_ext.
      eapply Forall_impl; [exact Hall|]. by intros ft (_ & _ & ->). }
    apply concat_filter_by_key; [done|].
    intros r Hr. apply Hk. by apply list_elem_of_fmap_2.
Qed.

Lemma facet_by_groups_rows_witness :
  ∃ ts,
    TableFu_facet_by books_table "Style" = Ok ts ∧
    TableFu_values_unique books_table "Style" = Ok (list_to_set (facet_key <$> ts)) ∧
    concat (table <$> ts) ≡ₚ table books_table.
Proof.
  destruct (facet_by_groups_rows books_table "Style") as (ts & i & Hf & _ & _ & _ & Hv & _ & Hp).
  - repeat constructor.
  - unfold rows_wide. simpl. repeat constructor.
  - exists ts. exact (conj Hf (conj Hv Hp)).
Defined.

(** ** Filtering with a predicate and with keywords *)

(** A predicate that never raises: the loop of the builtin [filter] over the
    generator of rows keeps what filtering the list of all rows keeps. *)
Lemma filter_rows_pure {R} `{RawRow R} (func : Row → bool) tbl (raws : list (nat * R)) :
  filter_rows (λ r, Ok (func r)) tbl raws
  = mapM (λ ir : nat * R, Row_init ir.2 ir.1 tbl) raws ≫= λ rows : list Row,
    Ok (List.filter func rows).
Proof.
  induction raws as [|ir raws IH]; [done|].
  cbn [filter_rows mapM]. destruct (Row_init ir.2 ir.1 tbl) as [row|e]; [|done].
  rewrite !bind_Ok, IH. destruct (mapM _ raws) as [rows|e]; [|done].
  rewrite !bind_Ok. simpl. by destruct (func row).
Qed.

Lemma TableFu_filter_with_pure {R} `{RawRow R} (t : TableFu R) (func : Row → bool) :
  TableFu_filter_with t (λ r, Ok (func r)) = TableFu_filter t func.
Proof.
  unfold TableFu_filter_with, TableFu_filter, TableFu_rows. rewrite filter_rows_pure.
  by destruct (mapM _ _).
Qed.

Lemma enumerate_from_snd {A} (l : list A) n : (zip (seq n (length l)) l).*2 = l.
Proof. apply snd_zip. by rewrite length_seq. Qed.

Lemma filter_zip_snd {A B} (P : B → Prop) `{∀ x, Decision (P x)} (ks : list A) (l : list B) :
  length l ≤ length ks →
  (filter (λ ir : A * B, P ir.2) (zip ks l)).*2 = filter P l.
Proof.
  revert ks. induction l as [|x l IH]; intros [|k ks] Hlen; simpl in *; [done|done|lia|].
  rewrite !filter_cons. simpl. destruct (decide (P x)); simpl; rewrite IH by lia; done.
Qed.

Lemma Forall_zip_snd {A B} (P : B → Prop) (ks : list A) (l : list B) :
  Forall P l → Forall (λ ir : A * B, P ir.2) (zip ks l).
Proof.
  intros Hl. apply Forall_forall. intros [k x] Hin%elem_of_zip_r.
  rewrite Forall_forall in Hl. by apply Hl.
Qed.

(** The Row objects of a table that [filter] built iterate as their cells
    and are renumbered from zero. *)
Lemma filtered_rows header o (s : TableFu Row) :
  NoDup header → filtered_from header o s →
  view_of s = header_view header ∧
  Forall (λ r, raw_iter r = Ok (cells r) ∧ length (cells r) = length header) (table s) ∧
  TableFu_rows s
  = Ok ((λ ir : nat * Row, row_at (header_view header) (ir.1, cells ir.2))
          <$> enumerate (table s)).
Proof.
  intros Hnd (Hd & Hc & Ho & Hrows).
  assert (view_of s = header_view header) as Hv.
  { unfold view_of, columns. by rewrite Hc, Hd. }
  assert (Forall (λ r, raw_iter r = Ok (cells r) ∧ length (cells r) = length header)
            (table s)) as Hit.
  { eapply Forall_impl; [exact Hrows|]. intros r [Hr Hlen]. split; [|done].
    apply Row_values_cells; rewrite Hr; simpl; done. }
  split_and!; [done..|].
  unfold TableFu_rows. rewrite Hv. apply mapM_Ok_fmap.
  apply Forall_forall. intros [i r] Hin. unfold enumerate in Hin.
  apply elem_of_zip_r in Hin. rewrite Forall_forall in Hit.
  destruct (Hit r Hin) as [Hr _]. unfold Row_init. cbn [fst snd]. by rewrite Hr.
Qed.

(** X15. [filter] with a predicate, on a table with no recorded sort:
    the new table holds the Row objects on which the predicate is true, in
    their order, under the same header and options, so it is no longer than
    the table. If the table has no columns override, pairwise distinct
    header names and rows as long as the header, the rows of the new table
    hold the cells of the kept rows and are numbered from zero. *)
Theorem filter_keeps_matching_rows (t : TableFu (list cell)) (func : Row → bool) :
  opt_sorted_by (options t) = None →
  ∃ t',
    TableFu_filter t func = Ok t' ∧
    table t' = List.filter func ((λ ir, row_of t ir.1 ir.2) <$> enumerate (table t)) ∧
    Forall (λ row, func row = true) (table t') ∧
    default_columns t' = default_columns t ∧
    options t' = options t ∧
    TableFu_len t' ≤ TableFu_len t ∧
    (_columns t = [] → opt_columns (options t) = None →
     NoDup (default_columns t) → rows_wide t →
     ∃ rows',
       TableFu_rows t' = Ok rows' ∧
       cells <$> rows' = cells <$> table t' ∧
       row_num <$> rows' = seq 0 (TableFu_len t')).
Proof.
  intros Ho.
  set (rows := (λ ir, row_of t ir.1 ir.2) <$> enumerate (table t)).
  assert (TableFu_filter t func
          = Ok {| table := List.filter func rows; default_columns := default_columns t;
                  _columns := default [] (opt_columns (options t));
                  deleted_rows := []; faceted_on := None;
                  formatting := default ∅ (opt_formatting (options t));
                  style := default ∅ (opt_style (options t));
                  options := options t |}) as Hf.
  { unfold TableFu_filter. rewrite TableFu_rows_eq, bind_Ok. unfold TableFu_init.
    by rewrite Ho. }
  eexists. split; [exact Hf|]. cbn [table default_columns options _columns].
  assert (∀ r, r ∈ rows → Row_table r = view_of t ∧ cells r ∈ table t) as Hrows.
  { intros r ([i raw] & -> & Hin)%list_elem_of_fmap. split; [done|].
    unfold enumerate in Hin. by apply elem_of_zip_r in Hin. }
  split_and!; [done| |done|done| |].
  - apply Forall_forall. intros row Hin%list_elem_of_In.
    by apply List.filter_In in Hin as [_ ?].
  - unfold TableFu_len. cbn [table].
    trans (length rows); [apply List.filter_length_le|].
    unfold rows, enumerate. rewrite length_fmap, length_zip_with, length_seq. lia.
  - intros Hc Hoc Hnd Hw.
    match goal with |- ∃ rows', TableFu_rows ?s = _ ∧ _ => set (t' := s) end.
    assert (filtered_from (default_columns t) (options t) t') as Hinv.
    { unfold filtered_from, t'. cbn [table default_columns options _columns].
      rewrite Hoc. split_and!; [done..|].
      apply Forall_forall. intros r Hin%list_elem_of_In.
      apply List.filter_In in Hin as [Hin%list_elem_of_In _].
      destruct (Hrows r Hin) as [Hv Hcs]. split.
      - rewrite Hv. unfold view_of, columns, header_view. by rewrite Hc.
      - unfold rows_wide in Hw. rewrite Forall_forall in Hw. by apply Hw. }
    destruct (filtered_rows _ _ t' Hnd Hinv) as (_ & _ & Hr).
    eexists. split; [exact Hr|]. rewrite <-!list_fmap_compose. split.
    + unfold enumerate.
      trans (cells <$> (zip (seq 0 (length (table t'))) (table t')).*2).
      * rewrite <-list_fmap_compose. by apply list_fmap_ext.
      * by rewrite enumerate_from_snd.
    + unfold TableFu_len, enumerate.
      trans ((zip (seq 0 (length (table t'))) (table t')).*1).
      * by apply list_fmap_ext.
      * apply fst_zip. by rewrite length_seq.
Qed.

Lemma filter_keeps_matching_rows_witness :
  ∃ t',
    TableFu_filter books_table (λ r, bool_decide (cell_at 3 (cells r) = "Modernism")) = Ok t' ∧
    TableFu_len t' ≤ TableFu_len books_table.
Proof.
  destruct (filter_keeps_matching_rows books_table
              (λ r, bool_decide (cell_at 3 (cells r) = "Modernism")))
    as (t' & Hf & _ & _ & _ & _ & Hl & _).
  - reflexivity.
  - exists t'. exact (conj Hf Hl).
Defined.

(** *** Keyword queries *)

(** One keyword: the loop keeps the rows whose cell under the column is the
    value. [g] gives the cells a raw row iterates to. *)
Lemma filter_rows_column {R} `{RawRow R} (g : R → list cell) (V : TableView)
    column value i (raws : list (nat * R)) :
  py_index column (view_default_columns V) = Some i →
  Forall (λ ir, raw_iter ir.2 = Ok (g ir.2) ∧ i < length (g ir.2)) raws →
  filter_rows (column_equals column value) V raws
  = Ok ((λ ir, row_at V (ir.1, g ir.2))
          <$> filter (λ ir : nat * R, cell_at i (g ir.2) = value) raws).
Proof.
  intros Hi. induction 1 as [|ir raws [Hit Hlen] _ IH]; [done|].
  assert (column_equals column value (row_at V (ir.1, g ir.2))
          = Ok (bool_decide (cell_at i (g ir.2) = value))) as Hkeep.
  { unfold column_equals. by rewrite (Row_getitem_known _ column i). }
  cbn [filter_rows]. unfold Row_init. rewrite Hit, !bind_Ok.
  change {| cells := g ir.2; row_num := ir.1; Row_table := V |}
    with (row_at V (ir.1, g ir.2)).
  rewrite Hkeep, bind_Ok, IH, bind_Ok, filter_cons.
  by case_bool_decide; [rewrite decide_True|rewrite decide_False].
Qed.

Lemma TableFu_filter_with_column {R} `{RawRow R} (g : R → list cell) (s : TableFu R)
    column value i :
  opt_sorted_by (options s) = None →
  opt_columns (options s) = None →
  _columns s = [] →
  py_index column (default_columns s) = Some i →
  Forall (λ raw, raw_iter raw = Ok (g raw) ∧ length (g raw) = length (default_columns s))
    (table s) →
  ∃ s',
    TableFu_filter_with s (column_equals column value) = Ok s' ∧
    filtered_from (default_columns s) (options s) s' ∧
    cells <$> table s' = filter (λ cs, cell_at i cs = value) (g <$> table s).
Proof.
  intros Ho Hoc Hc Hi Hrows. unfold TableFu_filter_with.
  assert (view_of s = header_view (default_columns s)) as Hv.
  { unfold view_of, columns. by rewrite Hc. }
  rewrite (filter_rows_column g _ column value i); [|by rewrite Hv|].
  2:{ unfold enumerate.
      apply (Forall_zip_snd (λ raw, raw_iter raw = Ok (g raw) ∧ i < length (g raw))).
      eapply Forall_impl; [exact Hrows|].
      intros raw [Hr Hlen]. split; [done|]. rewrite Hlen. by eapply py_index_lt. }
  rewrite bind_Ok. unfold TableFu_init. rewrite Ho, Hoc.
  assert (cells <$> ((λ ir : nat * R, row_at (view_of s) (ir.1, g ir.2))
            <$> filter (λ ir : nat * R, cell_at i (g ir.2) = value) (enumerate (table s)))
          = filter (λ cs, cell_at i cs = value) (g <$> table s)) as Hcells.
  { rewrite <-list_fmap_compose.
    trans (g <$> (filter (λ ir : nat * R, cell_at i (g ir.2) = value)
                    (enumerate (table s))).*2).
    - rewrite <-list_fmap_compose. by apply list_fmap_ext.
    - trans (g <$> filter (λ raw, cell_at i (g raw) = value) (table s)).
      + f_equal. unfold enumerate.
        pose proof (filter_zip_snd (λ raw, cell_at i (g raw) = value)
                      (seq 0 (length (table s))) (table s)) as Hz.
        apply Hz. by rewrite length_seq.
      + clear. induction (table s) as [|raw l IH]; [done|].
        cbn [fmap list_fmap]. rewrite !filter_cons.
        destruct (decide (cell_at i (g raw) = value)); cbn [fmap list_fmap]; by rewrite IH. }
  eexists. split; [done|]. cbn [table]. split; [|exact Hcells].
  unfold filtered_from. cbn [table default_columns options _columns].
  split_and!; [done..|].
  apply Forall_forall. intros r ([n raw] & -> & Hin)%list_elem_of_fmap.
  split; [by rewrite <-Hv|]. cbn [row_at cells snd].
  apply list_elem_of_filter in Hin as [_ Hin]. unfold enumerate in Hin.
  apply elem_of_zip_r in Hin. rewrite Forall_forall in Hrows. by apply Hrows.
Qed.

Lemma filter_all {A} (P : A → Prop) `{∀ x, Decision (P x)} (l : list A) :
  (∀ x, P x) → filter P l = l.
Proof.
  intros HP. induction l as [|x l IH]; [done|].
  by rewrite filter_cons, decide_True, IH.
Qed.

(** The loop over the further keywords: each pass filters the Row objects of
    the table the pass before returned. *)
Lemma filter_items_conjunction header o (s : TableFu Row) (items : list (string * string)) :
  NoDup header → opt_columns o = None → opt_sorted_by o = None →
  filtered_from header o s →
  Forall (λ cv, cv.1 ∈ header) items →
  ∃ s',
    filter_items s items = Ok s' ∧
    filtered_from header o s' ∧
    cells <$> table s'
    = filter (λ cs, Forall (λ cv : string * string,
                              cell_at (default 0 (py_index cv.1 header)) cs = cv.2) items)
        (cells <$> table s).
Proof.
  intros Hnd Hoc Ho Hinv Hitems. revert s Hinv.
  induction Hitems as [|cv items Hcv _ IH]; intros s Hinv.
  - exists s. split_and!; [done..|]. symmetry. by apply filter_all.
  - destruct (py_index_elem_of _ _ Hcv) as [i Hi].
    destruct (filtered_rows header o s Hnd Hinv) as (_ & Hit & _).
    destruct Hinv as (Hd & Hc & Hopt & Hrows).
    destruct (TableFu_filter_with_column cells s cv.1 cv.2 i)
      as (s1 & Hs1 & Hinv1 & Hcells1).
    + by rewrite Hopt.
    + by rewrite Hopt.
    + done.
    + by rewrite Hd.
    + by rewrite Hd.
    + rewrite Hd, Hopt in Hinv1.
      destruct (IH s1 Hinv1) as (s' & Hs' & Hinv' & Hcells').
      exists s'. split_and!; [|done|].
      * cbn [filter_items]. by rewrite Hs1, bind_Ok.
      * rewrite Hcells', Hcells1, list_filter_filter. apply list_filter_iff.
        intros cs. rewrite Forall_cons, Hi. simpl. tauto.
Qed.

Lemma TableFu_filter_query_bound {R} `{RawRow R} (t : TableFu R)
    (kwargs : gmap string string) :
  kwargs !! "self" = None →
  TableFu_filter_query t kwargs
  = match map_to_list (delete "func" kwargs) with
    | [] => Ok (inl t)
    | cv :: rest =>
        TableFu_filter_with t (column_equals cv.1 cv.2) ≫= λ t1 : TableFu Row,
        filter_items t1 rest ≫= λ t' : TableFu Row, Ok (inr t')
    end.
Proof.
  intros Hself. unfold TableFu_filter_query. rewrite decide_False; [done|].
  rewrite Hself. by intros [? ?].
Qed.

(** X16. [filter] called with keywords [column=value], on a rectangular
    table with pairwise distinct header names, no columns override and no
    recorded sort. A keyword [func] is bound to the parameter of that name
    and takes no part. When every other keyword names a column and there is
    at least one, the new table has the same header and options and holds,
    in their order, the rows that have the given value in every given
    column. *)
Theorem filter_query_conjunction (t : TableFu (list cell)) (kwargs : gmap string string) :
  rows_wide t →
  NoDup (default_columns t) →
  _columns t = [] →
  opt_columns (options t) = None →
  opt_sorted_by (options t) = None →
  kwargs !! "self" = None →
  (∀ column, column ≠ "func" → is_Some (kwargs !! column) → column ∈ default_columns t) →
  delete "func" kwargs ≠ ∅ →
  ∃ t',
    TableFu_filter_query t kwargs = Ok (inr t') ∧
    default_columns t' = default_columns t ∧
    options t' = options t ∧
    cells <$> table t'
    = filter (query_holds (default_columns t) (delete "func" kwargs)) (table t).
Proof.
  intros Hw Hnd Hc Hoc Ho Hself Hq Hne.
  set (query := delete "func" kwargs) in *.
  assert (Forall (λ cv : string * string, cv.1 ∈ default_columns t) (map_to_list query))
    as Hitems.
  { apply Forall_forall. intros [c v] Hin%elem_of_map_to_list. unfold query in Hin.
    apply lookup_delete_Some in Hin as [Hcf Hin]. apply Hq; [done|by eexists]. }
  assert (∀ cs, query_holds (default_columns t) query cs
                ↔ Forall (λ cv : string * string,
                            cell_at (default 0 (py_index cv.1 (default_columns t))) cs = cv.2)
                    (map_to_list query)) as Hholds.
  { intros cs. unfold query_holds. rewrite map_Forall_to_list.
    apply Forall_proper; [|done]. by intros [c v]. }
  rewrite (TableFu_filter_query_bound t kwargs Hself). fold query.
  destruct (map_to_list query) as [|cv rest] eqn:Hl.
  { by apply map_to_list_empty_iff in Hl. }
  apply Forall_cons in Hitems as [Hcv Hrest].
  destruct (py_index_elem_of _ _ Hcv) as [i Hi].
  destruct (TableFu_filter_with_column id t cv.1 cv.2 i Ho Hoc Hc Hi)
    as (s1 & Hs1 & Hinv1 & Hcells1).
  { eapply Forall_impl; [exact Hw|]. by intros r Hr. }
  destruct (filter_items_conjunction _ _ s1 rest Hnd Hoc Ho Hinv1 Hrest)
    as (s' & Hs' & (Hd & _ & Hopt & _) & Hcells').
  exists s'. rewrite Hs1, bind_Ok, Hs', bind_Ok. split_and!; [done..|].
  rewrite Hcells', Hcells1, list_fmap_id, list_filter_filter. apply list_filter_iff.
  intros cs. rewrite Hholds, Forall_cons, Hi. simpl. tauto.
Qed.

Lemma filter_query_conjunction_witness :
  ∃ t',
    TableFu_filter_query books_table {[ "Style" := "Modernism" ]} = Ok (inr t') ∧
    cells <$> table t'
    = filter (query_holds (default_columns books_table)
                (delete "func" {[ "Style" := "Modernism" ]}))
        (table books_table).
Proof.
  destruct (filter_query_conjunction books_table {[ "Style" := "Modernism" ]})
    as (t' & Hf & _ & _ & Hcells).
  - unfold rows_wide. simpl. repeat constructor.
  - simpl. repeat (apply NoDup_cons; split;
      [intros Hin; repeat (apply elem_of_cons in Hin as [Hin|Hin]; [discriminate|]);
       by apply elem_of_nil in Hin|]). apply NoDup_nil_2.
  - reflexivity.
  - reflexivity.
  - reflexivity.
  - reflexivity.
  - intros column _ [v Hv]. apply lookup_singleton_Some in Hv as [<- _]. repeat constructor.
  - rewrite delete_singleton_ne by done.
    intros Hempty. apply (f_equal (λ m : gmap string string, m !! "Style")) in Hempty.
    by rewrite lookup_singleton_eq, lookup_empty in Hempty.
  - exists t'. exact (conj Hf Hcells).
Defined.

Example filter_books_by_keywords :
  (λ r, match r with inl t => table t | inr t => cells <$> table t end)
    <$> TableFu_filter_query books_table
          (<[ "Style" := "Modernism" ]> {[ "Author" := "James Joyce" ]})
  = Ok [["James Joyce"; "Ulysses"; "644"; "Modernism"]].
Proof. vm_compute. reflexivity. Qed.

(** A keyword [func] does not filter, also when the table has a column of
    that name. *)
Example filter_keyword_named_func :
  (λ r, match r with inl t => table t | inr t => cells <$> table t end)
    <$> TableFu_filter_query (plain_table ["func"] [["a"]; ["b"]] no_options)
          {[ "func" := "a" ]}
  = Ok [["a"]; ["b"]].
Proof. vm_compute. reflexivity. Qed.

(** X17. The edges of [filter] called with keywords. Without keywords, and
    with the one keyword [func], it returns the table itself. With a
    keyword [self] it raises TypeError. With one keyword, other than these
    two, whose name is not in the header it raises KeyError as soon as the
    table has a row; on a table with no rows and no recorded sort it
    returns a table with no rows. *)
Theorem filter_query_unknown_column (t : TableFu (list cell)) (column value : string) :
  column ∉ default_columns t →
  column ≠ "func" →
  column ≠ "self" →
  TableFu_filter_query t ∅ = Ok (inl t) ∧
  (∀ v, TableFu_filter_query t {[ "func" := v ]} = Ok (inl t)) ∧
  (∀ kwargs, is_Some (kwargs !! "self") →
     TableFu_filter_query t kwargs
     = Raise (TypeError "filter() got multiple values for keyword argument 'self'")) ∧
  (table t ≠ [] →
   TableFu_filter_query t {[ column := value ]} = Raise (KeyError (not_a_column column))) ∧
  (table t = [] → opt_sorted_by (options t) = None →
   ∃ t', TableFu_filter_query t {[ column := value ]} = Ok (inr t') ∧
         table t' = [] ∧ default_columns t' = default_columns t).
Proof.
  intros Hn Hfunc Hself.
  assert (TableFu_filter_query t {[ column := value ]}
          = TableFu_filter_with t (column_equals column value) ≫= λ t1 : TableFu Row,
            filter_items t1 [] ≫= λ t' : TableFu Row, Ok (inr t')) as Hone.
  { rewrite TableFu_filter_query_bound by by apply lookup_singleton_ne.
    by rewrite delete_singleton_ne, map_to_list_singleton. }
  split_and!.
  - rewrite TableFu_filter_query_bound by done. by rewrite delete_empty, map_to_list_empty.
  - intros v. rewrite TableFu_filter_query_bound by done.
    by rewrite delete_singleton_eq, map_to_list_empty.
  - intros kwargs Hs. unfold TableFu_filter_query. by rewrite decide_True.
  - intros Hne. rewrite Hone. unfold TableFu_filter_with, enumerate.
    destruct (table t) as [|raw rest]; [done|].
    cbn [length seq zip zip_with filter_rows]. unfold Row_init.
    change (raw_iter (0, raw).2) with (@Ok (list string) raw). rewrite !bind_Ok.
    unfold column_equals. by rewrite Row_getitem_unknown.
  - intros Hnil Ho. rewrite Hone. unfold TableFu_filter_with, enumerate. rewrite Hnil.
    cbn [length seq zip zip_with filter_rows]. rewrite bind_Ok.
    unfold TableFu_init. rewrite Ho, bind_Ok. cbn [filter_items]. rewrite bind_Ok.
    by eexists.
Qed.

Lemma filter_query_unknown_column_witness :
  TableFu_filter_query books_table {[ "Year" := "1922" ]}
  = Raise (KeyError "Year isn't a column in this table").
Proof.
  destruct (filter_query_unknown_column books_table "Year" "1922") as (_ & _ & _ & Hr & _).
  - intros Hin; simpl in Hin.
    repeat (apply elem_of_cons in Hin as [Hin|Hin]; [discriminate|]).
    by apply elem_of_nil in Hin.
  - discriminate.
  - discriminate.
  - apply Hr. discriminate.
Defined.

(** ** A Row is a copy of its raw row *)

Lemma get_cells_is_Some h r cs : Store.get_cells h r = Ok cs → is_Some (h !! r).
Proof. unfold Store.get_cells. destruct (h !! r); [by eexists|done]. Qed.

Lemma get_rows_is_Some h r rows : Store.get_rows h r = Ok rows → is_Some (h !! r).
Proof. unfold Store.get_rows. destruct (h !! r); [by eexists|done]. Qed.

(** A store that agrees with [h] on the objects of [h] holds the same table. *)
Lemma abstract_frame h h' self t :
  Store.abstract h self = Ok t →
  (∀ q, is_Some (h !! q) → h' !! q = h !! q) →
  Store.abstract h' self = Ok t.
Proof.
  intros Ht Hframe.
  destruct (abstract_inv h self t Ht) as (rows & Hcols & Hrows & Hbody & _ & _).
  assert (Store.get_cells h' (Store.default_columns_ref self) = Ok (default_columns t))
    as Hcols'.
  { unfold Store.get_cells. rewrite Hframe; [exact Hcols|]. by eapply get_cells_is_Some. }
  assert (Store.get_rows h' (Store.table_ref self) = Ok rows) as Hrows'.
  { unfold Store.get_rows. rewrite Hframe; [exact Hrows|]. by eapply get_rows_is_Some. }
  assert (mapM (Store.get_cells h') rows = Ok (table t)) as Hbody'.
  { apply mapM_Ok_Forall2. apply mapM_Ok_Forall2 in Hbody.
    eapply get_cells_frame; [exact Hbody|].
    intros q Hq. apply Hframe. apply list_elem_of_lookup in Hq as [n Hn].
    destruct (Forall2_lookup_l _ _ _ n q Hbody Hn) as (cs & _ & Hcs).
    by eapply get_cells_is_Some. }
  unfold Store.abstract, Store.read_table in *.
  rewrite Hcols, Hrows, !bind_Ok, Hbody, bind_Ok in Ht.
  by rewrite Hcols', Hrows', !bind_Ok, Hbody', bind_Ok.
Qed.

(** X18. [table[i]] makes a Row that owns a copy of the cells of row [i]:
    it stands for the Row of the table at [i]; writing a cell of it by
    column name changes the Row, which then reads the new value, and leaves
    the table as it was. *)
Theorem row_is_a_copy (h : gmap positive Store.object) (self : Store.TableObj)
    (t : TableFu (list cell)) (i j : nat) (name : string) (v : cell) (cs : list cell) :
  Store.abstract h self = Ok t →
  table t !! i = Some cs →
  py_index name (default_columns t) = Some j →
  j < length cs →
  ∃ row h1 h2,
    RowStore.table_getitem h self i = (Ok row, h1) ∧
    RowStore.abstract h1 row = TableFu_getitem t i ∧
    RowStore.setitem h1 row name v = (Ok (), h2) ∧
    Store.get_cells h2 (RowStore.cells_ref row) = Ok (<[j := v]> cs) ∧
    RowStore.abstract h2 row = (TableFu_getitem t i ≫= λ r : Row, Row_setitem r name v) ∧
    Store.abstract h1 self = Ok t ∧
    Store.abstract h2 self = Ok t ∧
    Store.read_table h2 (Store.table_ref self) = Ok (table t).
Proof.
  intros Ht Hi Hj Hlt.
  destruct (abstract_inv h self t Ht) as (rows & Hcols & Hrows & Hbody & _ & _).
  apply mapM_Ok_Forall2 in Hbody.
  destruct (Forall2_lookup_r _ _ _ i cs Hbody Hi) as (raw & Hraw & Hcs).
  set (l := fresh (dom h)).
  assert (h !! l = None) as Hl by apply not_elem_of_dom, is_fresh.
  set (row := {| RowStore.cells_ref := l; RowStore.obj_row_num := i;
                 RowStore.obj_table := self |}).
  set (h1 := <[l := Store.ListOfCells cs]> h).
  set (h2 := <[l := Store.ListOfCells (<[j := v]> cs)]> h1).
  assert (∀ q, is_Some (h !! q) → h1 !! q = h !! q) as Hf1.
  { intros q [o Hq]. unfold h1. rewrite lookup_insert_ne; [done|]. congruence. }
  assert (∀ q, is_Some (h !! q) → h2 !! q = h !! q) as Hf2.
  { intros q Hq. unfold h2. rewrite lookup_insert_ne; [by apply Hf1|].
    destruct Hq as [o Hq]. congruence. }
  pose proof (abstract_frame h h1 self t Ht Hf1) as Ht1.
  pose proof (abstract_frame h h2 self t Ht Hf2) as Ht2.
  assert (TableFu_getitem t i = Ok {| cells := cs; row_num := i; Row_table := view_of t |})
    as Hget.
  { unfold TableFu_getitem, list_getitem. by rewrite Hi. }
  exists row, h1, h2. split_and!.
  - unfold RowStore.table_getitem, RowStore.init, list_getitem.
    by rewrite Hrows, Hraw, Hcs.
  - unfold RowStore.abstract. cbn [RowStore.obj_table RowStore.cells_ref row].
    rewrite Ht1, bind_Ok. unfold Store.get_cells, h1. by rewrite lookup_insert_eq, Hget.
  - unfold RowStore.setitem. cbn [RowStore.obj_table RowStore.cells_ref row].
    destruct (abstract_inv h1 self t Ht1) as (_ & -> & _).
    assert (py_in name (default_columns t) = true) as ->.
    { apply py_in_true. eapply list_elem_of_lookup_2, py_index_Some, Hj. }
    cbn [negb]. rewrite Hj. unfold Store.get_cells at 1, h1 at 1.
    rewrite lookup_insert_eq. unfold list_setitem. by rewrite decide_True.
  - unfold Store.get_cells, h2. by rewrite lookup_insert_eq.
  - unfold RowStore.abstract. cbn [RowStore.obj_table RowStore.cells_ref row].
    rewrite Ht2, bind_Ok. unfold Store.get_cells, h2. rewrite lookup_insert_eq, Hget.
    rewrite !bind_Ok. by rewrite (Row_setitem_known _ name v j).
  - done.
  - done.
  - destruct (abstract_inv h2 self t Ht2) as (rows2 & _ & Hr2 & Hb2 & _).
    unfold Store.read_table. by rewrite Hr2, bind_Ok.
Qed.

Lemma row_is_a_copy_witness :
  ∃ row h1 h2,
    RowStore.table_getitem table_store table_object 1 = (Ok row, h1) ∧
    RowStore.setitem h1 row "B" "new" = (Ok (), h2) ∧
    Store.get_cells h2 (RowStore.cells_ref row) = Ok ["1"; "new"] ∧
    Store.read_table h2 1 = Ok [["2"; "y"]; ["1"; "x"]].
Proof.
  destruct (row_is_a_copy table_store table_object
              (plain_table ["A"; "B"] [["2"; "y"]; ["1"; "x"]] no_options)
              1 1 "B" "new" ["1"; "x"])
    as (row & h1 & h2 & Hg & _ & Hs & Hc & _ & _ & _ & Hr).
  - vm_compute. reflexivity.
  - reflexivity.
  - reflexivity.
  - simpl. lia.
  - exists row, h1, h2. exact (conj Hg (conj Hs (conj Hc Hr))).
Defined.

(** ** Tables of Row objects, unknown facets and grids that do not transpose *)

Lemma set_table_same {R} (s : TableFu R) : set_table s (table s) = s.
Proof. by destruct s. Qed.

Lemma keys_of_Rows_raise i (r : Row) (rest : list Row) :
  mapM (λ row : Row, raw_getitem row i) (r :: rest)
  = Raise (KeyError (not_a_column (pretty i))).
Proof. reflexivity. Qed.

(** X19. A table that [filter] returned holds Row objects as its raw rows,
    and a Row indexed by an integer raises KeyError. So on such a table
    with at least one row, [values], [total], [sort] and [transform] on a
    column of the table raise KeyError with the index of the column in
    place of a name and leave the table as it was, and [transpose] raises
    it with index 0; the rows of the table can still be read. *)
Theorem filtered_table_rejects_column_access {num : Type} (int_zero : num)
    (py_add : num → num → num) (py_float : string → string + num)
    (s : TableFu Row) (name : string) (i : nat) :
  py_index name (default_columns s) = Some i →
  table s ≠ [] →
  TableFu_values s name = Raise (KeyError (not_a_column (pretty i))) ∧
  TableFu_total int_zero py_add py_float s name
  = Raise (KeyError (not_a_column (pretty i))) ∧
  (∀ rev, name ≠ "" ∨ opt_sorted_by (options s) = None →
     TableFu_sort s (Some name) rev = (Raise (KeyError (not_a_column (pretty i))), s)) ∧
  (∀ f, TableFu_transform s name (Callable f)
        = (Raise (KeyError (not_a_column (pretty i))), s)) ∧
  TableFu_transpose s = Raise (KeyError (not_a_column "0")) ∧
  (∀ header o, NoDup header → filtered_from header o s →
     ∃ rows, TableFu_rows s = Ok rows ∧ cells <$> rows = cells <$> table s).
Proof.
  intros Hi Hne.
  assert (∀ header o, NoDup header → filtered_from header o s →
            ∃ rows, TableFu_rows s = Ok rows ∧ cells <$> rows = cells <$> table s) as Hread.
  { intros header o Hnd Hinv. destruct (filtered_rows header o s Hnd Hinv) as (_ & _ & Hr).
    eexists. split; [exact Hr|]. rewrite <-list_fmap_compose. unfold enumerate.
    trans (cells <$> (zip (seq 0 (length (table s))) (table s)).*2).
    - rewrite <-list_fmap_compose. by apply list_fmap_ext.
    - by rewrite enumerate_from_snd. }
  destruct (table s) as [|r rest] eqn:Ht; [done|].
  assert (py_in name (default_columns s) = true) as Hin.
  { apply py_in_true. eapply list_elem_of_lookup_2, py_index_Some, Hi. }
  assert (TableFu_values s name = Raise (KeyError (not_a_column (pretty i)))) as Hv.
  { unfold TableFu_values. rewrite Hin. cbn [negb]. by rewrite Hi, Ht. }
  split_and!.
  - done.
  - unfold TableFu_total. rewrite Hin. cbn [negb]. by rewrite Hv.
  - intros rev Hg. by apply (TableFu_sort_Row_raises s (Some name) rev name i r rest);
      [apply sort_column_given| |].
  - intros f. unfold TableFu_transform. rewrite Hin. cbn [negb]. rewrite Hi, Ht.
    cbn [transform_rows]. change (raw_getitem r i) with (Row_getitem_int r i).
    unfold Row_getitem_int. by rewrite <-Ht, set_table_same.
  - unfold TableFu_transpose.
    destruct (default_columns s) as [|c cols] eqn:Hd; [done|].
    assert (transpose_column s 0 = Raise (KeyError (not_a_column "0"))) as Hc.
    { unfold transpose_column. rewrite Hd, Ht. reflexivity. }
    cbn [length seq mapM]. by rewrite Hc.
  - done.
Qed.

Lemma filtered_table_rejects_column_access_witness :
  TableFu_filter_query books_table {[ "Style" := "Modernism" ]} = Ok (inr modernists) ∧
  TableFu_values modernists "Style" = Raise (KeyError "3 isn't a column in this table") ∧
  TableFu_transpose modernists = Raise (KeyError "0 isn't a column in this table").
Proof.
  destruct (filtered_table_rejects_column_access 0%Z Z.add (λ _, inr 0%Z)
              modernists "Style" 3) as (Hv & _ & _ & _ & Ht & _).
  - reflexivity.
  - discriminate.
  - split; [vm_compute; reflexivity|]. exact (conj Hv Ht).
Defined.

(** X20. [facet_by] with a name that is not a column raises KeyError as
    soon as the table has a row; on a table with no rows it returns no
    tables, whatever the name. *)
Theorem facet_by_unknown_column (t : TableFu (list cell)) (column : string) :
  column ∉ default_columns t →
  (table t ≠ [] → TableFu_facet_by t column = Raise (KeyError (not_a_column column))) ∧
  (table t = [] → ∀ any, TableFu_facet_by t any = Ok []).
Proof.
  intros Hn. split.
  - intros Hne. unfold TableFu_facet_by. rewrite TableFu_rows_eq, bind_Ok.
    destruct (table t) as [|raw rest]; [done|].
    unfold enumerate. cbn [length seq zip zip_with fmap list_fmap facet_rows].
    by rewrite Row_getitem_unknown.
  - intros Hnil any. unfold TableFu_facet_by. rewrite TableFu_rows_eq, bind_Ok, Hnil.
    unfold enumerate. cbn [length seq zip zip_with fmap list_fmap facet_rows].
    rewrite bind_Ok, map_to_list_empty. reflexivity.
Qed.

Lemma facet_by_unknown_column_witness :
  TableFu_facet_by books_table "Year" = Raise (KeyError "Year isn't a column in this table").
Proof.
  destruct (facet_by_unknown_column books_table "Year") as [Hr _].
  - intros Hin; simpl in Hin.
    repeat (apply elem_of_cons in Hin as [Hin|Hin]; [discriminate|]).
    by apply elem_of_nil in Hin.
  - apply Hr. discriminate.
Defined.

(** *** Grids that are not rectangular *)

Lemma mapM_first_Raise {A B} (f : A → result B) (g : A → B) (l k : list A) (x : A) e :
  Forall (λ a, f a = Ok (g a)) l → f x = Raise e → mapM f (l ++ x :: k) = Raise e.
Proof.
  induction 1 as [|a l Ha _ IH]; intros Hx; simpl.
  - by rewrite Hx.
  - by rewrite Ha, bind_Ok, IH.
Qed.

Lemma transpose_column_long (t : TableFu (list cell)) i :
  i < length (default_columns t) →
  Forall (λ r, i < length r) (table t) →
  transpose_column t i = Ok (cell_at i <$> grid t).
Proof.
  intros Hi Hrows. unfold transpose_column.
  rewrite list_getitem_cell_at, bind_Ok by done. by rewrite keys_of_rows.
Qed.

(** X21. [transpose] away from rectangular tables. With an empty header it
    raises the IndexError of the constructor on an empty list. With a row
    shorter than the header it raises IndexError. With rows at least as
    long as a header that is not empty, and no recorded sort, it returns
    the transposed grid of the columns under the header: the cells beyond
    the header are left out. *)
Theorem transpose_ragged (t : TableFu (list cell)) :
  (default_columns t = [] →
     TableFu_transpose t = Raise (IndexError "pop from empty list")) ∧
  (Exists (λ r, length r < length (default_columns t)) (table t) →
     TableFu_transpose t = Raise (IndexError "list index out of range")) ∧
  (default_columns t ≠ [] →
   Forall (λ r, length (default_columns t) ≤ length r) (table t) →
   opt_sorted_by (options t) = None →
     ∃ t1, TableFu_transpose t = Ok t1 ∧
           grid t1 = transpose_grid (length (default_columns t)) (grid t) ∧
           rows_wide t1).
Proof.
  split_and!.
  - intros Hd. unfold TableFu_transpose. by rewrite Hd.
  - intros Hex.
    (* the first column that some row is too short for *)
    assert (∃ i, i < length (default_columns t) ∧
                 ¬ Forall (λ r, i < length r) (table t) ∧
                 ∀ j, j < i → Forall (λ r, j < length r) (table t)) as (i & Hi & Hbad & Hgood).
    { assert (∃ n, n < length (default_columns t) ∧
                   ¬ Forall (λ r, n < length r) (table t)) as (n & Hn & Hnb).
      { apply Exists_exists in Hex as (r & Hr & Hlen).
        exists (length r). split; [done|]. rewrite Forall_forall. intros Hall.
        specialize (Hall r Hr). lia. }
      clear Hex. induction n as [n IHn] using lt_wf_ind.
      destruct (decide (Exists (λ j, ¬ Forall (λ r, j < length r) (table t)) (seq 0 n)))
        as [Hex|Hno].
      - apply Exists_exists in Hex as (j & Hj%elem_of_seq & Hjb).
        apply (IHn j); [lia|lia|done].
      - exists n. split_and!; [done..|]. intros j Hj.
        destruct (decide (Forall (λ r, j < length r) (table t))) as [|Hnot]; [done|].
        destruct Hno. apply Exists_exists. exists j. split; [apply elem_of_seq; lia|done]. }
    unfold TableFu_transpose.
    assert (seq 0 (length (default_columns t))
            = seq 0 i ++ i :: seq (S i) (length (default_columns t) - S i)) as ->.
    { replace (length (default_columns t)) with (i + S (length (default_columns t) - S i))
        at 1 by lia.
      by rewrite seq_app. }
    rewrite (mapM_first_Raise _ (λ j, cell_at j <$> grid t) _ _ _
               (IndexError "list index out of range")); [done| |].
    + apply Forall_forall. intros j Hj%elem_of_seq.
      apply transpose_column_long; [lia|]. apply Hgood. lia.
    + unfold transpose_column. rewrite list_getitem_cell_at, bind_Ok by done.
      by rewrite keys_of_rows_short.
  - intros Hne Hlong Ho. unfold TableFu_transpose.
    assert (mapM (transpose_column t) (seq 0 (length (default_columns t)))
            = Ok (transpose_grid (length (default_columns t)) (grid t))) as ->.
    { apply mapM_Ok_fmap, Forall_forall. intros i Hi%elem_of_seq.
      apply transpose_column_long; [lia|].
      eapply Forall_impl; [exact Hlong|]. intros r Hr. simpl in Hr. lia. }
    rewrite bind_Ok.
    destruct (transpose_grid (length (default_columns t)) (grid t)) as [|h b] eqn:Hg.
    { apply (f_equal length) in Hg. rewrite length_transpose_grid in Hg.
      by destruct (default_columns t). }
    rewrite (TableFu_new_unsorted _ _ h b eq_refl Ho). eexists. split; [done|].
    split; [done|].
    pose proof (transpose_grid_rows (length (default_columns t)) (grid t)) as Hrows.
    rewrite Hg in Hrows.
    by apply (rows_wide_grid (plain_table h b (options t))) in Hrows as [? _].
Qed.

Example transpose_drops_long_cells :
  grid <$> TableFu_transpose long_row_table = Ok [["A"; "1"; "2"]; ["B"; "x"; "y"]] ∧
  TableFu_transpose ragged_table = Raise (IndexError "list index out of range") ∧
  TableFu_transpose (plain_table [] [["1"]] no_options)
  = Raise (IndexError "pop from empty list").
Proof. split_and!; reflexivity. Qed.
